(** * Earth Sentinel: the dispatch and tracking engine

    A shallow embedding of
    [earth_sentinel_backend/src/models/dispatch_system.py]: the resource
    registry and its discovery query ([BeckNDiscoveryService]), and the
    assignment engine with its poll-driven progress tracker
    ([DispatchFulfillmentService]).

    Python values are embedded as follows.
    - [float] is the kernel's binary64 type, so [+], [-], [*], [/] and the
      comparisons are the IEEE-754 operations CPython performs; the points
      where Python raises instead of producing an IEEE special value
      (division by zero, [int()] of a NaN or an infinity, [timedelta] of a
      non-finite number) are written out and return [Raise].
    - [int] is [Z]; [str] is [string]; [Optional[T]] is [option T].
    - a [dict] is an association list in insertion order, the order in
      which [.values()] and [.items()] enumerate it.
    - a [datetime] is a number of microseconds ([Z]), a [timedelta] a
      difference of two of them.
    - objects held in the services' dictionaries and mutated in place are
      entries of those dictionaries, updated under their key.
    - the two sources of nondeterminism, [datetime.utcnow()] and
      [uuid.uuid4()], are explicit arguments of the operations that read them.
    - a value annotated [any] (an entry of [requirements], decoded from
      JSON) is a value of [ReqValue]: [None], a [bool], an [int], a [float],
      a [str], a list or an object of such values. The comparisons made on
      it are Python's: [==] with a string holds for an equal string only,
      [<] with an [int] compares numbers by their value and raises
      [TypeError] on anything else, and [.items()] exists on an object
      only.
    - the great-circle distance [Location.distance_to] is evaluated by the C
      library ([math.sin], [math.cos], [math.atan2], [math.sqrt]) and is a
      parameter of the development, a function from two locations to a
      float or an exception: [math.sqrt(1 - a)] raises [ValueError] when
      rounding takes [a] above 1. What is proved holds for every such
      function; the examples are run with a stand-in that, like the
      formula, gives a NaN for a NaN coordinate.

    What the embedding leaves out: the bounds of [datetime] (years 1 to
    9999), an [int] too large to convert to a [float] (the integers
    converted are lengths, small counts and differences of instants), and
    [list.sort] on keys that [<] does not order totally (NaN distances), on
    which the properties of the sort are stated for numbers only. The fields
    of the dataclasses hold values of their annotated types
    ([lat: float], [capabilities: List[str]], [capacity: Dict[str, int]]). *)

From Stdlib Require Import ZArith List String Ascii Bool Lia Floats.
From Stdlib Require Import Sorted Permutation DecimalString.
Import ListNotations.

Set Implicit Arguments.
Set Warnings "-inexact-float,-abstract-large-number,-register-all".
Local Open Scope Z_scope.
Local Open Scope string_scope.

(* ================================================================== *)
(** * Python exceptions and results *)

Inductive PyExn : Set :=
| ZeroDivisionError
| ValueError
| OverflowError
| AttributeError
| TypeError
| KeyError
| IndexError.

Inductive Res (A : Type) : Type :=
| Ok (a : A)
| Raise (e : PyExn).

Arguments Ok {A} a.
Arguments Raise {A} e.

Definition res_bind {A B : Type} (r : Res A) (f : A -> Res B) : Res B :=
  match r with
  | Ok a => f a
  | Raise e => Raise e
  end.

Declare Scope res_scope.
Delimit Scope res_scope with res.
Notation "x <~ r ;; k" := (res_bind r (fun x => k))
  (at level 61, r at next level, right associativity) : res_scope.

(* ================================================================== *)
(** * Python numbers *)

Module Py.

(** The value of an [int] as a [float] (round to nearest, ties to even). *)
Definition float_of_int (z : Z) : float :=
SF2Prim (binary_normalize prec emax z 0 false).

(** Truncation toward zero of a finite float. *)
Definition trunc (x : float) : Z :=
match Prim2SF x with
| S754_finite s m e =>
    let a := if (0 <=? e)%Z then Z.shiftl (Zpos m) e
             else Z.shiftr (Zpos m) (- e) in
    if s then (- a)%Z else a
| _ => 0%Z
end.

(** [int(x)] for a float [x]. *)
Definition int (x : float) : Res Z :=
if is_nan x then Raise ValueError
else if is_infinity x then Raise OverflowError
else Ok (trunc x).

(** [x / y] on floats. *)
Definition truediv (x y : float) : Res float :=
if (y =? 0)%float then Raise ZeroDivisionError else Ok (x / y)%float.

(** [n < x] for an [int] and a [float]: the two values are compared as
    they are, the integer is not rounded to a float first. A NaN is not
    above anything. *)
Definition int_lt_float (n : Z) (x : float) : bool :=
match Prim2SF x with
| S754_nan => false
| S754_infinity s => negb s
| S754_zero _ => (n <? 0)%Z
| S754_finite s m e =>
    let a := if s then Zneg m else Zpos m in
    if (0 <=? e)%Z then (n <? a * 2 ^ e)%Z else (n * 2 ^ (- e) <? a)%Z
end.

(** [min(a, b)]: the first argument unless the second is smaller. *)
Definition min (a b : float) : float :=
if (b <? a)%float then b else a.

(** [max(a, b)] on integers. *)
Definition max (a b : Z) : Z :=
if (a <? b)%Z then b else a.

(** [range(a, b)]. *)
Definition range (a b : Z) : list Z :=
map (fun k => (a + Z.of_nat k)%Z) (seq 0 (Z.to_nat (b - a))).

(** [str(n)] for an integer. *)
Definition str (n : Z) : string :=
NilZero.string_of_int (Z.to_int n).

(** [l[i]], negative indices counting from the end. *)
Definition getitem {A : Type} (l : list A) (i : Z) : Res A :=
let n := Z.of_nat (List.length l) in
let j := if (i <? 0)%Z then (i + n)%Z else i in
if (j <? 0)%Z then Raise IndexError
else match nth_error l (Z.to_nat j) with
     | Some a => Ok a
     | None => Raise IndexError
     end.

(** Truthiness of an [Optional[str]]: [None] and the empty string are falsy. *)
Definition truthy (s : option string) : bool :=
match s with
| None => false
| Some s' => negb (String.eqb s' "")
end.

End Py.

(* ================================================================== *)
(** * datetime and timedelta *)

(** Microseconds since the epoch, and differences of such. The bounds of
    [datetime] (years 1 to 9999) are not modelled. *)
Definition datetime := Z.
Definition timedelta := Z.

Module Timedelta.

Definition us_per_second : Z := 1000000.
Definition us_per_day : Z := 86400 * us_per_second.
Definition max_delta_days : Z := 999999999.

(** The nearest integer to [leftover], a float strictly between -1 and 1,
  a tie going to the side that makes [x + _] even. *)
Definition round_leftover (leftover : float) (x : Z) : Z :=
if (0.5 <? leftover)%float then 1
else if (leftover <? -0.5)%float then (-1)
else if (leftover =? 0.5)%float then (if Z.odd x then 1 else 0)
else if (leftover =? -0.5)%float then (if Z.odd x then (-1) else 0)
else 0.

(** [timedelta(seconds=x)] for a float [x], as CPython's [delta_new]
  computes it: the whole seconds exactly, the fractional part scaled to
  microseconds in floating point and rounded to the nearest microsecond,
  ties to even; [days] outside of +-999999999 is an [OverflowError]. *)
Definition of_seconds (x : float) : Res timedelta :=
if is_nan x then Raise ValueError
else if is_infinity x then Raise OverflowError
else
  let ip := Py.trunc x in
  let fp := (x - Py.float_of_int ip)%float in
  let sum := (ip * us_per_second)%Z in
  let us :=
    if (fp =? 0)%float then sum
    else
      let d := (Py.float_of_int us_per_second * fp)%float in
      let ip2 := Py.trunc d in
      let leftover := (d - Py.float_of_int ip2)%float in
      let y := (sum + ip2)%Z in
      (y + round_leftover leftover y)%Z in
  let days := (us / us_per_day)%Z in
  if ((days <? - max_delta_days) || (max_delta_days <? days))%Z%bool
  then Raise OverflowError
  else Ok us.

(** [td.total_seconds()] is [microseconds / 10**6] on two integers: the
  quotient of the integers rounded once, to the nearest float, and not the
  quotient of the two integers rounded to floats. *)
Definition total_seconds (td : timedelta) : float :=
match td with
| Z0 => 0%float
| Zpos p =>
    SF2Prim (SFdiv prec emax (S754_finite false p 0)
                             (S754_finite false 1000000 0))
| Zneg p =>
    SF2Prim (SFdiv prec emax (S754_finite true p 0)
                             (S754_finite false 1000000 0))
end.

End Timedelta.

(* ================================================================== *)
(** * Dictionaries *)

(** A [dict] with string keys, in insertion order. *)
Definition dict (V : Type) : Type := list (string * V).

Section Dict.
Context {V : Type}.

(** [d.get(k)], [None] when the key is absent. *)
Fixpoint dict_get (k : string) (d : dict V) : option V :=
  match d with
  | [] => None
  | (k', v) :: d' => if String.eqb k k' then Some v else dict_get k d'
  end.

(** [k in d]. *)
Definition dict_mem (k : string) (d : dict V) : bool :=
  match dict_get k d with
  | Some _ => true
  | None => false
  end.

(** [d[k]], a [KeyError] when the key is absent. *)
Definition dict_getitem (k : string) (d : dict V) : Res V :=
  match dict_get k d with
  | Some v => Ok v
  | None => Raise KeyError
  end.

(** [d[k] = v]: an existing key keeps its place, a new one goes last. *)
Fixpoint dict_set (k : string) (v : V) (d : dict V) : dict V :=
  match d with
  | [] => [(k, v)]
  | (k', v') :: d' =>
      if String.eqb k k' then (k, v) :: d' else (k', v') :: dict_set k v d'
  end.

(** [d.values()]. *)
Definition dict_values (d : dict V) : list V := map snd d.
End Dict.

(* ================================================================== *)
(** * Data model *)

Module ResourceType.
Inductive t : Set :=
| DRONE
| AUTONOMOUS_VEHICLE
| EMERGENCY_TEAM
| SUPPLY_DELIVERY
| MEDICAL_UNIT.

Definition eqb (a b : t) : bool :=
  match a, b with
  | DRONE, DRONE
  | AUTONOMOUS_VEHICLE, AUTONOMOUS_VEHICLE
  | EMERGENCY_TEAM, EMERGENCY_TEAM
  | SUPPLY_DELIVERY, SUPPLY_DELIVERY
  | MEDICAL_UNIT, MEDICAL_UNIT => true
  | _, _ => false
  end.
End ResourceType.

Module ResourceStatus.
Inductive t : Set :=
| AVAILABLE
| DISPATCHED
| EN_ROUTE
| ARRIVED
| COMPLETED
| FAILED
| MAINTENANCE.

Definition eqb (a b : t) : bool :=
  match a, b with
  | AVAILABLE, AVAILABLE
  | DISPATCHED, DISPATCHED
  | EN_ROUTE, EN_ROUTE
  | ARRIVED, ARRIVED
  | COMPLETED, COMPLETED
  | FAILED, FAILED
  | MAINTENANCE, MAINTENANCE => true
  | _, _ => false
  end.
End ResourceStatus.

Module DispatchStatus.
Inductive t : Set :=
| PENDING
| SEARCHING
| ASSIGNED
| DISPATCHED
| IN_PROGRESS
| COMPLETED
| FAILED
| CANCELLED.
End DispatchStatus.

Record Location : Type := mkLocation {
  lat : float;
  lon : float;
  address : option string
}.

Module Resource.
Record t : Type := mk {
  resource_id : string;
  resource_type : ResourceType.t;
  name : string;
  location : Location;
  capabilities : list string;
  capacity : dict Z;
  status : ResourceStatus.t;
  operator : string;
  contact_info : dict string;
  metadata : dict string
}.

(** [self.status = s] and [self.location = l] on a resource object. *)
Definition set_status (s : ResourceStatus.t) (r : t) : t :=
  mk (resource_id r) (resource_type r) (name r) (location r)
     (capabilities r) (capacity r) s (operator r) (contact_info r)
     (metadata r).

Definition set_location (l : Location) (r : t) : t :=
  mk (resource_id r) (resource_type r) (name r) l
     (capabilities r) (capacity r) (status r) (operator r) (contact_info r)
     (metadata r).
End Resource.

(** The value of one entry of [DispatchRequest.requirements], a
    [Dict[str, any]] decoded from JSON: [None], a [bool], an [int], a
    [float], a [str], a [list] of such values, or a [dict] of them. *)
Inductive ReqValue : Type :=
| VNone
| VBool (b : bool)
| VInt (n : Z)
| VFloat (x : float)
| VStr (s : string)
| VList (l : list ReqValue)
| VDict (d : list (string * ReqValue)).

Module DispatchRequest.
Record t : Type := mk {
  request_id : string;
  requester_id : string;
  location : Location;
  resource_type : ResourceType.t;
  priority : Z;
  requirements : dict ReqValue;
  description : string;
  created_at : datetime;
  deadline : option datetime
}.
End DispatchRequest.

(** One entry of [DispatchAssignment.progress_updates]; [timestamp] holds
    the instant whose ISO-8601 text the source stores. *)
Record ProgressUpdate : Type := mkProgressUpdate {
  timestamp : datetime;
  update_status : string;
  message : string;
  progress_percentage : option Z
}.

Module DispatchAssignment.
Record t : Type := mk {
  assignment_id : string;
  request_id : string;
  resource_id : string;
  status : DispatchStatus.t;
  assigned_at : datetime;
  estimated_arrival : option datetime;
  actual_arrival : option datetime;
  completion_time : option datetime;
  route : list Location;
  current_location : option Location;
  progress_updates : list ProgressUpdate
}.

Definition set_status (s : DispatchStatus.t) (a : t) : t :=
  mk (assignment_id a) (request_id a) (resource_id a) s (assigned_at a)
     (estimated_arrival a) (actual_arrival a) (completion_time a) (route a)
     (current_location a) (progress_updates a).

Definition set_estimated_arrival (e : option datetime) (a : t) : t :=
  mk (assignment_id a) (request_id a) (resource_id a) (status a)
     (assigned_at a) e (actual_arrival a) (completion_time a) (route a)
     (current_location a) (progress_updates a).

Definition set_actual_arrival (e : option datetime) (a : t) : t :=
  mk (assignment_id a) (request_id a) (resource_id a) (status a)
     (assigned_at a) (estimated_arrival a) e (completion_time a) (route a)
     (current_location a) (progress_updates a).

Definition set_completion_time (e : option datetime) (a : t) : t :=
  mk (assignment_id a) (request_id a) (resource_id a) (status a)
     (assigned_at a) (estimated_arrival a) (actual_arrival a) e (route a)
     (current_location a) (progress_updates a).

Definition set_route (r : list Location) (a : t) : t :=
  mk (assignment_id a) (request_id a) (resource_id a) (status a)
     (assigned_at a) (estimated_arrival a) (actual_arrival a)
     (completion_time a) r (current_location a) (progress_updates a).

Definition set_current_location (l : option Location) (a : t) : t :=
  mk (assignment_id a) (request_id a) (resource_id a) (status a)
     (assigned_at a) (estimated_arrival a) (actual_arrival a)
     (completion_time a) (route a) l (progress_updates a).

(** [self.progress_updates.append(u)]. *)
Definition append_update (u : ProgressUpdate) (a : t) : t :=
  mk (assignment_id a) (request_id a) (resource_id a) (status a)
     (assigned_at a) (estimated_arrival a) (actual_arrival a)
     (completion_time a) (route a) (current_location a)
     (progress_updates a ++ [u]).
End DispatchAssignment.

(** One entry of [fulfillment_history]: the [to_dict()] snapshots taken at
    completion. *)
Record Fulfillment : Type := mkFulfillment {
  f_assignment : DispatchAssignment.t;
  f_resource : Resource.t;
  f_request : DispatchRequest.t;
  completed_at : datetime
}.

(* ================================================================== *)
(** * Sorting *)

(** [list.sort(key=...)] compares keys with [<] only and is stable. On keys
    that [<] orders totally every stable sort returns the same list, the one
    built here by insertion from the right: an element goes after the
    elements whose key is smaller and before all others. *)
Section Sort.
Context {A K : Type}.
Variable lt : K -> K -> bool.
Variable key : A -> K.

Fixpoint sort_insert (x : A) (l : list A) : list A :=
  match l with
  | [] => [x]
  | y :: l' =>
      if lt (key y) (key x) then y :: sort_insert x l' else x :: y :: l'
  end.

Definition list_sort (l : list A) : list A := fold_right sort_insert [] l.
End Sort.

(** The key function is called once on each element, in the order of the
    list and before anything is moved; an exception it raises leaves the
    sort. The elements are then ordered by the keys computed. *)
Section SortByKey.
Context {A K : Type}.
Variable lt : K -> K -> bool.
Variable key : A -> Res K.

Fixpoint sort_keys (l : list A) : Res (list (K * A)) :=
  match l with
  | [] => Ok []
  | x :: l' =>
      (k <~ key x ;;
       rest <~ sort_keys l' ;;
       Ok ((k, x) :: rest))%res
  end.

Definition list_sort_key (l : list A) : Res (list A) :=
  (decorated <~ sort_keys l ;;
   Ok (map snd (list_sort lt fst decorated)))%res.
End SortByKey.

(** [a < b] on the tuples [(float, int)] used as sort keys: the first
    components that differ decide. *)
Definition tuple_lt (a b : float * Z) : bool :=
  if negb (fst a =? fst b)%float then (fst a <? fst b)%float
  else if negb (Z.eqb (snd a) (snd b)) then Z.ltb (snd a) (snd b)
  else false.

(* ================================================================== *)
(** * The services *)

Section Engine.

(** [Location.distance_to], in meters: a number, or the [ValueError] that
    [math.sqrt(1 - a)] raises when rounding has taken [a] above 1, which
    happens between points that are nearly antipodal. *)
Variable distance_to : Location -> Location -> Res float.

(** ** BeckNDiscoveryService *)

(** [service_providers] is never read and is left out. *)
Record BeckNDiscoveryService : Type := mkDiscovery {
  resources : dict Resource.t
}.

(** [cap in resource.capabilities] for one element of [required_caps]: only
    a string can equal a capability. *)
Definition cap_in (cap : ReqValue) (caps : list string) : bool :=
  match cap with
  | VStr s => existsb (String.eqb s) caps
  | _ => false
  end.

(** [value < min_value] for a capacity, which is an [int], and a threshold
    of the request: a number is compared by its value, [True] and [False]
    being the integers 1 and 0; anything else is a [TypeError]. *)
Definition capacity_lt (value : Z) (min_value : ReqValue) : Res bool :=
  match min_value with
  | VInt n => Ok (Z.ltb value n)
  | VBool b => Ok (Z.ltb value (if b then 1 else 0))
  | VFloat x => Ok (Py.int_lt_float value x)
  | _ => Raise TypeError
  end.

(** The loop over [req_value.items()] of the "min_capacity" rule; [false]
    when it reaches one of its [return False]. A threshold is compared only
    if the resource has the capacity it names. *)
Fixpoint min_capacity_ok (capacity : dict Z) (items : dict ReqValue)
    : Res bool :=
  match items with
  | [] => Ok true
  | (capacity_type, min_value) :: rest =>
      match dict_get capacity_type capacity with
      | None => Ok false
      | Some value =>
          (below <~ capacity_lt value min_value ;;
           if below then Ok false else min_capacity_ok capacity rest)%res
      end
  end.

(** [resource.operator != req_value]. *)
Definition operator_differs (operator : string) (req_value : ReqValue) : bool :=
  match req_value with
  | VStr s => negb (String.eqb operator s)
  | _ => true
  end.

Fixpoint _meets_requirements (resource : Resource.t)
    (requirements : dict ReqValue) : Res bool :=
  match requirements with
  | [] => Ok true
  | (req_key, req_value) :: rest =>
      if String.eqb req_key "capabilities" then
        let required_caps :=
          match req_value with
          | VList l => l
          | _ => [req_value]
          end in
        if negb (existsb (fun cap => cap_in cap (Resource.capabilities resource))
                         required_caps)
        then Ok false
        else _meets_requirements resource rest
      else if String.eqb req_key "min_capacity" then
        match req_value with
        | VDict items =>
            (met <~ min_capacity_ok (Resource.capacity resource) items ;;
             if met then _meets_requirements resource rest else Ok false)%res
        | _ => Raise AttributeError
        end
      else if String.eqb req_key "operator" then
        if operator_differs (Resource.operator resource) req_value
        then Ok false
        else _meets_requirements resource rest
      else _meets_requirements resource rest
  end.

(** The loop of [discover_resources] over [self.resources.values()]. *)
Fixpoint discover_loop (request : DispatchRequest.t) (max_distance_km : float)
    (values : list Resource.t) : Res (list Resource.t) :=
  match values with
  | [] => Ok []
  | resource :: rest =>
      if negb (ResourceType.eqb (Resource.resource_type resource)
                                (DispatchRequest.resource_type request))
      then discover_loop request max_distance_km rest
      else if negb (ResourceStatus.eqb (Resource.status resource)
                                       ResourceStatus.AVAILABLE)
      then discover_loop request max_distance_km rest
      else
        (distance <~ distance_to (Resource.location resource)
                                 (DispatchRequest.location request) ;;
         if (max_distance_km * 1000 <? distance)%float
         then discover_loop request max_distance_km rest
         else
           meets <~ _meets_requirements resource
                      (DispatchRequest.requirements request) ;;
           found <~ discover_loop request max_distance_km rest ;;
           Ok (if meets then resource :: found else found))%res
  end.

(** The sort key of [discover_resources]. *)
Definition discover_key (request : DispatchRequest.t) (r : Resource.t)
    : Res (float * Z) :=
  (distance <~ distance_to (Resource.location r)
                           (DispatchRequest.location request) ;;
   Ok (distance, - DispatchRequest.priority request))%res.

Definition discover_resources (self : BeckNDiscoveryService)
    (request : DispatchRequest.t) (max_distance_km : float)
    : Res (list Resource.t) :=
  (available_resources <~
     discover_loop request max_distance_km (dict_values (resources self)) ;;
   list_sort_key tuple_lt (discover_key request) available_resources)%res.

Definition register_resource (self : BeckNDiscoveryService)
    (resource : Resource.t) : bool * BeckNDiscoveryService :=
  (true,
   mkDiscovery (dict_set (Resource.resource_id resource) resource
                         (resources self))).

(** A [Location] object is always truthy, so [if location:] tests for
    [None]. *)
Definition update_resource_status (self : BeckNDiscoveryService)
    (resource_id : string) (status : ResourceStatus.t)
    (location : option Location) : bool * BeckNDiscoveryService :=
  match dict_get resource_id (resources self) with
  | None => (false, self)
  | Some r =>
      let r1 := Resource.set_status status r in
      let r2 := match location with
                | Some l => Resource.set_location l r1
                | None => r1
                end in
      (true, mkDiscovery (dict_set resource_id r2 (resources self)))
  end.

(** ** DispatchFulfillmentService *)

Record DispatchFulfillmentService : Type := mkFulfillmentService {
  discovery_service : BeckNDiscoveryService;
  active_requests : dict DispatchRequest.t;
  assignments : dict DispatchAssignment.t;
  fulfillment_history : list Fulfillment
}.

(** A method of the service: it runs on the service's state, may change it,
    and returns or raises; what was mutated before a [raise] stays
    mutated. *)
Definition M (A : Type) : Type :=
  DispatchFulfillmentService -> Res A * DispatchFulfillmentService.

Definition ret {A : Type} (a : A) : M A := fun self => (Ok a, self).

Definition bind {A B : Type} (m : M A) (f : A -> M B) : M B :=
  fun self =>
    match m self with
    | (Ok a, self') => f a self'
    | (Raise e, self') => (Raise e, self')
    end.

Definition lift {A : Type} (r : Res A) : M A := fun self => (r, self).

Definition get_self : M DispatchFulfillmentService :=
  fun self => (Ok self, self).

Declare Scope method_scope.
Delimit Scope method_scope with method.
Notation "x <- m ;; k" := (bind m (fun x => k))
  (at level 61, m at next level, right associativity) : method_scope.
Notation "m ;; k" := (bind m (fun _ => k))
  (at level 61, right associativity) : method_scope.

(** A field assignment on the assignment object stored under
    [assignment_id]. *)
Definition mutate_assignment (assignment_id : string)
    (f : DispatchAssignment.t -> DispatchAssignment.t) : M unit :=
  fun self =>
    match dict_get assignment_id (assignments self) with
    | Some a =>
        (Ok tt,
         mkFulfillmentService (discovery_service self) (active_requests self)
           (dict_set assignment_id (f a) (assignments self))
           (fulfillment_history self))
    | None => (Ok tt, self)
    end.

(** [self.discovery_service.update_resource_status(...)]. *)
Definition discovery_update_resource_status (resource_id : string)
    (status : ResourceStatus.t) (location : option Location) : M bool :=
  fun self =>
    let (b, ds) :=
      update_resource_status (discovery_service self) resource_id status
                             location in
    (Ok b,
     mkFulfillmentService ds (active_requests self) (assignments self)
                          (fulfillment_history self)).

(** [self.assignments[k] = a]. *)
Definition store_assignment (k : string) (a : DispatchAssignment.t) : M unit :=
  fun self =>
    (Ok tt,
     mkFulfillmentService (discovery_service self) (active_requests self)
       (dict_set k a (assignments self)) (fulfillment_history self)).

(** [self.fulfillment_history.append(h)]. *)
Definition append_history (h : Fulfillment) : M unit :=
  fun self =>
    (Ok tt,
     mkFulfillmentService (discovery_service self) (active_requests self)
       (assignments self) (fulfillment_history self ++ [h])).

(** [create_dispatch_request]: [uuid] is the value of [uuid.uuid4()] and
    [now] that of [datetime.utcnow()]; an omitted priority is 3 and omitted
    requirements are empty. *)
Definition create_dispatch_request (uuid : string) (now : datetime)
    (requester_id : string) (location : Location)
    (resource_type : ResourceType.t) (priority : option Z)
    (requirements : option (dict ReqValue)) (description : string)
    (deadline : option datetime) : M DispatchRequest.t :=
  fun self =>
    let request :=
      DispatchRequest.mk uuid requester_id location resource_type
        (match priority with Some p => p | None => 3 end)
        (match requirements with Some r => r | None => [] end)
        description now deadline in
    (Ok request,
     mkFulfillmentService (discovery_service self)
       (dict_set uuid request (active_requests self)) (assignments self)
       (fulfillment_history self)).

(** The table of [_get_resource_speed] and its [dict.get] with a default. *)
Definition speeds : list (ResourceType.t * float) :=
  [ (ResourceType.DRONE, 15.0%float);
    (ResourceType.AUTONOMOUS_VEHICLE, 13.9%float);
    (ResourceType.EMERGENCY_TEAM, 11.1%float);
    (ResourceType.SUPPLY_DELIVERY, 8.3%float);
    (ResourceType.MEDICAL_UNIT, 16.7%float) ].

Fixpoint speeds_get (table : list (ResourceType.t * float))
    (k : ResourceType.t) (default : float) : float :=
  match table with
  | [] => default
  | (k', v) :: table' =>
      if ResourceType.eqb k k' then v else speeds_get table' k default
  end.

Definition _get_resource_speed (resource_type : ResourceType.t) : float :=
  speeds_get speeds resource_type 10.0%float.

(** The point appended at step [i] of the loop of [_generate_route]. *)
Definition waypoint (start end_ : Location) (num_waypoints i : Z) : Location :=
  let progress := (Py.float_of_int i / Py.float_of_int num_waypoints)%float in
  mkLocation (lat start + (lat end_ - lat start) * progress)%float
             (lon start + (lon end_ - lon start) * progress)%float
             None.

Definition _generate_route (start end_ : Location) : Res (list Location) :=
  (distance <~ distance_to start end_ ;;
   n <~ Py.int (distance / 5000)%float ;;
   let num_waypoints := Py.max 2 n in
   Ok ([start]
       ++ map (waypoint start end_ num_waypoints) (Py.range 1 num_waypoints)
       ++ [end_])%list)%res.

(** [assign_resource]: [uuid] is the value of [uuid.uuid4()]; [now1] and
    [now2] are the two readings of [datetime.utcnow()], the first stored as
    [assigned_at], the second the base of [estimated_arrival]. *)
Definition assign_resource (uuid : string) (now1 now2 : datetime)
    (request_id : string) (resource_id : option string)
    : M (option DispatchAssignment.t) :=
  (self <- get_self ;;
   match dict_get request_id (active_requests self) with
   | None => ret None
   | Some request =>
       chosen <-
         (if negb (Py.truthy resource_id) then
            available_resources <-
              lift (discover_resources (discovery_service self) request
                                       50%float) ;;
            match available_resources with
            | [] => ret None
            | first :: _ => ret (Some (Resource.resource_id first))
            end
          else ret resource_id) ;;
       match chosen with
       | None => ret None
       | Some resource_id =>
           match dict_get resource_id (resources (discovery_service self)) with
           | None => ret None
           | Some resource =>
               if negb (ResourceStatus.eqb (Resource.status resource)
                                           ResourceStatus.AVAILABLE)
               then ret None
               else
                 let assignment :=
                   DispatchAssignment.mk uuid request_id resource_id
                     DispatchStatus.ASSIGNED now1 None None None [] 
                     (Some (Resource.location resource)) [] in
                 distance <-
                   lift (distance_to (Resource.location resource)
                                     (DispatchRequest.location request)) ;;
                 let speed_mps :=
                   _get_resource_speed (Resource.resource_type resource) in
                 travel_time_seconds <- lift (Py.truediv distance speed_mps) ;;
                 travel <- lift (Timedelta.of_seconds travel_time_seconds) ;;
                 let assignment :=
                   DispatchAssignment.set_estimated_arrival
                     (Some (now2 + travel)) assignment in
                 route <-
                   lift (_generate_route (Resource.location resource)
                                         (DispatchRequest.location request)) ;;
                 let assignment :=
                   DispatchAssignment.set_route route assignment in
                 discovery_update_resource_status resource_id
                   ResourceStatus.DISPATCHED None ;;
                 store_assignment (DispatchAssignment.assignment_id assignment)
                                  assignment ;;
                 ret (Some assignment)
           end
       end
   end)%method.

(** What [update_assignment_progress] does to an assignment that it found
    in state [ASSIGNED]. *)
Definition start_dispatch (now : datetime) (assignment_id : string)
    (assignment : DispatchAssignment.t) (resource : Resource.t) : M unit :=
  (mutate_assignment assignment_id
     (DispatchAssignment.set_status DispatchStatus.DISPATCHED) ;;
   discovery_update_resource_status
     (DispatchAssignment.resource_id assignment) ResourceStatus.EN_ROUTE
     None ;;
   mutate_assignment assignment_id
     (DispatchAssignment.append_update
        (mkProgressUpdate now "dispatched"
           (Resource.name resource ++ " has been dispatched") None)))%method.

(** ... in state [DISPATCHED]. *)
Definition move_along_route (now : datetime) (elapsed : float)
    (assignment_id : string) (assignment : DispatchAssignment.t)
    (resource : Resource.t) : M unit :=
  match DispatchAssignment.estimated_arrival assignment with
  | None => ret tt
  | Some estimated_arrival =>
      let total_time :=
        Timedelta.total_seconds
          (estimated_arrival - DispatchAssignment.assigned_at assignment) in
      (ratio <- lift (Py.truediv elapsed total_time) ;;
       let progress := Py.min 1.0%float ratio in
       if (1.0 <=? progress)%float then
         mutate_assignment assignment_id
           (DispatchAssignment.set_status DispatchStatus.IN_PROGRESS) ;;
         mutate_assignment assignment_id
           (DispatchAssignment.set_actual_arrival (Some now)) ;;
         destination <-
           lift (Py.getitem (DispatchAssignment.route assignment) (-1)) ;;
         mutate_assignment assignment_id
           (DispatchAssignment.set_current_location (Some destination)) ;;
         discovery_update_resource_status
           (DispatchAssignment.resource_id assignment) ResourceStatus.ARRIVED
           (Some destination) ;;
         mutate_assignment assignment_id
           (DispatchAssignment.append_update
              (mkProgressUpdate now "arrived"
                 (Resource.name resource ++ " has arrived at destination")
                 None))
       else
         let route := DispatchAssignment.route assignment in
         route_index <-
           lift (Py.int (progress
                         * Py.float_of_int (Z.of_nat (List.length route) - 1))%float) ;;
         position <- lift (Py.getitem route route_index) ;;
         mutate_assignment assignment_id
           (DispatchAssignment.set_current_location (Some position)) ;;
         percentage <- lift (Py.int (progress * 100)%float) ;;
         mutate_assignment assignment_id
           (DispatchAssignment.append_update
              (mkProgressUpdate now "en_route"
                 (Resource.name resource ++ " is " ++ Py.str percentage
                  ++ "% of the way to destination")
                 (Some percentage))))%method
  end.

(** ... in state [IN_PROGRESS]. The history entry holds the [to_dict()] of
    the assignment and of the resource objects as they are at that point,
    that is as the dictionaries hold them: completed. *)
Definition complete_after_dwell (now : datetime) (assignment_id : string)
    (assignment : DispatchAssignment.t) (resource : Resource.t) : M unit :=
  match DispatchAssignment.actual_arrival assignment with
  | None => ret tt
  | Some actual_arrival =>
      let time_at_destination :=
        Timedelta.total_seconds (now - actual_arrival) in
      if (300 <? time_at_destination)%float then
        (mutate_assignment assignment_id
           (DispatchAssignment.set_status DispatchStatus.COMPLETED) ;;
         mutate_assignment assignment_id
           (DispatchAssignment.set_completion_time (Some now)) ;;
         discovery_update_resource_status
           (DispatchAssignment.resource_id assignment)
           ResourceStatus.COMPLETED None ;;
         mutate_assignment assignment_id
           (DispatchAssignment.append_update
              (mkProgressUpdate now "completed"
                 (Resource.name resource ++ " has completed the mission")
                 None)) ;;
         self <- get_self ;;
         let assignment_now :=
           match dict_get assignment_id (assignments self) with
           | Some a => a
           | None => assignment
           end in
         let resource_now :=
           match dict_get (DispatchAssignment.resource_id assignment)
                          (resources (discovery_service self)) with
           | Some r => r
           | None => resource
           end in
         request <-
           lift (dict_getitem (DispatchAssignment.request_id assignment)
                              (active_requests self)) ;;
         append_history
           (mkFulfillment assignment_now resource_now request now) ;;
         discovery_update_resource_status
           (DispatchAssignment.resource_id assignment)
           ResourceStatus.AVAILABLE None ;;
         ret tt)%method
      else ret tt
  end.

(** [update_assignment_progress]: [now] is the reading of
    [datetime.utcnow()]. *)
Definition update_assignment_progress (now : datetime)
    (assignment_id : string) : M (option DispatchAssignment.t) :=
  (self <- get_self ;;
   match dict_get assignment_id (assignments self) with
   | None => ret None
   | Some assignment =>
       resource <-
         lift (dict_getitem (DispatchAssignment.resource_id assignment)
                            (resources (discovery_service self))) ;;
       let elapsed :=
         Timedelta.total_seconds
           (now - DispatchAssignment.assigned_at assignment) in
       match DispatchAssignment.status assignment with
       | DispatchStatus.ASSIGNED =>
           start_dispatch now assignment_id assignment resource
       | DispatchStatus.DISPATCHED =>
           move_along_route now elapsed assignment_id assignment resource
       | DispatchStatus.IN_PROGRESS =>
           complete_after_dwell now assignment_id assignment resource
       | _ => ret tt
       end ;;
       self' <- get_self ;;
       ret (dict_get assignment_id (assignments self'))
   end)%method.

Definition cancel_assignment (assignment_id : string) : M bool :=
  (self <- get_self ;;
   match dict_get assignment_id (assignments self) with
   | None => ret false
   | Some assignment =>
       mutate_assignment assignment_id
         (DispatchAssignment.set_status DispatchStatus.CANCELLED) ;;
       discovery_update_resource_status
         (DispatchAssignment.resource_id assignment)
         ResourceStatus.AVAILABLE None ;;
       ret true
   end)%method.

End Engine.

Local Close Scope string_scope.

(* ================================================================== *)
(** * Vocabulary of the properties *)

(** ** Numbers among the floats *)

(** [SFcompare] orders the numbers (everything but NaN) as the
    lexicographic order of a triple of integers: the class (negative
    infinity, negative, zero, positive, positive infinity), then exponent
    and mantissa, both negated for a negative number. *)

Module FloatRank.
Definition rank (x : spec_float) : Z * Z * Z :=
  match x with
  | S754_nan => (0, 0, 0)
  | S754_zero _ => (0, 0, 0)
  | S754_infinity true => (-2, 0, 0)
  | S754_infinity false => (2, 0, 0)
  | S754_finite true m e => (-1, - e, - Zpos m)
  | S754_finite false m e => (1, e, Zpos m)
  end.

Definition rank_compare (a b : Z * Z * Z) : comparison :=
  match fst (fst a) ?= fst (fst b) with
  | Eq => match snd (fst a) ?= snd (fst b) with
          | Eq => snd a ?= snd b
          | c => c
          end
  | c => c
  end.

Definition lex_lt (a b : Z * Z * Z) : Prop :=
  fst (fst a) < fst (fst b)
  \/ (fst (fst a) = fst (fst b)
      /\ (snd (fst a) < snd (fst b)
          \/ (snd (fst a) = snd (fst b) /\ snd a < snd b))).

Definition frank (x : float) : Z * Z * Z := rank (Prim2SF x).

Definition number (x : float) : Prop := Prim2SF x <> S754_nan.
End FloatRank.

(** ** Discovery *)

(** The capabilities a "capabilities" requirement lists: the elements of a
    list, or the one string given in place of a list. *)
Definition listed_capabilities (v : ReqValue) : list string :=
  match v with
  | VList l =>
      flat_map (fun cap => match cap with VStr s => [s] | _ => [] end) l
  | VStr s => [s]
  | _ => []
  end.

(** [x <= n] for a [float] and an [int], by their values. *)
Definition float_le_int (x : float) (n : Z) : bool :=
  match Prim2SF x with
  | S754_nan => false
  | S754_infinity s => s
  | S754_zero _ => 0 <=? n
  | S754_finite s m e =>
      let a := if s then Zneg m else Zpos m in
      if 0 <=? e then a * 2 ^ e <=? n else a <=? n * 2 ^ (- e)
  end.

(** A value that [<] compares with an [int]: an [int], a [bool] or a
    [float]. *)
Definition is_number (v : ReqValue) : bool :=
  match v with
  | VInt _ | VBool _ | VFloat _ => true
  | _ => false
  end.

(** A threshold that is a number: an integer, [True] or [False] (1 and 0),
    or a float other than NaN. *)
Definition numeric (v : ReqValue) : Prop :=
  match v with
  | VInt _ | VBool _ => True
  | VFloat x => is_nan x = false
  | _ => False
  end.

(** [value >= threshold], for a threshold that is a number. *)
Definition at_least (value : Z) (threshold : ReqValue) : Prop :=
  match threshold with
  | VInt n => n <= value
  | VBool b => (if b then 1 else 0) <= value
  | VFloat x => float_le_int x value = true
  | _ => False
  end.

(** A capacity key is present with a value of at least the threshold. *)
Definition capacity_met (capacity : dict Z) (k : string)
    (threshold : ReqValue) : Prop :=
  exists v, dict_get k capacity = Some v /\ at_least v threshold.

(** The rule a requirement entry has to pass, by its key. *)
Definition passes_rule (r : Resource.t) (key : string) (v : ReqValue) : Prop :=
  (key = "capabilities"%string ->
   exists cap, In cap (listed_capabilities v) /\ In cap (Resource.capabilities r))
  /\ (key = "min_capacity"%string ->
      exists d, v = VDict d
                /\ forall k threshold, In (k, threshold) d ->
                                       capacity_met (Resource.capacity r) k threshold)
  /\ (key = "operator"%string -> v = VStr (Resource.operator r)).

Definition requirements_satisfied (r : Resource.t) (requirements : dict ReqValue)
    : Prop :=
  forall key v, In (key, v) requirements -> passes_rule r key v.

(** The value under "min_capacity" is an object of numbers, as the rule
    reads it. *)
Definition well_shaped (requirements : dict ReqValue) : Prop :=
  forall v, In ("min_capacity"%string, v) requirements ->
            exists d, v = VDict d
                      /\ forall k threshold, In (k, threshold) d ->
                                             numeric threshold.

(** A registry as [register_resource] builds it: every resource under its
    own id, and no id twice. *)
Definition keyed (d : dict Resource.t) : Prop :=
  NoDup (map fst d) /\ forall k r, In (k, r) d -> Resource.resource_id r = k.

(** The keys [_meets_requirements] looks at. *)
Definition recognized (key : string) : bool :=
  String.eqb key "capabilities" || String.eqb key "min_capacity"
  || String.eqb key "operator".

Section DiscoveryVocabulary.
Variable distance_to : Location -> Location -> Res float.
Variable request : DispatchRequest.t.

(** The distance of a resource to the request, in meters; where
    [distance_to] raises there is no distance, which NaN stands for. *)
Definition distance_of (r : Resource.t) : float :=
  match distance_to (Resource.location r) (DispatchRequest.location request) with
  | Ok distance => distance
  | Raise _ => nan
  end.

(** The resources whose distance [discover_resources] asks for: those of
    the type of the request that are AVAILABLE. *)
Definition candidate (r : Resource.t) : Prop :=
  Resource.resource_type r = DispatchRequest.resource_type request
  /\ Resource.status r = ResourceStatus.AVAILABLE.

(** The tests the loop of [discover_resources] applies to one resource. *)
Definition passes_filters (max_distance_km : float) (r : Resource.t) : bool :=
  ResourceType.eqb (Resource.resource_type r)
                   (DispatchRequest.resource_type request)
  && ResourceStatus.eqb (Resource.status r) ResourceStatus.AVAILABLE
  && match distance_to (Resource.location r)
                       (DispatchRequest.location request) with
     | Ok distance => negb (max_distance_km * 1000 <? distance)%float
     | Raise _ => false
     end
  && match _meets_requirements r (DispatchRequest.requirements request) with
     | Ok true => true
     | _ => false
     end.

(** The sort key of a resource whose distance is a number. *)
Definition key_of (r : Resource.t) : float * Z :=
  (distance_of r, - DispatchRequest.priority request).

(** What [discover] has to return, for a radius in kilometers. *)
Definition eligible (max_distance_km : float) (r : Resource.t) : Prop :=
  Resource.resource_type r = DispatchRequest.resource_type request
  /\ Resource.status r = ResourceStatus.AVAILABLE
  /\ (distance_of r <=? max_distance_km * 1000)%float = true
  /\ requirements_satisfied r (DispatchRequest.requirements request).

(** Ascending by distance. *)
Definition by_distance (a b : Resource.t) : Prop :=
  (distance_of a <=? distance_of b)%float = true.


End DiscoveryVocabulary.

(** A stand-in for the haversine formula to run examples with: near the
    equator, and over a few kilometers, the great-circle distance is the
    length of the chord in degrees times the length of a degree,
    6371000 * pi / 180 meters. *)
Definition equatorial_meters (a b : Location) : float :=
  (111194.92664455873
   * sqrt ((lat b - lat a) * (lat b - lat a) + (lon b - lon a) * (lon b - lon a)))%float.

Definition equatorial_distance (a b : Location) : Res float :=
  Ok (equatorial_meters a b).

(** ** Routes *)

(** [round(x)]: the nearest integer, a tie going to the even one. *)
Definition round_half_even (x : float) : Z :=
  let t := Py.trunc x in
  let f := (x - Py.float_of_int t)%float in
  if (0.5 <? f)%float then t + 1
  else if (f <? -0.5)%float then t - 1
  else if (f =? 0.5)%float then (if Z.odd t then t + 1 else t)
  else if (f =? -0.5)%float then (if Z.odd t then t - 1 else t)
  else t.

(** The waypoint count in the words of the specification,
    [max(2, round(distance_m / 5000))], to compare with the count
    [max(2, int(distance / 5000))] of [_generate_route]. *)
Definition spec_waypoint_count (distance_m : float) : Z :=
  Py.max 2 (round_half_even (distance_m / 5000)%float).

(** ** Progress *)

(** [clamp(x, lo, hi)]. *)
Definition clamp (x lo hi : float) : float :=
  if (x <? lo)%float then lo else if (hi <? x)%float then hi else x.

(** The progress of an assignment at the instant [now] in the words of the
    specification, [clamp(elapsed / total, 0, 1)], to compare with
    [min(1.0, elapsed / total_time)] of [update_assignment_progress]. *)
Definition spec_progress (now assigned_at estimated_arrival : datetime) : float :=
  let elapsed := Timedelta.total_seconds (now - assigned_at) in
  let total := Timedelta.total_seconds (estimated_arrival - assigned_at) in
  clamp (elapsed / total)%float 0 1.

(** ** Polling *)

(** [update_assignment_progress] called once at each of the instants
    [nows], in this order: the results and the final state. *)
Fixpoint poll (nows : list datetime) (assignment_id : string)
    (self : DispatchFulfillmentService)
    : list (Res (option DispatchAssignment.t)) * DispatchFulfillmentService :=
  match nows with
  | [] => ([], self)
  | now :: rest =>
      let (r, self1) := update_assignment_progress now assignment_id self in
      let (rs, self2) := poll rest assignment_id self1 in
      (r :: rs, self2)
  end.

(** ** The lifecycle of an assignment *)

(** The place of a status on the path ASSIGNED, DISPATCHED, IN_PROGRESS,
    COMPLETED. *)
Definition stage (s : DispatchStatus.t) : option Z :=
  match s with
  | DispatchStatus.ASSIGNED => Some 0
  | DispatchStatus.DISPATCHED => Some 1
  | DispatchStatus.IN_PROGRESS => Some 2
  | DispatchStatus.COMPLETED => Some 3
  | _ => None
  end.

(** [s'] is [s], or CANCELLED, or a later status on the path. *)
Definition forward (s s' : DispatchStatus.t) : Prop :=
  s' = s \/ s' = DispatchStatus.CANCELLED
  \/ exists i j, stage s = Some i /\ stage s' = Some j /\ i < j.

(** The status [update_assignment_progress] can move an assignment to. *)
Definition next_status (s : DispatchStatus.t) : DispatchStatus.t :=
  match s with
  | DispatchStatus.ASSIGNED => DispatchStatus.DISPATCHED
  | DispatchStatus.DISPATCHED => DispatchStatus.IN_PROGRESS
  | DispatchStatus.IN_PROGRESS => DispatchStatus.COMPLETED
  | s => s
  end.

(** The calls that create and change assignments, with the values of
    [uuid4()] and [utcnow()] each of them reads. *)
Inductive Operation : Type :=
| Assign (uuid : string) (now1 now2 : datetime) (request_id : string)
         (resource_id : option string)
| Advance (now : datetime) (assignment_id : string)
| Cancel (assignment_id : string).

Section Runs.
Variable distance_to : Location -> Location -> Res float.

(** The state a call leaves, whether it returned or raised. *)
Definition run_operation (op : Operation) (self : DispatchFulfillmentService)
    : DispatchFulfillmentService :=
  match op with
  | Assign uuid now1 now2 request_id resource_id =>
      snd (assign_resource distance_to uuid now1 now2 request_id resource_id self)
  | Advance now assignment_id =>
      snd (update_assignment_progress now assignment_id self)
  | Cancel assignment_id => snd (cancel_assignment assignment_id self)
  end.

(** [uuid4()] does not return the id of an assignment there is. *)
Definition fresh (op : Operation) (self : DispatchFulfillmentService) : Prop :=
  match op with
  | Assign uuid _ _ _ _ => dict_get uuid (assignments self) = None
  | _ => True
  end.

(** A sequence of calls from one state to another. *)
Inductive run : DispatchFulfillmentService -> list Operation
                -> DispatchFulfillmentService -> Prop :=
| run_nil (self : DispatchFulfillmentService) : run self [] self
| run_cons (self self' : DispatchFulfillmentService) (op : Operation)
           (ops : list Operation) :
    fresh op self -> run (run_operation op self) ops self' ->
    run self (op :: ops) self'.
End Runs.

(** What one call does to the status of the assignment stored under [k]. *)
Definition step_status (op : Operation) (k : string)
    (s s' : DispatchStatus.t) : Prop :=
  match op with
  | Assign _ _ _ _ _ => s' = s
  | Advance _ assignment_id =>
      if String.eqb k assignment_id then s' = s \/ s' = next_status s
      else s' = s
  | Cancel assignment_id =>
      if String.eqb k assignment_id then s' = DispatchStatus.CANCELLED
      else s' = s
  end.

(** ** Invariants of methods *)

(** Whatever state a method leaves, returning or raising, satisfies [I] if
    the state it started from did. *)
Definition preserves {A : Type} (I : DispatchFulfillmentService -> Prop)
    (m : M A) : Prop :=
  forall self, I self -> I (snd (m self)).

(** Every other assignment is as in [d0]; the one under [assignment_id] has
    status [s0] or [target]. *)
Definition status_within (d0 : dict DispatchAssignment.t) (assignment_id : string)
    (s0 target : DispatchStatus.t) (d : dict DispatchAssignment.t) : Prop :=
  (forall k, k <> assignment_id -> dict_get k d = dict_get k d0)
  /\ exists a, dict_get assignment_id d = Some a
               /\ (DispatchAssignment.status a = s0
                   \/ DispatchAssignment.status a = target).

(** Nothing but a new assignment under [uuid] was added to [d0]. *)
Definition assigned_under (d0 : dict DispatchAssignment.t) (uuid : string)
    (d : dict DispatchAssignment.t) : Prop :=
  d = d0
  \/ exists a, DispatchAssignment.status a = DispatchStatus.ASSIGNED
               /\ d = dict_set uuid a d0.

(** ** Failures of an assignment *)

(** The four failures the specification names. *)
Inductive AssignFailure : Set :=
| RequestNotFound
| NoResourcesFound
| ResourceNotFound
| ResourceUnavailable.

(** The failure the specification gives for a call of [assign_resource],
    if any, read on the state the call starts from: an unknown request id;
    no resource id given and nothing discovered within 50 km; a resource id
    given that is not registered; a resource id given whose resource is not
    AVAILABLE. *)
Definition spec_failure (distance_to : Location -> Location -> Res float)
    (self : DispatchFulfillmentService) (request_id : string)
    (resource_id : option string) : option AssignFailure :=
  match dict_get request_id (active_requests self) with
  | None => Some RequestNotFound
  | Some request =>
      if Py.truthy resource_id then
        match resource_id with
        | None => None
        | Some rid =>
            match dict_get rid (resources (discovery_service self)) with
            | None => Some ResourceNotFound
            | Some r =>
                if ResourceStatus.eqb (Resource.status r)
                                      ResourceStatus.AVAILABLE
                then None
                else Some ResourceUnavailable
            end
        end
      else
        match discover_resources distance_to (discovery_service self)
                                 request 50 with
        | Ok [] => Some NoResourcesFound
        | _ => None
        end
  end.

(** ** A registry and requests to run the services on *)

Module Demo.
Local Open Scope string_scope.

Definition origin : Location := mkLocation 0 0 (Some "Drone Base 1").
Definition nearby : Location := mkLocation 0 0.02 (Some "Drone Base 2").
Definition remote : Location := mkLocation 0 1 (Some "Drone Base 4").
Definition site : Location := mkLocation 0 0.045 None.
Definition far_site : Location := mkLocation 0 0.126 None.

Definition drone (id : string) (l : Location) (s : ResourceStatus.t)
    : Resource.t :=
  Resource.mk id ResourceType.DRONE ("Emergency Drone " ++ id) l
    ["aerial_surveillance"; "supply_delivery"; "search_rescue"]
    [("cargo_kg", 10); ("flight_time_min", 60)] s
    "Emergency Services Unit 1" [("radio", "FREQ_1")] [].

Definition team : Resource.t :=
  Resource.mk "TEAM_001" ResourceType.EMERGENCY_TEAM "Emergency Response Team 1"
    origin ["search_rescue"; "medical_aid"] [("team_members", 4)]
    ResourceStatus.AVAILABLE "Emergency Services Department 1" [] [].

Definition d1 : Resource.t := drone "D1" origin ResourceStatus.AVAILABLE.
Definition d2 : Resource.t := drone "D2" nearby ResourceStatus.AVAILABLE.
Definition d3 : Resource.t := drone "D3" nearby ResourceStatus.MAINTENANCE.
Definition d4 : Resource.t := drone "D4" remote ResourceStatus.AVAILABLE.

Definition registry : BeckNDiscoveryService :=
  mkDiscovery
    [("D1", d1); ("TEAM_001", team); ("D2", d2); ("D3", d3); ("D4", d4)].

(** A request about 5 km east of [origin]. *)
Definition request : DispatchRequest.t :=
  DispatchRequest.mk "R1" "control-room" site ResourceType.DRONE 1
    [("capabilities", VList [VStr "aerial_surveillance"]);
     ("min_capacity", VDict [("cargo_kg", VInt 5)]);
     ("note", VStr "night flight")]
    "Fire on the east side" 0 None.

(** A request at the place where the drone D1 is. *)
Definition request_at_base : DispatchRequest.t :=
  DispatchRequest.mk "R0" "control-room" origin ResourceType.DRONE 3 []
    "Inspection at the base" 0 None.

Definition service0 : DispatchFulfillmentService :=
  mkFulfillmentService (mkDiscovery [("D1", d1)])
    [("R1", request); ("R0", request_at_base)] [] [].


(** A drone whose position is not known: its latitude is a NaN, and so is
    its distance to any place. *)
Definition nowhere : Location := mkLocation nan 0 None.
Definition lost : Resource.t := drone "D5" nowhere ResourceStatus.AVAILABLE.
Definition lost_registry : BeckNDiscoveryService :=
  mkDiscovery [("D5", lost)].

(** A request whose threshold of cargo is the string "5", not a number. *)
Definition quoted : DispatchRequest.t :=
  DispatchRequest.mk "R4" "control-room" site ResourceType.DRONE 1
    [("min_capacity", VDict [("cargo_kg", VStr "5")])]
    "Fire on the east side" 0 None.

(** The mission of the request R1, polled at 0 s, 167 s, 335 s and 636 s
    after the assignment. *)
Definition mission : list Operation :=
  [ Assign "A1" 0 0 "R1" None;
    Advance 0 "A1";
    Advance 167000000 "A1";
    Advance 335000000 "A1";
    Advance 636000000 "A1" ].

Fixpoint run_all (ops : list Operation) (self : DispatchFulfillmentService)
    : DispatchFulfillmentService :=
  match ops with
  | [] => self
  | op :: ops' => run_all ops' (run_operation equatorial_distance op self)
  end.

(** No call creates an assignment under an id in use. *)
Fixpoint all_fresh (ops : list Operation) (self : DispatchFulfillmentService)
    : Prop :=
  match ops with
  | [] => True
  | op :: ops' =>
      fresh op self
      /\ all_fresh ops' (run_operation equatorial_distance op self)
  end.

(** The assignment A1 dispatched: the state after the first two calls of
    [mission]. *)
Definition dispatched : DispatchFulfillmentService :=
  Eval vm_compute in run_all (firstn 2 mission) service0.

(** The state after the whole of [mission]: A1 is completed. *)
Definition completed : DispatchFulfillmentService :=
  Eval vm_compute in run_all mission service0.

(** The drone assigned to the request at its own place, both readings of
    the clock being the same, and dispatched. *)
Definition dispatched_at_base : DispatchFulfillmentService :=
  Eval vm_compute in
    run_all [Assign "A0" 5 5 "R0" None; Advance 6 "A0"] service0.

(** The assignment A1 as [mission] creates it, the calls that follow, with
    a cancellation at the end, and the state they lead to. *)
Definition assigned : DispatchFulfillmentService :=
  Eval vm_compute in run_all (firstn 1 mission) service0.

Definition polls_then_cancel : list Operation :=
  skipn 1 mission ++ [Cancel "A1"].

Definition cancelled : DispatchFulfillmentService :=
  Eval vm_compute in run_all polls_then_cancel assigned.

End Demo.

(* ================================================================== *)
(** * The services as a whole *)

(** ** get_assignment_status *)

(** What [get_assignment_status] returns: the [to_dict()] of the
    assignment, of its resource and of its request, and [now], the reading
    of [datetime.utcnow()]. *)
Record AssignmentStatus : Type := mkAssignmentStatus {
  s_assignment : DispatchAssignment.t;
  s_resource : Resource.t;
  s_request : DispatchRequest.t;
  last_updated : datetime
}.

Definition get_assignment_status (now : datetime) (assignment_id : string)
    : M (option AssignmentStatus) :=
  bind get_self (fun self =>
    match dict_get assignment_id (assignments self) with
    | None => ret None
    | Some assignment =>
        bind (lift (dict_getitem (DispatchAssignment.resource_id assignment)
                                 (resources (discovery_service self))))
          (fun resource =>
        bind (lift (dict_getitem (DispatchAssignment.request_id assignment)
                                 (active_requests self)))
          (fun request =>
        ret (Some (mkAssignmentStatus assignment resource request now))))
    end).

(** ** Calls on the two services *)

(** The module creates one [BeckNDiscoveryService] and hands it to the one
    [DispatchFulfillmentService]: a call on the registry changes the
    registry the engine reads. *)
Definition on_registry
    (f : BeckNDiscoveryService -> bool * BeckNDiscoveryService)
    (self : DispatchFulfillmentService) : DispatchFulfillmentService :=
  mkFulfillmentService (snd (f (discovery_service self))) (active_requests self)
    (assignments self) (fulfillment_history self).

(** The calls that change the state of the services, with the values of
    [uuid4()] and [utcnow()] each of them reads. A call of
    [create_dispatch_request] is one that has read its [request_data]: the
    [KeyError] of a missing field and the [ValueError] of an unknown
    resource type or of a malformed deadline are raised before anything
    is stored. *)
Inductive Call : Type :=
| RegisterResource (resource : Resource.t)
| UpdateResourceStatus (resource_id : string) (status : ResourceStatus.t)
                       (location : option Location)
| CreateDispatchRequest (uuid : string) (now : datetime)
    (requester_id : string) (location : Location)
    (resource_type : ResourceType.t) (priority : option Z)
    (requirements : option (dict ReqValue)) (description : string)
    (deadline : option datetime)
| OnAssignment (op : Operation).

Section Calls.
Variable distance_to : Location -> Location -> Res float.

(** The state a call leaves, whether it returned or raised. *)
Definition run_call (c : Call) (self : DispatchFulfillmentService)
    : DispatchFulfillmentService :=
  match c with
  | RegisterResource resource =>
      on_registry (fun ds => register_resource ds resource) self
  | UpdateResourceStatus resource_id status location =>
      on_registry
        (fun ds => update_resource_status ds resource_id status location) self
  | CreateDispatchRequest uuid now requester_id location resource_type
                          priority requirements description deadline =>
      snd (create_dispatch_request uuid now requester_id location
             resource_type priority requirements description deadline self)
  | OnAssignment op => run_operation distance_to op self
  end.

(** [uuid4()] does not return an id in use. *)
Definition fresh_call (c : Call) (self : DispatchFulfillmentService) : Prop :=
  match c with
  | CreateDispatchRequest uuid _ _ _ _ _ _ _ _ =>
      dict_get uuid (active_requests self) = None
  | OnAssignment op => fresh op self
  | _ => True
  end.

(** A sequence of calls from one state to another. *)
Inductive reach : DispatchFulfillmentService -> list Call
                  -> DispatchFulfillmentService -> Prop :=
| reach_nil (self : DispatchFulfillmentService) : reach self [] self
| reach_cons (self self' : DispatchFulfillmentService) (c : Call)
             (cs : list Call) :
    fresh_call c self -> reach (run_call c self) cs self' ->
    reach self (c :: cs) self'.

(** The calls of a list, one after the other. *)
Fixpoint run_calls (cs : list Call) (self : DispatchFulfillmentService)
    : DispatchFulfillmentService :=
  match cs with
  | [] => self
  | c :: cs' => run_calls cs' (run_call c self)
  end.

Fixpoint all_fresh_calls (cs : list Call) (self : DispatchFulfillmentService)
    : Prop :=
  match cs with
  | [] => True
  | c :: cs' => fresh_call c self /\ all_fresh_calls cs' (run_call c self)
  end.
End Calls.

(** ** What the calls keep *)

(** [l'] is [l] with elements appended. *)
Definition extends {A : Type} (l l' : list A) : Prop :=
  exists added, l' = (l ++ added)%list.

(** The fields of an assignment that are set when it is created, and its
    log of events. *)
Definition same_plan (a a' : DispatchAssignment.t) : Prop :=
  DispatchAssignment.assignment_id a' = DispatchAssignment.assignment_id a
  /\ DispatchAssignment.request_id a' = DispatchAssignment.request_id a
  /\ DispatchAssignment.resource_id a' = DispatchAssignment.resource_id a
  /\ DispatchAssignment.assigned_at a' = DispatchAssignment.assigned_at a
  /\ DispatchAssignment.estimated_arrival a'
     = DispatchAssignment.estimated_arrival a
  /\ DispatchAssignment.route a' = DispatchAssignment.route a
  /\ extends (DispatchAssignment.progress_updates a)
             (DispatchAssignment.progress_updates a').

(** From [self] to [self'] nothing was removed or rewritten: the requests
    are there unchanged, the resource ids are there, the assignments are
    there with their plan, and the history was only appended to. *)
Definition evolves (self self' : DispatchFulfillmentService) : Prop :=
  (forall k q, dict_get k (active_requests self) = Some q ->
               dict_get k (active_requests self') = Some q)
  /\ (forall k r, dict_get k (resources (discovery_service self)) = Some r ->
                  exists r', dict_get k (resources (discovery_service self'))
                             = Some r')
  /\ (forall k a, dict_get k (assignments self) = Some a ->
                  exists a', dict_get k (assignments self') = Some a'
                             /\ same_plan a a')
  /\ extends (fulfillment_history self) (fulfillment_history self').

(** A method relates the state it starts from to the state it leaves,
    returning or raising. *)
Definition steps {A : Type}
    (R : DispatchFulfillmentService -> DispatchFulfillmentService -> Prop)
    (m : M A) : Prop :=
  forall self, R self (snd (m self)).

(** From [self] to [self'] nothing changed but the assignment under
    [assignment_id] and the resource under [resource_id], which are still
    at their places in the dictionaries, and the history, which was only
    appended to. *)
Definition touches (assignment_id resource_id : string)
    (self self' : DispatchFulfillmentService) : Prop :=
  active_requests self' = active_requests self
  /\ map fst (assignments self') = map fst (assignments self)
  /\ (forall k, k <> assignment_id ->
                dict_get k (assignments self') = dict_get k (assignments self))
  /\ map fst (resources (discovery_service self'))
     = map fst (resources (discovery_service self))
  /\ (forall k, k <> resource_id ->
                dict_get k (resources (discovery_service self'))
                = dict_get k (resources (discovery_service self)))
  /\ extends (fulfillment_history self) (fulfillment_history self').

(** The references between the dictionaries hold: the registry is keyed,
    every assignment is stored under its id, and its resource and its
    request are there. *)
Definition consistent (self : DispatchFulfillmentService) : Prop :=
  keyed (resources (discovery_service self))
  /\ forall k a,
       dict_get k (assignments self) = Some a ->
       DispatchAssignment.assignment_id a = k
       /\ (exists r, dict_get (DispatchAssignment.resource_id a)
                              (resources (discovery_service self)) = Some r)
       /\ (exists q, dict_get (DispatchAssignment.request_id a)
                              (active_requests self) = Some q).

(** The history is as it was. *)
Definition history_kept (self self' : DispatchFulfillmentService) : Prop :=
  fulfillment_history self' = fulfillment_history self.

(** The history records completions, each once: the assignments of the
    entries have different ids, and each is COMPLETED, with the instant of
    the entry as its [completion_time], while the assignment the service
    holds under this id is COMPLETED, or CANCELLED since. *)
Definition recorded (self : DispatchFulfillmentService) : Prop :=
  NoDup (map (fun h => DispatchAssignment.assignment_id (f_assignment h))
             (fulfillment_history self))
  /\ forall h,
       In h (fulfillment_history self) ->
       DispatchAssignment.status (f_assignment h) = DispatchStatus.COMPLETED
       /\ DispatchAssignment.completion_time (f_assignment h)
          = Some (completed_at h)
       /\ exists a,
            dict_get (DispatchAssignment.assignment_id (f_assignment h))
                     (assignments self) = Some a
            /\ (DispatchAssignment.status a = DispatchStatus.COMPLETED
                \/ DispatchAssignment.status a = DispatchStatus.CANCELLED).

(** Started in a state where [I] holds, a method leaves a state where [I]
    holds, and the exceptions it raises are among [E]. *)
Definition raises_within {A : Type} (I : DispatchFulfillmentService -> Prop)
    (E : PyExn -> Prop) (m : M A) : Prop :=
  forall self,
    I self -> I (snd (m self)) /\ forall e, fst (m self) = Raise e -> E e.

(** The resource and the request of an assignment are there. *)
Definition referenced (a : DispatchAssignment.t)
    (self : DispatchFulfillmentService) : Prop :=
  (exists r, dict_get (DispatchAssignment.resource_id a)
                      (resources (discovery_service self)) = Some r)
  /\ (exists q, dict_get (DispatchAssignment.request_id a)
                         (active_requests self) = Some q).

(** The exceptions of the arithmetic on the way: a division by zero, the
    conversion of a NaN or of an infinity to an integer, an index out of
    the route. *)
Definition en_route_error (e : PyExn) : Prop :=
  e = ZeroDivisionError \/ e = ValueError \/ e = OverflowError
  \/ e = IndexError.

(** The ways in which the value of a "min_capacity" entry makes the check
    raise [e]: it is not an object, or it is one and the loop raises. *)
Definition raising_entry (r : Resource.t) (v : ReqValue) (e : PyExn) : Prop :=
  (e = AttributeError /\ forall d, v <> VDict d)
  \/ (e = TypeError
      /\ exists items,
           v = VDict items
           /\ min_capacity_ok (Resource.capacity r) items = Raise TypeError).

(** ** More states to run the services on *)

Module Scenario.
Import Demo.
Local Open Scope string_scope.

(** A1 as [assign_resource] creates it for the request R1. *)
Definition a1_assigned : DispatchAssignment.t :=
  DispatchAssignment.mk "A1" "R1" "D1" DispatchStatus.ASSIGNED 0
    (Some 333584780) None None [origin; mkLocation 0 0.0225 None; site]
    (Some origin) [].

(** The state after the first four calls of [mission]: A1 has arrived, at
    the poll 335 s after the assignment. *)
Definition arrived : DispatchFulfillmentService :=
  Eval vm_compute in run_all (firstn 4 mission) service0.

Definition a1_arrived : DispatchAssignment.t :=
  Eval vm_compute in
    match dict_get "A1" (assignments arrived) with
    | Some a => a
    | None => a1_assigned
    end.

(** The engine on the whole demonstration registry. *)
Definition service_all : DispatchFulfillmentService :=
  mkFulfillmentService registry [("R1", request)] [] [].

(** R1 assigned with no resource named: the drone D2 is taken. *)
Definition a1_nearest : DispatchAssignment.t :=
  Eval vm_compute in
    match fst (assign_resource equatorial_distance "A1" 0 0 "R1" None
                               service_all) with
    | Ok (Some a) => a
    | _ => a1_assigned
    end.

Definition assigned_nearest : DispatchFulfillmentService :=
  Eval vm_compute in
    snd (assign_resource equatorial_distance "A1" 0 0 "R1" None service_all).

(** A request whose "min_capacity" is a string, not an object. *)
Definition malformed : DispatchRequest.t :=
  DispatchRequest.mk "R3" "control-room" site ResourceType.DRONE 1
    [("capabilities", VList [VStr "aerial_surveillance"]);
     ("min_capacity", VStr "10")]
    "Fire on the east side" 0 None.

Definition service_malformed : DispatchFulfillmentService :=
  mkFulfillmentService (mkDiscovery [("D1", d1)]) [("R3", malformed)] [] [].

(** Calls on both services: a drone is registered, a request created and
    served, the drone D2 goes to maintenance, the assignment is polled
    until it completes and cancelled afterwards. *)
Definition calls : list Call :=
  [ RegisterResource d2;
    CreateDispatchRequest "R2" 10 "control-room" far_site ResourceType.DRONE
      None None "Smoke in the north" None;
    OnAssignment (Assign "A1" 0 0 "R1" (Some "D1"));
    OnAssignment (Advance 0 "A1");
    UpdateResourceStatus "D2" ResourceStatus.MAINTENANCE None;
    OnAssignment (Advance 335000000 "A1");
    OnAssignment (Advance 636000000 "A1");
    OnAssignment (Assign "A2" 700000000 700000000 "R2" None);
    OnAssignment (Cancel "A1") ].

Definition after_calls : DispatchFulfillmentService :=
  Eval vm_compute in run_calls equatorial_distance calls service0.
End Scenario.

(* ================================================================== *)
(** * The order of binary64 numbers *)

Module FloatOrder.
Import FloatRank.

Lemma SFcompare_rank (x y : spec_float) :
  x <> S754_nan -> y <> S754_nan ->
  SFcompare x y = Some (rank_compare (rank x) (rank y)).
Proof.
  intros Hx Hy.
  destruct x as [sx | sx | | sx mx ex], y as [sy | sy | | sy my ey];
    try congruence;
    try destruct sx; try destruct sy; try reflexivity.
  unfold SFcompare, rank, rank_compare; simpl fst; simpl snd.
  simpl (-1 ?= -1). cbv iota.
  destruct (Z.compare_spec ex ey) as [E | E | E].
  - subst. rewrite Z.compare_refl. reflexivity.
  - rewrite (proj2 (Z.compare_gt_iff (- ex) (- ey))) by lia. reflexivity.
  - rewrite (proj2 (Z.compare_lt_iff (- ex) (- ey))) by lia. reflexivity.
Qed.

Lemma rank_compare_spec (a b : Z * Z * Z) :
  CompareSpec (a = b) (lex_lt a b) (lex_lt b a) (rank_compare a b).
Proof.
  destruct a as [[a1 a2] a3], b as [[b1 b2] b3].
  unfold rank_compare, lex_lt; simpl.
  destruct (Z.compare_spec a1 b1); [| constructor; lia ..].
  destruct (Z.compare_spec a2 b2); [| constructor; lia ..].
  destruct (Z.compare_spec a3 b3); constructor; [congruence | lia ..].
Qed.

Lemma lex_lt_irrefl (a : Z * Z * Z) : ~ lex_lt a a.
Proof. unfold lex_lt. lia. Qed.

Lemma lex_lt_asym (a b : Z * Z * Z) : lex_lt a b -> ~ lex_lt b a.
Proof. unfold lex_lt. lia. Qed.

Lemma lex_lt_trans (a b c : Z * Z * Z) : lex_lt a b -> lex_lt b c -> lex_lt a c.
Proof. unfold lex_lt. lia. Qed.

Lemma is_nan_number (x : float) : is_nan x = false <-> number x.
Proof.
  unfold is_nan, number. rewrite eqb_spec. unfold SFeqb.
  split.
  - intros H E. rewrite E in H. discriminate.
  - intros H. rewrite (SFcompare_rank H H).
    destruct (rank_compare_spec (rank (Prim2SF x)) (rank (Prim2SF x))) as [E | E | E];
      try reflexivity; elim (lex_lt_irrefl E).
Qed.

(** The three comparisons, read on ranks. *)
Ltac compare_on_ranks H :=
  match type of H with
  | context [SFcompare (Prim2SF ?x) (Prim2SF ?y)] =>
      let Hx := fresh "Hx" in
      let Hy := fresh "Hy" in
      assert (Hx : Prim2SF x <> S754_nan)
        by (intros E; rewrite E in H; discriminate);
      assert (Hy : Prim2SF y <> S754_nan)
        by (intros E; rewrite E in H; destruct (Prim2SF x); discriminate);
      rewrite (SFcompare_rank Hx Hy) in H
  end.

Lemma leb_true_iff (x y : float) :
  (x <=? y)%float = true <->
  number x /\ number y /\ (frank x = frank y \/ lex_lt (frank x) (frank y)).
Proof.
  unfold number, frank. rewrite leb_spec. unfold SFleb.
  split.
  - intros H. compare_on_ranks H. repeat split; auto.
    destruct (rank_compare_spec (rank (Prim2SF x)) (rank (Prim2SF y)));
      auto; discriminate.
  - intros (Hx & Hy & H). rewrite (SFcompare_rank Hx Hy).
    destruct (rank_compare_spec (rank (Prim2SF x)) (rank (Prim2SF y)))
      as [E | E | E]; auto.
    destruct H as [H | H].
    + rewrite H in E. elim (lex_lt_irrefl E).
    + elim (lex_lt_asym H E).
Qed.

Lemma ltb_true_iff (x y : float) :
  (x <? y)%float = true <->
  number x /\ number y /\ lex_lt (frank x) (frank y).
Proof.
  unfold number, frank. rewrite ltb_spec. unfold SFltb.
  split.
  - intros H. compare_on_ranks H. repeat split; auto.
    destruct (rank_compare_spec (rank (Prim2SF x)) (rank (Prim2SF y)));
      auto; discriminate.
  - intros (Hx & Hy & H). rewrite (SFcompare_rank Hx Hy).
    destruct (rank_compare_spec (rank (Prim2SF x)) (rank (Prim2SF y)))
      as [E | E | E]; auto.
    + rewrite E in H. elim (lex_lt_irrefl H).
    + elim (lex_lt_asym H E).
Qed.

Lemma eqb_true_iff (x y : float) :
  (x =? y)%float = true <-> number x /\ number y /\ frank x = frank y.
Proof.
  unfold number, frank. rewrite eqb_spec. unfold SFeqb.
  split.
  - intros H. compare_on_ranks H. repeat split; auto.
    destruct (rank_compare_spec (rank (Prim2SF x)) (rank (Prim2SF y)));
      auto; discriminate.
  - intros (Hx & Hy & H). rewrite (SFcompare_rank Hx Hy).
    destruct (rank_compare_spec (rank (Prim2SF x)) (rank (Prim2SF y)))
      as [E | E | E]; auto; rewrite H in E; elim (lex_lt_irrefl E).
Qed.

Lemma leb_trans (x y z : float) :
  (x <=? y)%float = true -> (y <=? z)%float = true -> (x <=? z)%float = true.
Proof.
  rewrite !leb_true_iff. intros (Hx & Hy & H1) (_ & Hz & H2).
  repeat split; auto.
  destruct H1 as [H1 | H1], H2 as [H2 | H2].
  - left; congruence.
  - right; rewrite H1; assumption.
  - right; rewrite <- H2; assumption.
  - right; eapply lex_lt_trans; eassumption.
Qed.

Lemma ltb_leb (x y : float) :
  (x <? y)%float = true -> (x <=? y)%float = true.
Proof.
  rewrite ltb_true_iff, leb_true_iff. intros (Hx & Hy & H); auto.
Qed.

(** On numbers the order is total. *)
Lemma not_ltb_leb (x y : float) :
  number x -> number y -> (y <? x)%float = false -> (x <=? y)%float = true.
Proof.
  intros Hx Hy H. apply leb_true_iff. repeat split; auto.
  destruct (rank_compare_spec (frank x) (frank y)) as [E | E | E]; auto.
  assert (T : (y <? x)%float = true) by (apply ltb_true_iff; auto).
  congruence.
Qed.

Lemma not_ltb_iff_leb (x y : float) :
  number x -> number y -> (y <? x)%float = false <-> (x <=? y)%float = true.
Proof.
  intros Hx Hy. split; [apply not_ltb_leb; assumption |].
  intros H. apply leb_true_iff in H. destruct H as (_ & _ & H).
  destruct (y <? x)%float eqn:E; [| reflexivity].
  apply ltb_true_iff in E. destruct E as (_ & _ & E).
  destruct H as [H | H].
  - rewrite H in E. elim (lex_lt_irrefl E).
  - elim (lex_lt_asym H E).
Qed.

Lemma eqb_not_ltb (x y : float) :
  (x =? y)%float = true -> (x <? y)%float = false.
Proof.
  intros H. apply eqb_true_iff in H. destruct H as (_ & _ & H).
  destruct (x <? y)%float eqn:E; [| reflexivity].
  apply ltb_true_iff in E. destruct E as (_ & _ & E).
  rewrite H in E. elim (lex_lt_irrefl E).
Qed.


End FloatOrder.

(* ================================================================== *)
(** * Dictionaries and sorting: basic facts *)

Lemma type_eqb_eq (a b : ResourceType.t) : ResourceType.eqb a b = true <-> a = b.
Proof. destruct a, b; simpl; split; intro H; congruence. Qed.

Lemma status_eqb_eq (a b : ResourceStatus.t) :
  ResourceStatus.eqb a b = true <-> a = b.
Proof. destruct a, b; simpl; split; intro H; congruence. Qed.

Lemma dict_get_set {V : Type} (k k' : string) (v : V) (d : dict V) :
  dict_get k (dict_set k' v d) = if String.eqb k k' then Some v else dict_get k d.
Proof.
  induction d as [| [k0 v0] d IH]; simpl.
  - destruct (String.eqb k k'); reflexivity.
  - destruct (String.eqb k' k0) eqn:E1; simpl.
    + destruct (String.eqb k k') eqn:E2; [reflexivity |].
      apply String.eqb_eq in E1; subst. rewrite E2. reflexivity.
    + rewrite IH. destruct (String.eqb k k0) eqn:E3; [| reflexivity].
      apply String.eqb_eq in E3; subst.
      rewrite String.eqb_sym, E1. reflexivity.
Qed.

Lemma dict_get_set_same {V : Type} (k : string) (v : V) (d : dict V) :
  dict_get k (dict_set k v d) = Some v.
Proof. rewrite dict_get_set, String.eqb_refl. reflexivity. Qed.

Lemma dict_get_In {V : Type} (k : string) (v : V) (d : dict V) :
  dict_get k d = Some v -> In (k, v) d.
Proof.
  induction d as [| [k0 v0] d IH]; simpl; [discriminate |].
  destruct (String.eqb k k0) eqn:E.
  - apply String.eqb_eq in E. intros [= ->]. subst. auto.
  - auto.
Qed.

Lemma dict_get_value {V : Type} (k : string) (v : V) (d : dict V) :
  dict_get k d = Some v -> In v (dict_values d).
Proof.
  intros H. apply dict_get_In in H.
  unfold dict_values. apply in_map_iff. exists (k, v). auto.
Qed.

Lemma keyed_get (d : dict Resource.t) (r : Resource.t) :
  keyed d -> In r (dict_values d) -> dict_get (Resource.resource_id r) d = Some r.
Proof.
  unfold keyed, dict_values. intros [N K] H.
  apply in_map_iff in H. destruct H as ([k r'] & E & H). simpl in E. subst r'.
  rewrite (K k r H). clear K.
  induction d as [| [k0 r0] d IH]; simpl in *; [contradiction |].
  inversion N as [| ? ? Nk Nd]; subst.
  destruct H as [[= -> ->] | H].
  - rewrite String.eqb_refl. reflexivity.
  - destruct (String.eqb k k0) eqn:E; [| apply IH; assumption].
    apply String.eqb_eq in E. subst k0. exfalso. apply Nk.
    apply in_map_iff. exists (k, r). auto.
Qed.

Section SortFacts.
Context {A K : Type}.
Variable lt : K -> K -> bool.
Variable key : A -> K.

Lemma sort_insert_perm (x : A) (l : list A) :
  Permutation (sort_insert lt key x l) (x :: l).
Proof.
  induction l as [| y l IH]; simpl; [reflexivity |].
  destruct (lt (key y) (key x)); [| reflexivity].
  rewrite IH. apply perm_swap.
Qed.

Lemma list_sort_perm (l : list A) : Permutation (list_sort lt key l) l.
Proof.
  induction l as [| x l IH]; simpl; [reflexivity |].
  rewrite sort_insert_perm. constructor. exact IH.
Qed.

Lemma list_sort_In (l : list A) (x : A) : In x (list_sort lt key l) <-> In x l.
Proof.
  split; apply Permutation_in;
    [apply list_sort_perm | symmetry; apply list_sort_perm].
Qed.

(** Sortedness, for a relation [le] that [lt] decides on the keys that
    satisfy [good]. *)
Variable le : K -> K -> Prop.
Variable good : K -> Prop.
Hypothesis lt_le : forall a b, lt a b = true -> le a b.
Hypothesis not_lt_le : forall a b, good a -> good b -> lt b a = false -> le a b.
Hypothesis le_trans : forall a b c, le a b -> le b c -> le a c.

Let le_key (a b : A) : Prop := le (key a) (key b).

Lemma sort_insert_sorted (x : A) (l : list A) :
  good (key x) -> Forall (fun y => good (key y)) l ->
  StronglySorted le_key l -> StronglySorted le_key (sort_insert lt key x l).
Proof.
  intros Gx Gl S. induction S as [| y l S IH F]; simpl.
  - repeat constructor.
  - inversion Gl as [| ? ? Gy Gl']; subst.
    destruct (lt (key y) (key x)) eqn:E.
    + constructor; [auto |].
      apply Forall_forall. intros z Hz.
      apply (Permutation_in _ (sort_insert_perm x l)) in Hz.
      destruct Hz as [<- | Hz].
      * apply lt_le; assumption.
      * rewrite Forall_forall in F. auto.
    + assert (Lxy : le_key x y) by (apply not_lt_le; assumption).
      constructor; [constructor; assumption |].
      constructor; [exact Lxy |].
      rewrite Forall_forall in F |- *. intros z Hz.
      apply le_trans with (key y); [exact Lxy | apply F; exact Hz].
Qed.

Lemma list_sort_sorted (l : list A) :
  Forall (fun y => good (key y)) l -> StronglySorted le_key (list_sort lt key l).
Proof.
  induction l as [| x l IH]; simpl; intros G; [constructor |].
  inversion G as [| ? ? Gx Gl]; subst.
  apply sort_insert_sorted.
  - exact Gx.
  - apply Forall_forall. intros z Hz.
    apply (proj1 (list_sort_In l z)) in Hz.
    rewrite Forall_forall in Gl. exact (Gl z Hz).
  - apply IH. exact Gl.
Qed.

(** Stability: elements that [lt] does not order keep their places
    relative to each other. *)
Variable P : A -> bool.
Hypothesis P_unordered :
  forall a b, P a = true -> P b = true -> lt (key a) (key b) = false.



End SortFacts.

Section SortByKeyFacts.
Context {A K : Type}.
Variable lt : K -> K -> bool.
Variable key : A -> Res K.
Variable key_of : A -> K.

Let decorate (x : A) : K * A := (key_of x, x).

Lemma sort_keys_returned (l : list A) :
  (forall x, In x l -> key x = Ok (key_of x)) ->
  sort_keys key l = Ok (map decorate l).
Proof.
  induction l as [| x l IH]; simpl; intros H; [reflexivity |].
  rewrite (H x (or_introl eq_refl)). simpl.
  rewrite IH by (intros y Hy; apply H; right; exact Hy).
  reflexivity.
Qed.

Lemma sort_insert_decorated (x : A) (l : list A) :
  sort_insert lt fst (decorate x) (map decorate l)
  = map decorate (sort_insert lt key_of x l).
Proof.
  induction l as [| y l IH]; simpl; [reflexivity |].
  destruct (lt (key_of y) (key_of x)); simpl; [rewrite IH |]; reflexivity.
Qed.

Lemma list_sort_decorated (l : list A) :
  list_sort lt fst (map decorate l) = map decorate (list_sort lt key_of l).
Proof.
  induction l as [| x l IH]; simpl; [reflexivity |].
  rewrite IH. apply sort_insert_decorated.
Qed.

(** With keys that are all returned, the sort is the sort by these keys. *)
Lemma list_sort_key_returned (l : list A) :
  (forall x, In x l -> key x = Ok (key_of x)) ->
  list_sort_key lt key l = Ok (list_sort lt key_of l).
Proof.
  intros H. unfold list_sort_key. rewrite (sort_keys_returned l H). simpl.
  rewrite list_sort_decorated, map_map. simpl. rewrite map_id. reflexivity.
Qed.

(** The sort raises what the key function raised on an element. *)
Lemma list_sort_key_raised (l : list A) (e : PyExn) :
  list_sort_key lt key l = Raise e -> exists x, In x l /\ key x = Raise e.
Proof.
  unfold list_sort_key.
  assert (H : sort_keys key l = Raise e -> exists x, In x l /\ key x = Raise e).
  { induction l as [| x l IH]; simpl; [discriminate |].
    destruct (key x) as [k | e'] eqn:Kx; simpl.
    - destruct (sort_keys key l) as [rest | e'']; simpl; [discriminate |].
      intros [= ->]. destruct (IH eq_refl) as (y & Hy & Ky).
      exists y. split; [right; exact Hy | exact Ky].
    - intros [= ->]. exists x. split; [left; reflexivity | exact Kx]. }
  destruct (sort_keys key l) as [d | e']; simpl; [discriminate |].
  intros [= ->]. apply H. reflexivity.
Qed.

End SortByKeyFacts.

(* ================================================================== *)
(** * Requirements *)

Import FloatRank.

Lemma existsb_eqb_In (s : string) (caps : list string) :
  existsb (String.eqb s) caps = true <-> In s caps.
Proof.
  rewrite existsb_exists. split.
  - intros (x & Hx & E). apply String.eqb_eq in E. subst. exact Hx.
  - intros H. exists s. split; [exact H | apply String.eqb_refl].
Qed.

Lemma capabilities_rule (caps : list string) (v : ReqValue) :
  existsb (fun cap => cap_in cap caps)
          (match v with VList l => l | _ => [v] end) = true
  <-> exists cap, In cap (listed_capabilities v) /\ In cap caps.
Proof.
  assert (L : forall l : list ReqValue,
             existsb (fun cap => cap_in cap caps) l = true
             <-> exists cap,
                   In cap (flat_map (fun c => match c with
                                              | VStr s => [s]
                                              | _ => []
                                              end) l)
                   /\ In cap caps).
  { intros l. rewrite existsb_exists. split.
    - intros (x & Hx & H). destruct x; simpl in H; try discriminate.
      exists s. split; [| apply existsb_eqb_In; exact H].
      apply in_flat_map. exists (VStr s). split; [exact Hx | left; reflexivity].
    - intros (cap & Hl & Hc). apply in_flat_map in Hl.
      destruct Hl as (x & Hx & Hs). exists x. split; [exact Hx |].
      destruct x; simpl in Hs; try contradiction.
      destruct Hs as [-> | []]. simpl. apply existsb_eqb_In. exact Hc. }
  destruct v; simpl; try (split; [discriminate | intros (cap & [] & _)]).
  - rewrite orb_false_r, existsb_eqb_In. split.
    + intros H. exists s. auto.
    + intros (cap & [-> | []] & H). exact H.
  - apply L.
Qed.

Lemma int_lt_float_le (n : Z) (x : float) :
  is_nan x = false ->
  (Py.int_lt_float n x = false <-> float_le_int x n = true).
Proof.
  intros N. apply FloatOrder.is_nan_number in N. unfold number in N.
  unfold Py.int_lt_float, float_le_int.
  destruct (Prim2SF x) as [s | s | | s m e]; try congruence.
  - rewrite Z.ltb_ge, Z.leb_le. reflexivity.
  - destruct s; simpl; split; congruence.
  - cbv zeta. destruct (0 <=? e); rewrite Z.ltb_ge, Z.leb_le; reflexivity.
Qed.

Lemma capacity_lt_spec (value : Z) (threshold : ReqValue) :
  numeric threshold ->
  exists below, capacity_lt value threshold = Ok below
                /\ (below = false <-> at_least value threshold).
Proof.
  destruct threshold; simpl; intros N; try contradiction.
  - eexists. split; [reflexivity |]. apply Z.ltb_ge.
  - eexists. split; [reflexivity |]. apply Z.ltb_ge.
  - eexists. split; [reflexivity |]. apply int_lt_float_le. exact N.
Qed.

Lemma min_capacity_rule (capacity : dict Z) (items : dict ReqValue) :
  (forall k threshold, In (k, threshold) items -> numeric threshold) ->
  exists met,
    min_capacity_ok capacity items = Ok met
    /\ (met = true
        <-> forall k threshold, In (k, threshold) items ->
                                capacity_met capacity k threshold).
Proof.
  induction items as [| [k0 t0] items IH]; simpl; intros N.
  - exists true. split; [reflexivity |]. split; [intros _ k t [] | reflexivity].
  - destruct IH as (met & Hmet & Hiff);
      [intros k t Hin; apply (N k t); right; exact Hin |].
    destruct (dict_get k0 capacity) as [v |] eqn:G.
    + destruct (@capacity_lt_spec v t0) as (below & Hb & Hbelow);
        [apply (N k0 t0); left; reflexivity |].
      rewrite Hb. simpl. destruct below.
      * exists false. split; [reflexivity |]. split; [discriminate |]. intros H.
        destruct (H k0 t0 (or_introl eq_refl)) as (v' & G' & L').
        rewrite G in G'. injection G' as <-.
        apply Hbelow in L'. discriminate.
      * exists met. split; [exact Hmet |]. rewrite Hiff. split.
        -- intros H k t [[= <- <-] | Hin]; [| auto].
           exists v. split; [exact G | apply Hbelow; reflexivity].
        -- intros H k t Hin. apply H. right. exact Hin.
    + exists false. split; [reflexivity |]. split; [discriminate |]. intros H.
      destruct (H k0 t0 (or_introl eq_refl)) as (v' & G' & _).
      rewrite G in G'. discriminate.
Qed.

Lemma operator_rule (op : string) (v : ReqValue) :
  operator_differs op v = false <-> v = VStr op.
Proof.
  destruct v; simpl; try (split; discriminate).
  rewrite negb_false_iff, String.eqb_eq. split; [intros -> | intros [= ->]]; reflexivity.
Qed.

Lemma requirements_satisfied_cons (r : Resource.t) (k : string) (v : ReqValue)
    (rest : dict ReqValue) :
  requirements_satisfied r ((k, v) :: rest)
  <-> passes_rule r k v /\ requirements_satisfied r rest.
Proof.
  unfold requirements_satisfied. split.
  - intros H. split; [apply H; left; reflexivity |].
    intros k' v' Hin. apply H. right. exact Hin.
  - intros [H1 H2] k' v' [[= <- <-] | Hin]; auto.
Qed.

Lemma well_shaped_cons (k : string) (v : ReqValue) (rest : dict ReqValue) :
  well_shaped ((k, v) :: rest) ->
  (k = "min_capacity"%string ->
   exists d, v = VDict d
             /\ forall c threshold, In (c, threshold) d -> numeric threshold)
  /\ well_shaped rest.
Proof.
  unfold well_shaped. intros H. split.
  - intros ->. apply H. left. reflexivity.
  - intros v' Hin. apply H. right. exact Hin.
Qed.

Lemma meets_requirements_spec (r : Resource.t) (requirements : dict ReqValue) :
  well_shaped requirements ->
  exists b, _meets_requirements r requirements = Ok b
            /\ (b = true <-> requirements_satisfied r requirements).
Proof.
  induction requirements as [| [k v] rest IH]; intros W.
  - exists true. split; [reflexivity |]. split; [intros _ k v [] | reflexivity].
  - apply well_shaped_cons in W. destruct W as [Wk W].
    destruct (IH W) as (b & Hb & Hiff). clear IH.
    simpl. setoid_rewrite requirements_satisfied_cons.
    destruct (String.eqb k "capabilities") eqn:E1.
    { apply String.eqb_eq in E1. subst k.
      destruct (existsb _ _) eqn:Ex; simpl.
      - exists b. split; [exact Hb |]. rewrite Hiff.
        apply capabilities_rule in Ex.
        split; [| tauto]. intros H. split; [| exact H].
        unfold passes_rule. repeat split; try discriminate. intros _. exact Ex.
      - exists false. split; [reflexivity |]. split; [discriminate |].
        intros [(H & _) _]. apply capabilities_rule in H; [| reflexivity].
        congruence. }
    destruct (String.eqb k "min_capacity") eqn:E2.
    { apply String.eqb_eq in E2. subst k.
      destruct (Wk eq_refl) as (d & -> & Nd).
      destruct (@min_capacity_rule (Resource.capacity r) d Nd)
        as (met & Mc & Hmet).
      rewrite Mc. simpl. destruct met.
      - exists b. split; [exact Hb |]. rewrite Hiff.
        split; [| tauto]. intros H. split; [| exact H].
        unfold passes_rule. repeat split; try discriminate. intros _.
        exists d. split; [reflexivity |]. apply Hmet. reflexivity.
      - exists false. split; [reflexivity |]. split; [discriminate |].
        intros [(_ & H & _) _]. destruct (H eq_refl) as (d' & [= <-] & H').
        apply Hmet in H'. discriminate. }
    destruct (String.eqb k "operator") eqn:E3.
    { apply String.eqb_eq in E3. subst k.
      destruct (operator_differs _ _) eqn:Od.
      - exists false. split; [reflexivity |]. split; [discriminate |].
        intros [(_ & _ & H) _]. apply operator_rule in H; [| reflexivity].
        congruence.
      - exists b. split; [exact Hb |]. rewrite Hiff.
        split; [| tauto]. intros H. split; [| exact H].
        unfold passes_rule. repeat split; try discriminate. intros _.
        apply operator_rule. exact Od. }
    exists b. split; [exact Hb |]. rewrite Hiff.
    split; [| tauto]. intros H. split; [| exact H].
    apply String.eqb_neq in E1, E2, E3.
    unfold passes_rule. repeat split; intros ->; congruence.
Qed.

Lemma meets_ignores_unrecognized (resource : Resource.t) (requirements : dict ReqValue) :
  _meets_requirements resource requirements
  = _meets_requirements resource
      (filter (fun kv => recognized (fst kv)) requirements).
Proof.
  induction requirements as [| [k v] rest IH]; [reflexivity |].
  simpl. unfold recognized at 1. simpl.
  destruct (String.eqb k "capabilities") eqn:E1; simpl.
  - rewrite E1. destruct (negb _); [reflexivity | exact IH].
  - destruct (String.eqb k "min_capacity") eqn:E2; simpl.
    + rewrite E1, E2. destruct v; try reflexivity.
      destruct (min_capacity_ok _ _) as [[|] | e]; simpl;
        [exact IH | reflexivity | reflexivity].
    + destruct (String.eqb k "operator") eqn:E3; simpl.
      * rewrite E1, E2, E3.
        destruct (operator_differs _ _); [reflexivity | exact IH].
      * exact IH.
Qed.

(** C10. Requirement checking looks at the keys "capabilities",
    "min_capacity" and "operator" only: for every resource and every
    requirements map, the result is the one of the map restricted to these
    keys, so that a map with none of them is satisfied by every resource,
    as a value returned ([Ok true]) and not an error. *)
Theorem unrecognized_keys_are_ignored :
  forall (resource : Resource.t) (requirements : dict ReqValue),
    _meets_requirements resource requirements
    = _meets_requirements resource
        (filter (fun kv => recognized (fst kv)) requirements)
    /\ (Forall (fun kv => recognized (fst kv) = false) requirements ->
        _meets_requirements resource requirements = Ok true).
Proof.
  intros resource requirements. split.
  - apply meets_ignores_unrecognized.
  - intros H. rewrite meets_ignores_unrecognized.
    replace (filter (fun kv => recognized (fst kv)) requirements)
      with (@nil (string * ReqValue)); [reflexivity |].
    induction H as [| kv rest Hkv _ IH]; simpl; [reflexivity |].
    rewrite Hkv. exact IH.
Qed.

(* ================================================================== *)
(** * Discovery *)


Section DiscoverFacts.
Variable distance_to : Location -> Location -> Res float.
Variable request : DispatchRequest.t.
Variable max_distance_km : float.

Lemma candidate_iff (r : Resource.t) :
  candidate request r
  <-> ResourceType.eqb (Resource.resource_type r)
                       (DispatchRequest.resource_type request)
      && ResourceStatus.eqb (Resource.status r) ResourceStatus.AVAILABLE
      = true.
Proof.
  unfold candidate. rewrite andb_true_iff, type_eqb_eq, status_eqb_eq.
  reflexivity.
Qed.

(** A distance that is a number is a distance that was returned. *)
Lemma distance_of_number (r : Resource.t) :
  is_nan (distance_of distance_to request r) = false ->
  distance_to (Resource.location r) (DispatchRequest.location request)
  = Ok (distance_of distance_to request r).
Proof.
  unfold distance_of. destruct (distance_to _ _) as [d | e]; [reflexivity |].
  intros H. vm_compute in H. discriminate H.
Qed.

Lemma distance_of_returned (r : Resource.t) (d : float) :
  distance_to (Resource.location r) (DispatchRequest.location request) = Ok d ->
  distance_of distance_to request r = d.
Proof. unfold distance_of. intros ->. reflexivity. Qed.

Lemma discover_loop_ok (values candidates : list Resource.t) :
  discover_loop distance_to request max_distance_km values = Ok candidates ->
  candidates = filter (passes_filters distance_to request max_distance_km) values.
Proof.
  revert candidates. induction values as [| r values IH]; simpl; intros c H.
  - congruence.
  - unfold passes_filters at 1.
    destruct (ResourceType.eqb _ _); simpl; [| auto].
    destruct (ResourceStatus.eqb _ _); simpl; [| auto].
    destruct (distance_to _ _) as [d | e]; simpl in H |- *; [| discriminate].
    destruct (_ <? _)%float; simpl; [auto |].
    destruct (_meets_requirements r _) as [b | e]; simpl in H; [| discriminate].
    destruct (discover_loop _ _ _ values) as [c' | e]; simpl in H;
      [| discriminate].
    injection H as <-. rewrite <- (IH c' eq_refl). destruct b; reflexivity.
Qed.

Lemma passes_filters_returned (r : Resource.t) :
  passes_filters distance_to request max_distance_km r = true ->
  distance_to (Resource.location r) (DispatchRequest.location request)
  = Ok (distance_of distance_to request r).
Proof.
  unfold passes_filters, distance_of. rewrite !andb_true_iff.
  intros [[_ H] _]. destruct (distance_to _ _); [reflexivity | discriminate].
Qed.

(** The key function of the sort returns on what the loop has kept. *)
Lemma discover_key_returned (r : Resource.t) :
  passes_filters distance_to request max_distance_km r = true ->
  discover_key distance_to request r = Ok (key_of distance_to request r).
Proof.
  intros H. unfold discover_key. rewrite (passes_filters_returned r H).
  reflexivity.
Qed.

(** [discover_resources] is its loop followed by a sort that does not
    raise. *)
Lemma discover_resources_eq (self : BeckNDiscoveryService) :
  discover_resources distance_to self request max_distance_km
  = match discover_loop distance_to request max_distance_km
            (dict_values (resources self)) with
    | Ok available =>
        Ok (list_sort tuple_lt (key_of distance_to request) available)
    | Raise e => Raise e
    end.
Proof.
  unfold discover_resources.
  destruct (discover_loop _ _ _ _) as [c | e] eqn:L; simpl; [| reflexivity].
  apply list_sort_key_returned. intros r Hr.
  apply discover_loop_ok in L. subst c. apply filter_In in Hr.
  apply discover_key_returned. apply Hr.
Qed.

Lemma discover_loop_filter (values : list Resource.t) :
  well_shaped (DispatchRequest.requirements request) ->
  (forall r, In r values -> candidate request r ->
             is_nan (distance_of distance_to request r) = false) ->
  discover_loop distance_to request max_distance_km values
  = Ok (filter (passes_filters distance_to request max_distance_km) values).
Proof.
  intros W. induction values as [| r values IH]; intros D; [reflexivity |].
  assert (IH' := IH (fun x Hx => D x (or_intror Hx))). clear IH.
  specialize (D r (or_introl eq_refl)). rewrite candidate_iff in D.
  simpl. unfold passes_filters at 1.
  destruct (ResourceType.eqb _ _); simpl in D |- *; [| exact IH'].
  destruct (ResourceStatus.eqb _ _); simpl in D |- *; [| exact IH'].
  rewrite (distance_of_number r (D eq_refl)). simpl.
  destruct (_ <? _)%float; simpl; [exact IH' |].
  destruct (meets_requirements_spec r W) as (b & -> & _).
  simpl. rewrite IH'. simpl. destruct b; reflexivity.
Qed.

Lemma passes_filters_eligible (r : Resource.t) :
  well_shaped (DispatchRequest.requirements request) ->
  is_nan (max_distance_km * 1000)%float = false ->
  (candidate request r -> is_nan (distance_of distance_to request r) = false) ->
  passes_filters distance_to request max_distance_km r = true
  <-> eligible distance_to request max_distance_km r.
Proof.
  intros W Nb Nd. apply FloatOrder.is_nan_number in Nb.
  unfold passes_filters, eligible.
  rewrite !andb_true_iff, type_eqb_eq, status_eqb_eq.
  destruct (meets_requirements_spec r W) as (b & -> & Hb).
  rewrite <- Hb.
  split.
  - intros [[[T S] D] M].
    assert (N := Nd (conj T S)).
    rewrite (distance_of_number r N) in D. apply negb_true_iff in D.
    apply FloatOrder.is_nan_number in N.
    rewrite (FloatOrder.not_ltb_iff_leb N Nb) in D.
    destruct b; [auto | discriminate].
  - intros (T & S & D & M).
    assert (N := Nd (conj T S)).
    rewrite (distance_of_number r N), negb_true_iff.
    apply FloatOrder.is_nan_number in N.
    rewrite (FloatOrder.not_ltb_iff_leb N Nb).
    subst b. auto.
Qed.

Lemma tuple_lt_key_of (a b : Resource.t) :
  tuple_lt (key_of distance_to request a) (key_of distance_to request b)
  = (distance_of distance_to request a <? distance_of distance_to request b)%float.
Proof.
  unfold tuple_lt, key_of. simpl.
  rewrite Z.eqb_refl. simpl.
  destruct (_ =? _)%float eqn:E; simpl; [| reflexivity].
  symmetry. apply FloatOrder.eqb_not_ltb. exact E.
Qed.

(** Nothing is below a NaN. *)
Lemma ltb_nan (x d : float) : is_nan d = true -> (x <? d)%float = false.
Proof.
  intros N. destruct (x <? d)%float eqn:E; [| reflexivity].
  apply FloatOrder.ltb_true_iff in E. destruct E as (_ & Hd & _).
  apply FloatOrder.is_nan_number in Hd. congruence.
Qed.

(** With requirements that are well shaped the loop raises what
    [distance_to] raised on a candidate. *)
Lemma discover_loop_distance_raised (values : list Resource.t) :
  well_shaped (DispatchRequest.requirements request) ->
  (exists r e, In r values /\ candidate request r
               /\ distance_to (Resource.location r)
                              (DispatchRequest.location request) = Raise e)
  <-> exists e, discover_loop distance_to request max_distance_km values
                = Raise e.
Proof.
  intros W. induction values as [| r values IH]; simpl.
  - split; [intros (r & e & [] & _) | intros (e & H); discriminate].
  - assert (C := candidate_iff r).
    destruct (ResourceType.eqb _ _); simpl in C |- *.
    2:{ rewrite <- IH. split.
        - intros (x & e & [<- | Hx] & Cx & Dx);
            [apply C in Cx; discriminate | eauto].
        - intros (x & e & Hx & H). eauto 6. }
    destruct (ResourceStatus.eqb _ _); simpl in C |- *.
    2:{ rewrite <- IH. split.
        - intros (x & e & [<- | Hx] & Cx & Dx);
            [apply C in Cx; discriminate | eauto].
        - intros (x & e & Hx & H). eauto 6. }
    destruct (distance_to (Resource.location r) _) as [d | e] eqn:Dr; simpl.
    2:{ split; [eauto |]. intros _. exists r, e.
        split; [left; reflexivity |]. split; [apply C; reflexivity | exact Dr]. }
    assert (Skip : (exists x e, (r = x \/ In x values) /\ candidate request x
                                /\ distance_to (Resource.location x)
                                     (DispatchRequest.location request)
                                   = Raise e)
                   <-> exists e, discover_loop distance_to request
                                   max_distance_km values = Raise e).
    { rewrite <- IH. split.
      - intros (x & e & [<- | Hx] & Cx & Dx); [congruence | eauto].
      - intros (x & e & Hx & H). eauto 6. }
    destruct (_ <? _)%float; [exact Skip |].
    destruct (meets_requirements_spec r W) as (b & -> & _). simpl.
    rewrite Skip.
    destruct (discover_loop _ _ _ values) as [c | e]; simpl.
    + split; intros (e & H); discriminate.
    + split; intros _; eauto.
Qed.

(** C1, as the code has it. For every registry, request and radius, the
    radius in meters being a number and a "min_capacity" requirement, if
    there is one, an object of numbers. If the distance of every registered
    resource of the type of the request with status AVAILABLE is returned
    and is a number, [discover_resources] returns a list [found] that holds
    exactly the registered resources that are eligible (the type of the
    request, status AVAILABLE, a distance of at most
    [max_distance_km * 1000] meters, every requirement passed), as a
    rearrangement of the registry's eligible values, and [found] is sorted
    ascending by distance to the request. If [distance_to] raises on one of
    these resources, [discover_resources] raises. And a resource at a
    distance that is a NaN is never too far: when [discover_resources]
    returns, it returns such a resource if it passes the other tests,
    whatever the radius. *)
Theorem discover_returns_eligible_sorted :
  forall self : BeckNDiscoveryService,
    well_shaped (DispatchRequest.requirements request) ->
    is_nan (max_distance_km * 1000)%float = false ->
    ((forall r, In r (dict_values (resources self)) ->
                candidate request r ->
                is_nan (distance_of distance_to request r) = false) ->
     exists found,
       discover_resources distance_to self request max_distance_km = Ok found
       /\ (forall r, In r found <->
                     In r (dict_values (resources self))
                     /\ eligible distance_to request max_distance_km r)
       /\ (exists keep,
             (forall r, In r (dict_values (resources self)) ->
                        (keep r = true
                         <-> eligible distance_to request max_distance_km r))
             /\ Permutation found (filter keep (dict_values (resources self))))
       /\ StronglySorted (by_distance distance_to request) found)
    /\ ((exists r e,
           In r (dict_values (resources self)) /\ candidate request r
           /\ distance_to (Resource.location r)
                          (DispatchRequest.location request) = Raise e) ->
        exists e,
          discover_resources distance_to self request max_distance_km
          = Raise e)
    /\ (forall found r d,
          discover_resources distance_to self request max_distance_km
          = Ok found ->
          In r (dict_values (resources self)) ->
          candidate request r ->
          distance_to (Resource.location r) (DispatchRequest.location request)
          = Ok d ->
          is_nan d = true ->
          requirements_satisfied r (DispatchRequest.requirements request) ->
          In r found).
Proof.
  intros self W Nb. split; [| split].
  - intros Nd.
    rewrite discover_resources_eq, (discover_loop_filter _ W Nd).
    eexists. split; [reflexivity |].
    set (values := dict_values (resources self)) in *.
    set (keep := passes_filters distance_to request max_distance_km).
    split; [| split].
    + intros r. rewrite list_sort_In, filter_In.
      split; intros [Hin H]; (split; [exact Hin |]);
        apply (@passes_filters_eligible r W Nb (Nd r Hin)); exact H.
    + exists keep. split.
      * intros r Hin. apply (@passes_filters_eligible r W Nb (Nd r Hin)).
      * apply list_sort_perm.
    + refine (@list_sort_sorted _ _ tuple_lt (key_of distance_to request)
                (fun a b : float * Z => (fst a <=? fst b)%float = true)
                (fun k : float * Z => number (fst k)) _ _ _ _ _).
      * intros [d1 p1] [d2 p2]. unfold tuple_lt. simpl.
        destruct (d1 =? d2)%float eqn:E; simpl.
        -- intros _. apply FloatOrder.leb_true_iff.
           apply FloatOrder.eqb_true_iff in E. tauto.
        -- apply FloatOrder.ltb_leb.
      * intros [d1 p1] [d2 p2] G1 G2. unfold tuple_lt. simpl. simpl in G1, G2.
        destruct (d2 =? d1)%float eqn:E; simpl.
        -- intros _. apply FloatOrder.leb_true_iff.
           apply FloatOrder.eqb_true_iff in E.
           destruct E as (? & ? & E). rewrite E. tauto.
        -- apply FloatOrder.not_ltb_leb; assumption.
      * intros a b c. apply FloatOrder.leb_trans.
      * apply Forall_forall. intros r Hr. apply filter_In in Hr.
        destruct Hr as [Hin Hp].
        simpl. apply FloatOrder.is_nan_number. apply (Nd r Hin).
        apply candidate_iff. unfold keep, passes_filters in Hp.
        rewrite !andb_true_iff in Hp. rewrite andb_true_iff. tauto.
  - intros H. rewrite discover_resources_eq.
    apply (discover_loop_distance_raised (dict_values (resources self)) W) in H.
    destruct H as (e & ->). exists e. reflexivity.
  - intros found r d H Hin C D N S.
    rewrite discover_resources_eq in H.
    destruct (discover_loop _ _ _ _) as [c | e] eqn:L; [| discriminate].
    injection H as <-. apply discover_loop_ok in L. subst c.
    apply list_sort_In. apply filter_In. split; [exact Hin |].
    unfold passes_filters. apply candidate_iff in C. rewrite C, D. simpl.
    rewrite (@ltb_nan _ d N). simpl.
    destruct (meets_requirements_spec r W) as (b & -> & Hb).
    apply Hb in S. subst b. reflexivity.
Qed.


End DiscoverFacts.

(* ================================================================== *)
(** * Route generation *)

Lemma py_max_ge (a b : Z) : a <= Py.max a b /\ b <= Py.max a b.
Proof. unfold Py.max. destruct (Z.ltb_spec a b); lia. Qed.

Lemma range_length (a b : Z) : List.length (Py.range a b) = Z.to_nat (b - a).
Proof. unfold Py.range. rewrite length_map, length_seq. reflexivity. Qed.

Lemma range_nth (a b : Z) (k : nat) :
  (k < Z.to_nat (b - a))%nat ->
  nth_error (Py.range a b) k = Some (a + Z.of_nat k).
Proof.
  intros H. unfold Py.range.
  rewrite nth_error_map, nth_error_seq.
  destruct (Nat.ltb_spec k (Z.to_nat (b - a))); [reflexivity | lia].
Qed.

Section RouteFacts.
Variable distance_to : Location -> Location -> Res float.

(** C4, as the code has it. For every pair of locations whose distance
    divided by 5000 is a finite number, with integer part [n]: the route is
    a linear interpolation with [count = max(2, n)] steps, [n] being the
    quotient truncated and not rounded; it has [count + 1] points, starts
    at [start], ends at [end_], and its point [i], for [0 < i < count], is
    at the fraction [i / count] of the way in latitude and in longitude.
    When the quotient is a NaN or an infinity, [int()] raises and so does
    [_generate_route]; and when [distance_to] raises, [_generate_route]
    raises the same. *)
Theorem generate_route_interpolates :
  forall start end_ : Location,
    match distance_to start end_ with
    | Raise e => _generate_route distance_to start end_ = Raise e
    | Ok distance =>
        match Py.int (distance / 5000)%float with
        | Raise e => _generate_route distance_to start end_ = Raise e
        | Ok n =>
            let count := Py.max 2 n in
            exists route,
              _generate_route distance_to start end_ = Ok route
              /\ Z.of_nat (List.length route) = count + 1
              /\ nth_error route 0 = Some start
              /\ nth_error route (Z.to_nat count) = Some end_
              /\ forall i, 1 <= i < count ->
                   nth_error route (Z.to_nat i)
                   = Some (mkLocation
                             (lat start + (lat end_ - lat start)
                                          * (Py.float_of_int i / Py.float_of_int count))%float
                             (lon start + (lon end_ - lon start)
                                          * (Py.float_of_int i / Py.float_of_int count))%float
                             None)
        end
    end.
Proof.
  intros start end_. unfold _generate_route.
  destruct (distance_to start end_) as [distance | e]; simpl; [| reflexivity].
  destruct (Py.int _) as [n | e]; simpl; [| reflexivity].
  destruct (py_max_ge 2 n) as [G _].
  set (count := Py.max 2 n) in *.
  eexists. split; [reflexivity |].
  assert (L : List.length (map (waypoint start end_ count) (Py.range 1 count))
              = Z.to_nat (count - 1))
    by (rewrite length_map; apply range_length).
  split; [| split; [| split]].
  - simpl. rewrite length_app, L. simpl. lia.
  - reflexivity.
  - replace (Z.to_nat count) with (S (Z.to_nat (count - 1))) by lia.
    simpl. rewrite nth_error_app2 by lia.
    rewrite L, Nat.sub_diag. reflexivity.
  - intros i Hi.
    replace (Z.to_nat i) with (S (Z.to_nat (i - 1))) by lia.
    simpl. rewrite nth_error_app1 by lia.
    rewrite nth_error_map.
    assert (Hk : (Z.to_nat (i - 1) < Z.to_nat (count - 1))%nat) by lia.
    rewrite (range_nth 1 count Hk).
    replace (1 + Z.of_nat (Z.to_nat (i - 1))) with i by lia.
    reflexivity.
Qed.
End RouteFacts.

(* ================================================================== *)
(** * The methods of the fulfillment service *)

Lemma run_mutate_assignment (k : string)
    (f : DispatchAssignment.t -> DispatchAssignment.t)
    (self : DispatchFulfillmentService) (a : DispatchAssignment.t) :
  dict_get k (assignments self) = Some a ->
  mutate_assignment k f self
  = (Ok tt,
     mkFulfillmentService (discovery_service self) (active_requests self)
       (dict_set k (f a) (assignments self)) (fulfillment_history self)).
Proof. intros H. unfold mutate_assignment. rewrite H. reflexivity. Qed.

Lemma dict_set_set {V : Type} (k : string) (v v' : V) (d : dict V) :
  dict_set k v (dict_set k v' d) = dict_set k v d.
Proof.
  induction d as [| [k0 v0] d IH]; simpl.
  - rewrite String.eqb_refl. reflexivity.
  - destruct (String.eqb k k0) eqn:E; simpl.
    + rewrite String.eqb_refl. reflexivity.
    + rewrite E, IH. reflexivity.
Qed.

(** No speed of the table is zero. *)
Lemma speed_not_zero (t : ResourceType.t) (d : float) :
  Py.truediv d (_get_resource_speed t) = Ok (d / _get_resource_speed t)%float.
Proof. destruct t; reflexivity. Qed.

Lemma cancel_assignments (self : DispatchFulfillmentService)
    (assignment_id : string) (a : DispatchAssignment.t) :
  dict_get assignment_id (assignments self) = Some a ->
  assignments (snd (cancel_assignment assignment_id self))
  = dict_set assignment_id
      (DispatchAssignment.set_status DispatchStatus.CANCELLED a)
      (assignments self).
Proof.
  intros G. unfold cancel_assignment, bind, get_self. rewrite G.
  rewrite (run_mutate_assignment _ _ _ G).
  unfold discovery_update_resource_status, update_resource_status, ret.
  cbn [discovery_service active_requests assignments fulfillment_history].
  destruct (dict_get _ (resources _)); reflexivity.
Qed.

Lemma cancel_unknown (self : DispatchFulfillmentService) (assignment_id : string) :
  dict_get assignment_id (assignments self) = None ->
  cancel_assignment assignment_id self = (Ok false, self).
Proof.
  intros G. unfold cancel_assignment, bind, get_self. rewrite G. reflexivity.
Qed.

Lemma advance_unknown (self : DispatchFulfillmentService) (now : datetime)
    (assignment_id : string) :
  dict_get assignment_id (assignments self) = None ->
  update_assignment_progress now assignment_id self = (Ok None, self).
Proof.
  intros G. unfold update_assignment_progress, bind, get_self. rewrite G.
  reflexivity.
Qed.

(** ** Cancellation and polling of finished assignments *)

(** C6. For every state and assignment id: if the id is unknown,
    [cancel_assignment] returns [False] and changes nothing; if it is known,
    whatever the status of the assignment (COMPLETED and CANCELLED
    included), it returns [True], the assignment has status CANCELLED
    afterwards, its other fields as before, and the resource it
    references, if registered, has status AVAILABLE, its other fields as
    before; nothing else changes. [False] is returned exactly for an
    unknown id. *)
Theorem cancel_assignment_spec :
  forall (self : DispatchFulfillmentService) (assignment_id : string),
    (fst (cancel_assignment assignment_id self) = Ok false
     <-> dict_get assignment_id (assignments self) = None)
    /\ match dict_get assignment_id (assignments self) with
       | None => cancel_assignment assignment_id self = (Ok false, self)
       | Some a =>
           let rid := DispatchAssignment.resource_id a in
           exists self' a',
             cancel_assignment assignment_id self = (Ok true, self')
             /\ dict_get assignment_id (assignments self') = Some a'
             /\ DispatchAssignment.status a' = DispatchStatus.CANCELLED
             /\ a' = DispatchAssignment.mk
                       (DispatchAssignment.assignment_id a)
                       (DispatchAssignment.request_id a)
                       (DispatchAssignment.resource_id a)
                       DispatchStatus.CANCELLED
                       (DispatchAssignment.assigned_at a)
                       (DispatchAssignment.estimated_arrival a)
                       (DispatchAssignment.actual_arrival a)
                       (DispatchAssignment.completion_time a)
                       (DispatchAssignment.route a)
                       (DispatchAssignment.current_location a)
                       (DispatchAssignment.progress_updates a)
             /\ (forall r,
                   dict_get rid (resources (discovery_service self)) = Some r ->
                   exists r',
                     dict_get rid (resources (discovery_service self'))
                     = Some r'
                     /\ Resource.status r' = ResourceStatus.AVAILABLE
                     /\ r' = Resource.mk (Resource.resource_id r)
                               (Resource.resource_type r) (Resource.name r)
                               (Resource.location r) (Resource.capabilities r)
                               (Resource.capacity r) ResourceStatus.AVAILABLE
                               (Resource.operator r) (Resource.contact_info r)
                               (Resource.metadata r))
             /\ (dict_get rid (resources (discovery_service self)) = None ->
                 discovery_service self' = discovery_service self)
             /\ (forall k, k <> assignment_id ->
                   dict_get k (assignments self') = dict_get k (assignments self))
             /\ (forall k, k <> rid ->
                   dict_get k (resources (discovery_service self'))
                   = dict_get k (resources (discovery_service self)))
             /\ active_requests self' = active_requests self
             /\ fulfillment_history self' = fulfillment_history self
       end.
Proof.
  intros self assignment_id.
  unfold cancel_assignment, bind, get_self.
  destruct (dict_get assignment_id (assignments self)) as [a |] eqn:G;
    [| split; [split; reflexivity | reflexivity]].
  rewrite (run_mutate_assignment _ _ _ G).
  unfold discovery_update_resource_status, update_resource_status, ret.
  cbn [discovery_service active_requests assignments fulfillment_history].
  destruct (dict_get (DispatchAssignment.resource_id a)
                     (resources (discovery_service self))) as [r |] eqn:R;
    cbn.
  - split; [split; discriminate |].
    do 2 eexists. split; [reflexivity |]. cbn.
    split; [apply dict_get_set_same |].
    split; [reflexivity |]. split; [reflexivity |].
    split; [| split; [discriminate |]].
    + intros r' [= <-]. eexists. split; [apply dict_get_set_same |].
      split; reflexivity.
    + repeat split.
      * intros k Hk. rewrite dict_get_set.
        apply String.eqb_neq in Hk. rewrite Hk. reflexivity.
      * intros k Hk. rewrite dict_get_set.
        apply String.eqb_neq in Hk. rewrite Hk. reflexivity.
  - split; [split; discriminate |].
    do 2 eexists. split; [reflexivity |]. cbn.
    split; [apply dict_get_set_same |].
    split; [reflexivity |]. split; [reflexivity |].
    split; [intros r' [=] |]. split; [destruct (discovery_service self); reflexivity |].
    repeat split.
    intros k Hk. rewrite dict_get_set.
    apply String.eqb_neq in Hk. rewrite Hk. reflexivity.
Qed.

Lemma advance_terminal_once (self : DispatchFulfillmentService) (now : datetime)
    (assignment_id : string) (a : DispatchAssignment.t) :
  dict_get assignment_id (assignments self) = Some a ->
  DispatchAssignment.status a = DispatchStatus.COMPLETED
  \/ DispatchAssignment.status a = DispatchStatus.CANCELLED ->
  update_assignment_progress now assignment_id self
  = (match dict_get (DispatchAssignment.resource_id a)
                    (resources (discovery_service self)) with
     | Some _ => Ok (Some a)
     | None => Raise KeyError
     end, self).
Proof.
  intros G T. unfold update_assignment_progress, bind, get_self.
  rewrite G. unfold lift, dict_getitem.
  destruct (dict_get (DispatchAssignment.resource_id a) _) as [r |];
    [| reflexivity].
  destruct T as [-> | ->]; unfold ret; rewrite G; reflexivity.
Qed.

(** C8. For every assignment whose status is COMPLETED or CANCELLED, any
    number of calls of [update_assignment_progress], at any instants, leave
    the whole state of the service as it was (the assignment with its
    status, completion time and progress log, every resource, the
    fulfillment history), and each call returns the assignment, its
    resource being registered. *)
Theorem advance_terminal_is_noop :
  forall (self : DispatchFulfillmentService) (assignment_id : string)
         (a : DispatchAssignment.t),
    dict_get assignment_id (assignments self) = Some a ->
    DispatchAssignment.status a = DispatchStatus.COMPLETED
    \/ DispatchAssignment.status a = DispatchStatus.CANCELLED ->
    forall nows : list datetime,
      snd (poll nows assignment_id self) = self
      /\ (forall r,
            dict_get (DispatchAssignment.resource_id a)
                     (resources (discovery_service self)) = Some r ->
            fst (poll nows assignment_id self)
            = map (fun _ => Ok (Some a)) nows).
Proof.
  intros self assignment_id a G T nows.
  induction nows as [| now rest [IH1 IH2]]; simpl; [auto |].
  rewrite (advance_terminal_once self now assignment_id G T).
  destruct (poll rest assignment_id self) as [rs self2]. simpl in *.
  split; [exact IH1 |].
  intros r R. rewrite R, (IH2 r R). reflexivity.
Qed.

(** ** Assignment *)

Section AssignFacts.
Variable distance_to : Location -> Location -> Res float.

Lemma discovered_available (ds : BeckNDiscoveryService)
    (request : DispatchRequest.t) (max_distance_km : float)
    (found : list Resource.t) (r : Resource.t) :
  discover_resources distance_to ds request max_distance_km = Ok found ->
  In r found -> Resource.status r = ResourceStatus.AVAILABLE.
Proof.
  intros H Hin. rewrite discover_resources_eq in H.
  destruct (discover_loop _ _ _ _) as [c | e] eqn:L; simpl in H;
    [| discriminate].
  injection H as <-. apply discover_loop_ok in L. subst c.
  apply list_sort_In, filter_In in Hin. destruct Hin as [_ Hin].
  unfold passes_filters in Hin. rewrite !andb_true_iff in Hin.
  apply status_eqb_eq. tauto.
Qed.

(** In a registry that is keyed, a discovered resource is the one stored
    under its id. *)
Lemma discovered_registered (ds : BeckNDiscoveryService)
    (request : DispatchRequest.t) (max_distance_km : float)
    (found : list Resource.t) (r : Resource.t) :
  keyed (resources ds) ->
  discover_resources distance_to ds request max_distance_km = Ok found ->
  In r found -> dict_get (Resource.resource_id r) (resources ds) = Some r.
Proof.
  intros K H Hin. rewrite discover_resources_eq in H.
  destruct (discover_loop _ _ _ _) as [c | e] eqn:L; simpl in H;
    [| discriminate].
  injection H as <-. apply discover_loop_ok in L. subst c.
  apply list_sort_In, filter_In in Hin. destruct Hin as [Hin _].
  apply keyed_get; assumption.
Qed.

(** [assign_resource], case by case. *)
Lemma assign_resource_eq (self : DispatchFulfillmentService) (uuid : string)
    (now1 now2 : datetime) (request_id : string) (resource_id : option string) :
  assign_resource distance_to uuid now1 now2 request_id resource_id self
  = match dict_get request_id (active_requests self) with
    | None => (Ok None, self)
    | Some request =>
        match (if Py.truthy resource_id then Ok resource_id
               else match discover_resources distance_to
                            (discovery_service self) request 50 with
                    | Ok [] => Ok None
                    | Ok (first :: _) => Ok (Some (Resource.resource_id first))
                    | Raise e => Raise e
                    end) with
        | Raise e => (Raise e, self)
        | Ok None => (Ok None, self)
        | Ok (Some rid) =>
            match dict_get rid (resources (discovery_service self)) with
            | None => (Ok None, self)
            | Some resource =>
                if ResourceStatus.eqb (Resource.status resource)
                                      ResourceStatus.AVAILABLE
                then
                  match distance_to (Resource.location resource)
                                    (DispatchRequest.location request) with
                  | Raise e => (Raise e, self)
                  | Ok distance =>
                      match Timedelta.of_seconds
                              (distance
                               / _get_resource_speed
                                   (Resource.resource_type resource))%float
                      with
                      | Raise e => (Raise e, self)
                      | Ok travel =>
                          match _generate_route distance_to
                                  (Resource.location resource)
                                  (DispatchRequest.location request) with
                          | Raise e => (Raise e, self)
                          | Ok route =>
                              let a :=
                                DispatchAssignment.mk uuid request_id rid
                                  DispatchStatus.ASSIGNED now1
                                  (Some (now2 + travel)) None None route
                                  (Some (Resource.location resource)) [] in
                              (Ok (Some a),
                               mkFulfillmentService
                                 (mkDiscovery
                                    (dict_set rid
                                       (Resource.set_status
                                          ResourceStatus.DISPATCHED resource)
                                       (resources (discovery_service self))))
                                 (active_requests self)
                                 (dict_set uuid a (assignments self))
                                 (fulfillment_history self))
                          end
                      end
                  end
                else (Ok None, self)
            end
        end
    end.
Proof.
  unfold assign_resource, bind, get_self, lift, ret.
  destruct (dict_get request_id _) as [request |]; [| reflexivity].
  assert (Speed := speed_not_zero).
  destruct (Py.truthy resource_id); cbn [negb];
    [destruct resource_id as [rid |]; [| reflexivity]
    | destruct (discover_resources _ _ _ _) as [[| first rest] | e];
      [reflexivity | | reflexivity]].
  all: destruct (dict_get _ (resources _)) as [resource |] eqn:Hres;
    [| reflexivity].
  all: destruct (ResourceStatus.eqb _ _); cbn [negb]; [| reflexivity].
  all: destruct (distance_to _ _) as [distance | e]; [| reflexivity].
  all: rewrite Speed.
  all: destruct (Timedelta.of_seconds _) as [travel | e]; [| reflexivity].
  all: destruct (_generate_route _ _ _) as [route | e]; [| reflexivity].
  all: unfold discovery_update_resource_status, update_resource_status,
         store_assignment.
  all: cbn [discovery_service active_requests assignments
            fulfillment_history].
  all: rewrite Hres; reflexivity.
Qed.


(** A call that returned [None] and changed nothing, in one of the cases
    of the specification. *)
Ltac failed_assignment :=
  split; [intros; reflexivity |];
  split; [intros _; split; [intros _; eexists; reflexivity
                           | intros _; reflexivity] |];
  split; [intros _; reflexivity |];
  split; [intros _; reflexivity |];
  split; [intros; repeat split; intros; reflexivity
         | intros _; left; eexists; reflexivity].

(** C7, as the code has it. [assign_resource] has one way of failing, which
    is to return [None]. It does so, and changes nothing, in each of the
    four cases of the specification: the request id is unknown; no resource
    id is given (or an empty one) and discovery at the default radius of
    50 km returns nothing; the resource id given is not registered; the
    resource registered under it is not AVAILABLE. On a registry keyed by
    resource id it returns [None] in no other case; on any registry the one
    other case is that of a discovered resource under whose id the registry
    holds no resource or one that is not AVAILABLE. Whenever it does not
    return an assignment, the state is unchanged: no assignment is created
    and no resource changes status. *)
Theorem assign_resource_failures :
  forall (self : DispatchFulfillmentService) (uuid : string)
         (now1 now2 : datetime) (request_id : string)
         (resource_id : option string),
    let result :=
      assign_resource distance_to uuid now1 now2 request_id resource_id self in
    let registry := resources (discovery_service self) in
    let discovered (request : DispatchRequest.t) :=
      discover_resources distance_to (discovery_service self) request 50 in
    (forall failure,
       spec_failure distance_to self request_id resource_id = Some failure ->
       result = (Ok None, self))
    /\ (keyed registry ->
        (fst result = Ok None
         <-> exists failure,
               spec_failure distance_to self request_id resource_id
               = Some failure))
    /\ ((forall a, fst result <> Ok (Some a)) -> snd result = self)
    /\ (dict_get request_id (active_requests self) = None ->
        result = (Ok None, self))
    /\ (forall request,
          dict_get request_id (active_requests self) = Some request ->
          (Py.truthy resource_id = false -> discovered request = Ok [] ->
           result = (Ok None, self))
          /\ (forall rid,
                Py.truthy resource_id = true -> resource_id = Some rid ->
                (dict_get rid registry = None -> result = (Ok None, self))
                /\ (forall r,
                      dict_get rid registry = Some r ->
                      Resource.status r <> ResourceStatus.AVAILABLE ->
                      result = (Ok None, self))))
    /\ (fst result = Ok None ->
        (exists failure,
           spec_failure distance_to self request_id resource_id = Some failure)
        \/ exists request first rest,
             dict_get request_id (active_requests self) = Some request
             /\ Py.truthy resource_id = false
             /\ discovered request = Ok (first :: rest)
             /\ (dict_get (Resource.resource_id first) registry = None
                 \/ exists r,
                      dict_get (Resource.resource_id first) registry = Some r
                      /\ Resource.status r <> ResourceStatus.AVAILABLE)).
Proof.
  intros self uuid now1 now2 request_id resource_id result registry discovered.
  assert (Hst : forall r : Resource.t,
             ResourceStatus.eqb (Resource.status r) ResourceStatus.AVAILABLE = false
             <-> Resource.status r <> ResourceStatus.AVAILABLE).
  { intros r. rewrite <- status_eqb_eq.
    destruct (ResourceStatus.eqb _ _); split; congruence. }
  assert (E := assign_resource_eq self uuid now1 now2 request_id resource_id).
  fold result in E. clearbody result.
  subst registry discovered. unfold spec_failure. revert E.
  destruct (dict_get request_id (active_requests self)) as [request |] eqn:Q;
    [| intros ->; failed_assignment].
  destruct (Py.truthy resource_id) eqn:T.
  - destruct resource_id as [rid |]; [| discriminate T].
    destruct (dict_get rid (resources (discovery_service self))) as [r |] eqn:R;
      [| intros ->; failed_assignment].
    destruct (ResourceStatus.eqb (Resource.status r) ResourceStatus.AVAILABLE)
      eqn:A; [| intros ->; failed_assignment].
    intros E.
    assert (N : fst result <> Ok None /\
                ((forall a, fst result <> Ok (Some a)) -> snd result = self)).
    { rewrite E. clear E.
      destruct (distance_to _ _) as [distance | e];
        [| split; [discriminate | reflexivity]].
      destruct (Timedelta.of_seconds _) as [travel | e];
        [| split; [discriminate | reflexivity]].
      destruct (_generate_route _ _ _) as [route | e];
        [| split; [discriminate | reflexivity]].
      split; [discriminate |]. intros H. exfalso. eapply H. reflexivity. }
    destruct N as [N U].
    split; [discriminate |].
    split; [intros _; split; [intros H; contradiction | intros (f & H);
                                                        discriminate] |].
    split; [exact U |].
    split; [discriminate |].
    split; [| intros H; contradiction].
    intros request' _. split; [discriminate |].
    intros rid' _ [= <-]. rewrite R. split; [discriminate |].
    intros r' [= <-] S. apply Hst in S. congruence.
  - destruct (discover_resources distance_to (discovery_service self) request 50)
      as [[| first rest] | e] eqn:D.
    + intros ->. failed_assignment.
    + match goal with
      | |- _ -> ?Goal =>
          assert (Unkeyed :
            dict_get (Resource.resource_id first)
                     (resources (discovery_service self)) = None
            \/ (exists r,
                  dict_get (Resource.resource_id first)
                           (resources (discovery_service self)) = Some r
                  /\ Resource.status r <> ResourceStatus.AVAILABLE) ->
            result = (Ok None, self) -> Goal)
      end.
      { intros G ->.
        split; [discriminate |].
        split.
        { intros K. exfalso.
          assert (Hin : In first (first :: rest)) by (left; reflexivity).
          assert (G' := @discovered_registered _ _ _ _ _ K D Hin).
          assert (A' := @discovered_available _ _ _ _ _ D Hin).
          destruct G as [G | (r & G & S)]; rewrite G' in G; [discriminate |].
          injection G as <-. contradiction. }
        split; [reflexivity |]. split; [reflexivity |].
        split; [intros; repeat split; intros; reflexivity |].
        intros _. right. exists request, first, rest. auto. }
      destruct (dict_get (Resource.resource_id first)
                         (resources (discovery_service self))) as [r |] eqn:R;
        [| apply Unkeyed; left; reflexivity].
      destruct (ResourceStatus.eqb (Resource.status r) ResourceStatus.AVAILABLE)
        eqn:A;
        [| apply Unkeyed; right; exists r; split;
           [reflexivity | apply Hst; exact A]].
      clear Unkeyed. intros E.
      assert (N : fst result <> Ok None /\
                  ((forall a, fst result <> Ok (Some a)) -> snd result = self)).
      { rewrite E. clear E.
        destruct (distance_to _ _) as [distance | e];
          [| split; [discriminate | reflexivity]].
        destruct (Timedelta.of_seconds _) as [travel | e];
          [| split; [discriminate | reflexivity]].
        destruct (_generate_route _ _ _) as [route | e];
          [| split; [discriminate | reflexivity]].
        split; [discriminate |]. intros H. exfalso. eapply H. reflexivity. }
      destruct N as [N U].
      split; [discriminate |].
      split; [intros _; split; [intros H; contradiction | intros (f & H);
                                                          discriminate] |].
      split; [exact U |].
      split; [discriminate |].
      split; [| intros H; contradiction].
      intros request' [= <-].
      split; [intros _ H; rewrite D in H; discriminate H |]. intros rid' [=].
    + intros ->.
      split; [discriminate |].
      split; [intros _; split; [discriminate | intros (f & H); discriminate] |].
      split; [reflexivity |].
      split; [discriminate |].
      split; [| discriminate].
      intros request' [= <-].
      split; [intros _ H; rewrite D in H; discriminate H |]. intros rid' [=].
Qed.
End AssignFacts.

(* ================================================================== *)
(** * The lifecycle *)

Lemma preserves_ret {A : Type} (I : DispatchFulfillmentService -> Prop) (a : A) :
  preserves I (ret a).
Proof. intros self H. exact H. Qed.

Lemma preserves_lift {A : Type} (I : DispatchFulfillmentService -> Prop)
    (r : Res A) : preserves I (lift r).
Proof. intros self H. exact H. Qed.

Lemma preserves_get_self (I : DispatchFulfillmentService -> Prop) :
  preserves I get_self.
Proof. intros self H. exact H. Qed.

Lemma preserves_bind {A B : Type} (I : DispatchFulfillmentService -> Prop)
    (m : M A) (f : A -> M B) :
  preserves I m -> (forall a, preserves I (f a)) -> preserves I (bind m f).
Proof.
  intros Hm Hf self H. unfold bind. specialize (Hm self H).
  destruct (m self) as [[a | e] self1]; simpl in *.
  - apply Hf. exact Hm.
  - exact Hm.
Qed.

Section AssignmentInvariants.
Variable J : dict DispatchAssignment.t -> Prop.

Lemma preserves_discovery_update (rid : string) (st : ResourceStatus.t)
    (l : option Location) :
  preserves (fun self => J (assignments self))
            (discovery_update_resource_status rid st l).
Proof.
  intros self H. unfold discovery_update_resource_status, update_resource_status.
  destruct (dict_get rid _); exact H.
Qed.

Lemma preserves_append_history (h : Fulfillment) :
  preserves (fun self => J (assignments self)) (append_history h).
Proof. intros self H. exact H. Qed.

Lemma preserves_mutate (k : string)
    (f : DispatchAssignment.t -> DispatchAssignment.t) :
  (forall d a, J d -> dict_get k d = Some a -> J (dict_set k (f a) d)) ->
  preserves (fun self => J (assignments self)) (mutate_assignment k f).
Proof.
  intros Hf self H. unfold mutate_assignment.
  destruct (dict_get k (assignments self)) as [a |] eqn:G; [| exact H].
  cbn [snd assignments]. apply Hf; assumption.
Qed.

Lemma preserves_store (k : string) (a : DispatchAssignment.t) :
  (forall d, J d -> J (dict_set k a d)) ->
  preserves (fun self => J (assignments self)) (store_assignment k a).
Proof. intros Hf self H. cbn. apply Hf. exact H. Qed.
End AssignmentInvariants.

Lemma status_within_set (d0 : dict DispatchAssignment.t) (assignment_id : string)
    (s0 target : DispatchStatus.t)
    (f : DispatchAssignment.t -> DispatchAssignment.t) :
  (forall a, DispatchAssignment.status (f a) = DispatchAssignment.status a
             \/ DispatchAssignment.status (f a) = target) ->
  forall d a,
    status_within d0 assignment_id s0 target d ->
    dict_get assignment_id d = Some a ->
    status_within d0 assignment_id s0 target (dict_set assignment_id (f a) d).
Proof.
  intros Hf d a [H1 (a1 & G1 & H2)] G. split.
  - intros k Hk. rewrite dict_get_set.
    apply String.eqb_neq in Hk. rewrite Hk. apply H1.
    apply String.eqb_neq. exact Hk.
  - exists (f a). split; [apply dict_get_set_same |].
    assert (a1 = a) by congruence. subst a1.
    destruct (Hf a) as [E | E]; [rewrite E; exact H2 | right; exact E].
Qed.

Ltac preserve :=
  repeat first
    [ apply preserves_ret
    | apply preserves_lift
    | apply preserves_get_self
    | apply preserves_discovery_update
    | apply preserves_append_history
    | apply preserves_mutate; apply status_within_set; intros ?; simpl; auto
    | apply preserves_bind; [| intros ?]
    | match goal with
      | |- preserves _ (if ?c then _ else _) => destruct c
      | |- preserves _ (match ?x with _ => _ end) => destruct x
      end ].

Lemma advance_within (now : datetime) (assignment_id : string)
    (a : DispatchAssignment.t) (self : DispatchFulfillmentService) :
  dict_get assignment_id (assignments self) = Some a ->
  status_within (assignments self) assignment_id (DispatchAssignment.status a)
    (next_status (DispatchAssignment.status a))
    (assignments (snd (update_assignment_progress now assignment_id self))).
Proof.
  intros G.
  set (I := fun s : DispatchFulfillmentService =>
              status_within (assignments self) assignment_id
                (DispatchAssignment.status a)
                (next_status (DispatchAssignment.status a)) (assignments s)).
  assert (I0 : I self) by (split; [reflexivity | exists a; auto]).
  unfold update_assignment_progress.
  unfold bind at 1. unfold get_self at 1. rewrite G.
  refine (@preserves_bind _ _ I _ _ _ _ self I0);
    [apply preserves_lift | intros resource].
  subst I. clear G I0.
  apply preserves_bind; [| intros _; preserve].
  destruct (DispatchAssignment.status a); simpl next_status;
    try apply preserves_ret.
  - unfold start_dispatch. preserve.
  - unfold move_along_route. preserve.
  - unfold complete_after_dwell. preserve.
Qed.

Section RunFacts.
Variable distance_to : Location -> Location -> Res float.

Lemma assign_assignments (self : DispatchFulfillmentService) (uuid : string)
    (now1 now2 : datetime) (request_id : string) (resource_id : option string) :
  assigned_under (assignments self) uuid
    (assignments
       (snd (assign_resource distance_to uuid now1 now2 request_id resource_id
                             self))).
Proof.
  set (I := fun s : DispatchFulfillmentService =>
              assigned_under (assignments self) uuid (assignments s)).
  assert (I0 : I self) by (left; reflexivity).
  enough (H : preserves I (assign_resource distance_to uuid now1 now2
                                            request_id resource_id))
    by exact (H self I0).
  clear I0. subst I. unfold assign_resource.
  repeat first
    [ apply preserves_ret
    | apply preserves_lift
    | apply preserves_get_self
    | apply preserves_discovery_update
    | apply preserves_bind; [| intros ?]
    | match goal with
      | |- preserves _ (if ?c then _ else _) => destruct c
      | |- preserves _ (match ?x with _ => _ end) => destruct x
      end ].
  apply preserves_store. intros d [-> | (prev & _ & ->)]; right; eexists;
    (split; [| try reflexivity; apply dict_set_set]); reflexivity.
Qed.

Lemma operation_step (op : Operation) (self : DispatchFulfillmentService)
    (k : string) (a : DispatchAssignment.t) :
  fresh op self ->
  dict_get k (assignments self) = Some a ->
  exists a',
    dict_get k (assignments (run_operation distance_to op self)) = Some a'
    /\ step_status op k (DispatchAssignment.status a) (DispatchAssignment.status a').
Proof.
  intros F G. destruct op as [uuid now1 now2 request_id resource_id
                              | now assignment_id | assignment_id];
    simpl in *.
  - destruct (assign_assignments self uuid now1 now2 request_id resource_id)
      as [E | (a0 & _ & E)]; rewrite E.
    + exists a. auto.
    + exists a. split; [| reflexivity].
      rewrite dict_get_set.
      destruct (String.eqb k uuid) eqn:Ek; [| exact G].
      apply String.eqb_eq in Ek. subst. congruence.
  - destruct (dict_get assignment_id (assignments self)) as [a0 |] eqn:G0.
    + destruct (advance_within now assignment_id self G0) as [H1 (a' & G' & H2)].
      destruct (String.eqb k assignment_id) eqn:Ek.
      * apply String.eqb_eq in Ek. subst k.
        assert (a0 = a) by congruence. subst a0.
        exists a'. split; [exact G' | exact H2].
      * exists a. split; [| reflexivity].
        rewrite H1; [exact G |]. apply String.eqb_neq. exact Ek.
    + rewrite advance_unknown by exact G0. exists a. split; [exact G |].
      destruct (String.eqb k assignment_id) eqn:Ek; [| reflexivity].
      apply String.eqb_eq in Ek. subst. congruence.
  - destruct (dict_get assignment_id (assignments self)) as [a0 |] eqn:G0.
    + rewrite (cancel_assignments _ _ G0), dict_get_set.
      destruct (String.eqb k assignment_id) eqn:Ek.
      * eexists. split; reflexivity.
      * exists a. auto.
    + rewrite cancel_unknown by exact G0. exists a. split; [exact G |].
      destruct (String.eqb k assignment_id) eqn:Ek; [| reflexivity].
      apply String.eqb_eq in Ek. subst. congruence.
Qed.

Lemma forward_trans (s1 s2 s3 : DispatchStatus.t) :
  forward s1 s2 -> forward s2 s3 -> forward s1 s3.
Proof.
  unfold forward.
  intros [-> | [-> | (i & j & Hi & Hj & L)]] [-> | [-> | (i' & j' & Hi' & Hj' & L')]];
    auto.
  - right. right. exists i', j'. auto.
  - simpl in Hi'. discriminate.
  - right. right. exists i, j. auto.
  - right. right. exists i, j'. repeat split; auto.
    rewrite Hj in Hi'. injection Hi' as <-. lia.
Qed.

Lemma step_status_forward (op : Operation) (k : string) (s s' : DispatchStatus.t) :
  step_status op k s s' -> forward s s'.
Proof.
  assert (N : forall s, forward s (next_status s)).
  { intros []; simpl; try (left; reflexivity);
      right; right; do 2 eexists; repeat split; lia. }
  destruct op; simpl; try destruct (String.eqb _ _);
    intros H; try (left; exact H).
  - destruct H as [-> | ->]; [left; reflexivity | apply N].
  - right. left. exact H.
Qed.

Lemma step_status_completed (op : Operation) (k : string) (s' : DispatchStatus.t) :
  step_status op k DispatchStatus.COMPLETED s' ->
  op <> Cancel k -> s' = DispatchStatus.COMPLETED.
Proof.
  destruct op as [| now aid | aid]; simpl; auto.
  - destruct (String.eqb _ _); intros [-> | ->] _ || intros -> _; reflexivity.
  - destruct (String.eqb k aid) eqn:E; [| auto].
    apply String.eqb_eq in E. subst. intros _ H. congruence.
Qed.

(** C5, as the code has it. Across every sequence of [assign_resource],
    [update_assignment_progress] and [cancel_assignment] calls, whether they
    return or raise, an assignment stays in the service and its status
    only moves forward: it stays, or moves to a later status on the path
    ASSIGNED, DISPATCHED, IN_PROGRESS, COMPLETED, or becomes CANCELLED.
    A CANCELLED status never changes again. A COMPLETED status changes
    only to CANCELLED, and only by a cancellation of this assignment:
    without one it stays COMPLETED. *)
Theorem lifecycle_moves_forward :
  forall (self self' : DispatchFulfillmentService) (ops : list Operation),
    run distance_to self ops self' ->
    forall (k : string) (a : DispatchAssignment.t),
      dict_get k (assignments self) = Some a ->
      exists a',
        dict_get k (assignments self') = Some a'
        /\ forward (DispatchAssignment.status a) (DispatchAssignment.status a')
        /\ (DispatchAssignment.status a = DispatchStatus.CANCELLED ->
            DispatchAssignment.status a' = DispatchStatus.CANCELLED)
        /\ (DispatchAssignment.status a = DispatchStatus.COMPLETED ->
            DispatchAssignment.status a' = DispatchStatus.COMPLETED
            \/ DispatchAssignment.status a' = DispatchStatus.CANCELLED)
        /\ (DispatchAssignment.status a = DispatchStatus.COMPLETED ->
            ~ In (Cancel k) ops ->
            DispatchAssignment.status a' = DispatchStatus.COMPLETED).
Proof.
  intros self self' ops R k a G.
  assert (H : exists a',
             dict_get k (assignments self') = Some a'
             /\ forward (DispatchAssignment.status a) (DispatchAssignment.status a')
             /\ (DispatchAssignment.status a = DispatchStatus.COMPLETED ->
                 ~ In (Cancel k) ops ->
                 DispatchAssignment.status a' = DispatchStatus.COMPLETED)).
  { revert a G. induction R as [self | self self' op ops F R IH]; intros a G.
    - exists a. repeat split; auto. left. reflexivity.
    - destruct (@operation_step op self k a F G) as (a1 & G1 & S1).
      destruct (IH a1 G1) as (a' & G' & F' & C').
      exists a'. split; [exact G' |]. split.
      + eapply forward_trans; [eapply step_status_forward; exact S1 | exact F'].
      + intros Hc Hn. simpl in Hn.
        rewrite Hc in S1. apply step_status_completed in S1; [| intuition].
        apply C'; [exact S1 | intuition]. }
  destruct H as (a' & G' & F' & C'). exists a'.
  split; [exact G' |]. split; [exact F' |]. split; [| split; [| exact C']].
  - intros Hc. rewrite Hc in F'.
    destruct F' as [E | [E | (i & j & Hi & _)]]; auto. discriminate.
  - intros Hc. rewrite Hc in F'.
    destruct F' as [E | [E | (i & j & Hi & Hj & L)]]; auto.
    injection Hi as <-.
    destruct (DispatchAssignment.status a'); simpl in Hj; try discriminate;
      injection Hj as <-; lia.
Qed.
End RunFacts.

(* ================================================================== *)
(** * The registry, the polls and sequences of calls *)

(** ** The registry *)

Lemma dict_get_None_keys {V : Type} (k : string) (d : dict V) :
  dict_get k d = None <-> ~ In k (map fst d).
Proof.
  induction d as [| [k' v'] d IH]; simpl; [tauto |].
  destruct (String.eqb k k') eqn:E.
  - apply String.eqb_eq in E. subst. split; [discriminate | tauto].
  - apply String.eqb_neq in E. rewrite IH. split; [intros H [H1 | H1]; auto | tauto].
Qed.

Lemma dict_set_keys {V : Type} (k : string) (v : V) (d : dict V) :
  map fst (dict_set k v d)
  = if dict_mem k d then map fst d else (map fst d ++ [k])%list.
Proof.
  unfold dict_mem. induction d as [| [k' v'] d IH]; simpl; [reflexivity |].
  destruct (String.eqb k k') eqn:E; simpl.
  - apply String.eqb_eq in E. subst. reflexivity.
  - rewrite IH. destruct (dict_get k d); reflexivity.
Qed.

Lemma dict_set_In {V : Type} (k : string) (v : V) (d : dict V) (k' : string)
    (v' : V) :
  In (k', v') (dict_set k v d) -> (k' = k /\ v' = v) \/ In (k', v') d.
Proof.
  induction d as [| [k0 v0] d IH]; simpl.
  - intros [[= <- <-] | []]. auto.
  - destruct (String.eqb k k0) eqn:E; simpl.
    + intros [[= <- <-] | H]; auto.
    + intros [H | H]; auto. destruct (IH H); auto.
Qed.

Lemma dict_set_same {V : Type} (k : string) (v : V) (d : dict V) :
  dict_get k d = Some v -> dict_set k v d = d.
Proof.
  induction d as [| [k0 v0] d IH]; simpl; [discriminate |].
  destruct (String.eqb k k0) eqn:E.
  - apply String.eqb_eq in E. subst. intros [= ->]. reflexivity.
  - intros H. rewrite (IH H). reflexivity.
Qed.

Lemma keyed_set (d : dict Resource.t) (r : Resource.t) :
  keyed d -> keyed (dict_set (Resource.resource_id r) r d).
Proof.
  intros [N K]. split.
  - rewrite dict_set_keys. unfold dict_mem.
    destruct (dict_get _ d) eqn:G; [exact N |].
    apply dict_get_None_keys in G.
    apply NoDup_rev in N. rewrite <- (rev_involutive (_ ++ _)).
    apply NoDup_rev. rewrite rev_app_distr. simpl. constructor; [| exact N].
    rewrite <- in_rev. exact G.
  - intros k' r' H. apply dict_set_In in H. destruct H as [[-> ->] | H]; auto.
Qed.

Lemma keyed_lookup (d : dict Resource.t) (k : string) (r : Resource.t) :
  keyed d -> dict_get k d = Some r -> Resource.resource_id r = k.
Proof. intros [_ K] G. apply K. apply dict_get_In. exact G. Qed.

Lemma keyed_update (self : BeckNDiscoveryService) (resource_id : string)
    (status : ResourceStatus.t) (location : option Location) :
  keyed (resources self) ->
  keyed (resources (snd (update_resource_status self resource_id status location))).
Proof.
  intros K. unfold update_resource_status.
  destruct (dict_get resource_id (resources self)) as [r |] eqn:G; [| exact K].
  cbn [snd resources].
  pose proof (keyed_lookup _ K G) as E.
  set (r2 := match location with Some l => _ | None => _ end).
  assert (E2 : Resource.resource_id r2 = resource_id)
    by (subst r2; destruct location; exact E).
  rewrite <- E2 at 1. apply keyed_set. exact K.
Qed.

(** X1. [register_resource] always returns [True] and stores the resource
    under its own id: a lookup of that id gives the resource back, every
    other entry is as before, a known id keeps its place in the registry
    (the old resource is replaced) and a new id goes last, and a keyed
    registry stays keyed. *)
Theorem register_resource_spec :
  forall (self : BeckNDiscoveryService) (resource : Resource.t),
    let id := Resource.resource_id resource in
    let self' := snd (register_resource self resource) in
    fst (register_resource self resource) = true
    /\ dict_get id (resources self') = Some resource
    /\ (forall k, k <> id ->
                  dict_get k (resources self') = dict_get k (resources self))
    /\ map fst (resources self')
       = (if dict_mem id (resources self) then map fst (resources self)
          else map fst (resources self) ++ [id])%list
    /\ (keyed (resources self) -> keyed (resources self')).
Proof.
  intros self resource id self'. subst id self'. cbn [fst snd register_resource resources].
  split; [reflexivity |]. split; [apply dict_get_set_same |].
  split; [| split; [apply dict_set_keys | apply keyed_set]].
  intros k Hk. rewrite dict_get_set. apply String.eqb_neq in Hk. rewrite Hk.
  reflexivity.
Qed.

(** X2. [update_resource_status] on an id that is not registered returns
    [False] and changes nothing. On a registered id it returns [True];
    the resource gets the status, and the location when one is given, and
    keeps every other field; every other entry is as before, the order of
    the registry is unchanged, and a keyed registry stays keyed. *)
Theorem update_resource_status_spec :
  forall (self : BeckNDiscoveryService) (resource_id : string)
         (status : ResourceStatus.t) (location : option Location),
    let result := update_resource_status self resource_id status location in
    match dict_get resource_id (resources self) with
    | None => result = (false, self)
    | Some r =>
        fst result = true
        /\ dict_get resource_id (resources (snd result))
           = Some (Resource.mk (Resource.resource_id r) (Resource.resource_type r)
                     (Resource.name r)
                     (match location with
                      | Some l => l
                      | None => Resource.location r
                      end)
                     (Resource.capabilities r) (Resource.capacity r) status
                     (Resource.operator r) (Resource.contact_info r)
                     (Resource.metadata r))
        /\ (forall k, k <> resource_id ->
                      dict_get k (resources (snd result))
                      = dict_get k (resources self))
        /\ map fst (resources (snd result)) = map fst (resources self)
        /\ (keyed (resources self) -> keyed (resources (snd result)))
    end.
Proof.
  intros self resource_id status location result.
  pose proof (@keyed_update self resource_id status location) as K.
  subst result. revert K. unfold update_resource_status.
  destruct (dict_get resource_id (resources self)) as [r |] eqn:G;
    [| reflexivity].
  cbn [fst snd resources]. intros K.
  split; [reflexivity |].
  split; [rewrite dict_get_set_same; destruct location; reflexivity |].
  split; [| split; [| exact K]].
  - intros k Hk. rewrite dict_get_set. apply String.eqb_neq in Hk. rewrite Hk.
    reflexivity.
  - rewrite dict_set_keys. unfold dict_mem. rewrite G. reflexivity.
Qed.

(** ** What every call keeps *)

Lemma extends_refl {A : Type} (l : list A) : extends l l.
Proof. exists []. symmetry. apply app_nil_r. Qed.

Lemma extends_trans {A : Type} (l1 l2 l3 : list A) :
  extends l1 l2 -> extends l2 l3 -> extends l1 l3.
Proof.
  intros [t1 ->] [t2 ->]. exists (t1 ++ t2)%list. symmetry. apply app_assoc.
Qed.

Lemma same_plan_refl (a : DispatchAssignment.t) : same_plan a a.
Proof. unfold same_plan. repeat split. apply extends_refl. Qed.

Lemma same_plan_trans (a1 a2 a3 : DispatchAssignment.t) :
  same_plan a1 a2 -> same_plan a2 a3 -> same_plan a1 a3.
Proof.
  unfold same_plan.
  intros (A1 & A2 & A3 & A4 & A5 & A6 & A7) (B1 & B2 & B3 & B4 & B5 & B6 & B7).
  repeat split; try congruence. eapply extends_trans; eassumption.
Qed.

Lemma evolves_refl (self : DispatchFulfillmentService) : evolves self self.
Proof.
  unfold evolves. repeat split; eauto using extends_refl.
  intros k a G. exists a. split; [exact G | apply same_plan_refl].
Qed.

Lemma evolves_trans (s1 s2 s3 : DispatchFulfillmentService) :
  evolves s1 s2 -> evolves s2 s3 -> evolves s1 s3.
Proof.
  intros (A1 & A2 & A3 & A4) (B1 & B2 & B3 & B4). unfold evolves.
  split; [auto |]. split; [| split].
  - intros k r G. destruct (A2 k r G) as (r' & G'). eauto.
  - intros k a G. destruct (A3 k a G) as (a' & G' & P).
    destruct (B3 k a' G') as (a'' & G'' & P'). exists a''.
    split; [exact G'' | eapply same_plan_trans; eassumption].
  - eapply extends_trans; eassumption.
Qed.

Section Steps.
Variable R : DispatchFulfillmentService -> DispatchFulfillmentService -> Prop.
Hypothesis R_refl : forall s, R s s.
Hypothesis R_trans : forall s1 s2 s3, R s1 s2 -> R s2 s3 -> R s1 s3.

Lemma steps_ret {A : Type} (a : A) : steps R (ret a).
Proof. intros self. apply R_refl. Qed.

Lemma steps_lift {A : Type} (r : Res A) : steps R (lift r).
Proof. intros self. apply R_refl. Qed.

Lemma steps_get_self : steps R get_self.
Proof. intros self. apply R_refl. Qed.

Lemma steps_bind {A B : Type} (m : M A) (f : A -> M B) :
  steps R m -> (forall a, steps R (f a)) -> steps R (bind m f).
Proof.
  intros Hm Hf self. unfold bind. specialize (Hm self).
  destruct (m self) as [[a | e] self1]; simpl in *.
  - eapply R_trans; [exact Hm | apply Hf].
  - exact Hm.
Qed.
End Steps.

Lemma dict_set_other {V : Type} (k k' : string) (v : V) (d : dict V) :
  k <> k' -> dict_get k (dict_set k' v d) = dict_get k d.
Proof.
  intros H. rewrite dict_get_set. apply String.eqb_neq in H. rewrite H.
  reflexivity.
Qed.

Lemma evolves_registry (self : DispatchFulfillmentService)
    (ds : BeckNDiscoveryService) :
  (forall k r, dict_get k (resources (discovery_service self)) = Some r ->
               exists r', dict_get k (resources ds) = Some r') ->
  evolves self
    (mkFulfillmentService ds (active_requests self) (assignments self)
       (fulfillment_history self)).
Proof.
  intros H. unfold evolves. cbn. repeat split; auto using extends_refl.
  intros k a G. exists a. split; [exact G | apply same_plan_refl].
Qed.

Lemma registry_set_keeps (d : dict Resource.t) (k0 : string) (r0 : Resource.t) :
  forall k r, dict_get k d = Some r -> exists r', dict_get k (dict_set k0 r0 d) = Some r'.
Proof.
  intros k r G. rewrite dict_get_set. destruct (String.eqb k k0); eauto.
Qed.

Lemma update_status_keeps (ds : BeckNDiscoveryService) (rid : string)
    (st : ResourceStatus.t) (l : option Location) :
  forall k r, dict_get k (resources ds) = Some r ->
              exists r', dict_get k (resources (snd (update_resource_status ds rid st l)))
                         = Some r'.
Proof.
  unfold update_resource_status.
  destruct (dict_get rid (resources ds)) eqn:G; cbn [snd resources]; eauto.
  apply registry_set_keeps.
Qed.

Lemma steps_discovery_update (rid : string) (st : ResourceStatus.t)
    (l : option Location) :
  steps evolves (discovery_update_resource_status rid st l).
Proof.
  intros self. unfold discovery_update_resource_status.
  pose proof (@update_status_keeps (discovery_service self) rid st l) as H.
  destruct (update_resource_status _ _ _ _) as [b ds]. cbn [snd] in *.
  apply evolves_registry. exact H.
Qed.

Lemma steps_append_history (h : Fulfillment) : steps evolves (append_history h).
Proof.
  intros self. unfold evolves. cbn. repeat split; eauto.
  - intros k a G. exists a. split; [exact G | apply same_plan_refl].
  - exists [h]. reflexivity.
Qed.

Lemma evolves_assignment (self : DispatchFulfillmentService) (k : string)
    (a' : DispatchAssignment.t) :
  (forall a, dict_get k (assignments self) = Some a -> same_plan a a') ->
  evolves self
    (mkFulfillmentService (discovery_service self) (active_requests self)
       (dict_set k a' (assignments self)) (fulfillment_history self)).
Proof.
  intros H. unfold evolves. cbn. repeat split; eauto using extends_refl.
  intros k1 a1 G1. rewrite dict_get_set.
  destruct (String.eqb k1 k) eqn:E.
  - apply String.eqb_eq in E. subst k1. exists a'. auto.
  - exists a1. split; [exact G1 | apply same_plan_refl].
Qed.

Lemma steps_mutate (k : string)
    (f : DispatchAssignment.t -> DispatchAssignment.t) :
  (forall a, same_plan a (f a)) -> steps evolves (mutate_assignment k f).
Proof.
  intros Hf self. unfold mutate_assignment.
  destruct (dict_get k (assignments self)) as [a |] eqn:G;
    [| apply evolves_refl].
  cbn [snd]. apply evolves_assignment. intros a0 G0.
  assert (a0 = a) by congruence. subst. apply Hf.
Qed.

Ltac plan_kept :=
  intros ?; unfold same_plan; cbn; repeat split;
  first [apply extends_refl | eexists; reflexivity].

Ltac step_through :=
  repeat first
    [ apply steps_ret; exact evolves_refl
    | apply steps_lift; exact evolves_refl
    | apply steps_get_self; exact evolves_refl
    | apply steps_discovery_update
    | apply steps_append_history
    | apply steps_mutate; plan_kept
    | apply steps_bind; [exact evolves_trans | | intros ?]
    | match goal with
      | |- steps _ (if ?c then _ else _) => destruct c
      | |- steps _ (match ?x with _ => _ end) => destruct x
      end ].

Lemma advance_evolves (now : datetime) (assignment_id : string) :
  steps evolves (update_assignment_progress now assignment_id).
Proof.
  unfold update_assignment_progress, start_dispatch, move_along_route,
    complete_after_dwell.
  step_through.
Qed.

Lemma cancel_evolves (assignment_id : string) :
  steps evolves (cancel_assignment assignment_id).
Proof. unfold cancel_assignment. step_through. Qed.

Section AssignCases.
Variable distance_to : Location -> Location -> Res float.

(** [assign_resource] either leaves the state as it was and returns no
    assignment, or found the request and an available resource and stored
    the assignment. *)
Lemma assign_resource_cases (self : DispatchFulfillmentService) (uuid : string)
    (now1 now2 : datetime) (request_id : string) (resource_id : option string) :
  let result :=
    assign_resource distance_to uuid now1 now2 request_id resource_id self in
  (snd result = self /\ forall a, fst result <> Ok (Some a))
  \/ exists request rid resource distance travel route,
       dict_get request_id (active_requests self) = Some request
       /\ ((Py.truthy resource_id = true /\ resource_id = Some rid)
           \/ (Py.truthy resource_id = false
               /\ exists first rest,
                    discover_resources distance_to (discovery_service self)
                                       request 50 = Ok (first :: rest)
                    /\ rid = Resource.resource_id first))
       /\ dict_get rid (resources (discovery_service self)) = Some resource
       /\ Resource.status resource = ResourceStatus.AVAILABLE
       /\ distance_to (Resource.location resource)
                      (DispatchRequest.location request) = Ok distance
       /\ Timedelta.of_seconds
            (distance
             / _get_resource_speed (Resource.resource_type resource))%float
          = Ok travel
       /\ _generate_route distance_to (Resource.location resource)
                          (DispatchRequest.location request) = Ok route
       /\ result
          = (Ok (Some (DispatchAssignment.mk uuid request_id rid
                         DispatchStatus.ASSIGNED now1 (Some (now2 + travel))
                         None None route (Some (Resource.location resource))
                         [])),
             mkFulfillmentService
               (mkDiscovery
                  (dict_set rid
                     (Resource.set_status ResourceStatus.DISPATCHED resource)
                     (resources (discovery_service self))))
               (active_requests self)
               (dict_set uuid
                  (DispatchAssignment.mk uuid request_id rid
                     DispatchStatus.ASSIGNED now1 (Some (now2 + travel))
                     None None route (Some (Resource.location resource)) [])
                  (assignments self))
               (fulfillment_history self)).
Proof.
  intros result. subst result. rewrite assign_resource_eq.
  destruct (dict_get request_id (active_requests self)) as [request |] eqn:Hreq;
    [| left; split; [reflexivity | discriminate]].
  assert (Choice :
    forall rid,
      (if Py.truthy resource_id then Ok resource_id
       else match discover_resources distance_to (discovery_service self)
                    request 50 with
            | Ok [] => Ok None
            | Ok (first :: _) => Ok (Some (Resource.resource_id first))
            | Raise e => Raise e
            end) = Ok (Some rid) ->
      (Py.truthy resource_id = true /\ resource_id = Some rid)
      \/ (Py.truthy resource_id = false
          /\ exists first rest,
               discover_resources distance_to (discovery_service self)
                                  request 50 = Ok (first :: rest)
               /\ rid = Resource.resource_id first)).
  { intros rid. destruct (Py.truthy resource_id).
    - intros [= ->]. left. auto.
    - destruct (discover_resources _ _ _ _) as [[| first rest] | e];
        try discriminate.
      intros [= <-]. right. split; [reflexivity |]. exists first, rest. auto. }
  destruct (if Py.truthy resource_id then _ else _) as [[rid |] | e];
    [| left; split; [reflexivity | discriminate] ..].
  specialize (Choice rid eq_refl).
  destruct (dict_get rid (resources (discovery_service self)))
    as [resource |] eqn:Hres;
    [| left; split; [reflexivity | discriminate]].
  destruct (ResourceStatus.eqb (Resource.status resource)
                               ResourceStatus.AVAILABLE) eqn:Hav;
    [| left; split; [reflexivity | discriminate]].
  destruct (distance_to _ _) as [distance | e0] eqn:Hdist;
    [| left; split; [reflexivity | discriminate]].
  destruct (Timedelta.of_seconds _) as [travel | e1] eqn:Htravel;
    [| left; split; [reflexivity | discriminate]].
  destruct (_generate_route _ _ _) as [route | e2] eqn:Hroute;
    [| left; split; [reflexivity | discriminate]].
  right. exists request, rid, resource, distance, travel, route.
  split; [reflexivity |]. split; [exact Choice |]. split; [exact Hres |].
  split; [apply status_eqb_eq; exact Hav |].
  split; [exact Hdist |]. split; [exact Htravel |]. split; [exact Hroute |].
  reflexivity.
Qed.
End AssignCases.

Lemma preserves_consistent_update (rid : string) (st : ResourceStatus.t)
    (l : option Location) :
  preserves consistent (discovery_update_resource_status rid st l).
Proof.
  intros self [K H]. unfold discovery_update_resource_status.
  pose proof (@keyed_update (discovery_service self) rid st l K) as K'.
  pose proof (@update_status_keeps (discovery_service self) rid st l) as P.
  destruct (update_resource_status _ _ _ _) as [b ds]. cbn [snd] in *.
  split; [exact K' |]. cbn. intros k a G.
  destruct (H k a G) as (E & (r & Hr) & Q). split; [exact E |].
  split; [exact (P _ _ Hr) | exact Q].
Qed.

Lemma preserves_consistent_history (h : Fulfillment) :
  preserves consistent (append_history h).
Proof. intros self H. exact H. Qed.

Lemma consistent_assignment (self : DispatchFulfillmentService) (k : string)
    (a : DispatchAssignment.t) :
  consistent self ->
  DispatchAssignment.assignment_id a = k ->
  (exists r, dict_get (DispatchAssignment.resource_id a)
                      (resources (discovery_service self)) = Some r) ->
  (exists q, dict_get (DispatchAssignment.request_id a) (active_requests self)
             = Some q) ->
  consistent
    (mkFulfillmentService (discovery_service self) (active_requests self)
       (dict_set k a (assignments self)) (fulfillment_history self)).
Proof.
  intros [K H] E R Q. split; [exact K |]. cbn. intros k1 a1.
  rewrite dict_get_set. destruct (String.eqb k1 k) eqn:Ek.
  - apply String.eqb_eq in Ek. subst k1. intros [= <-]. auto.
  - apply H.
Qed.

Lemma preserves_consistent_mutate (k : string)
    (f : DispatchAssignment.t -> DispatchAssignment.t) :
  (forall a, same_plan a (f a)) ->
  preserves consistent (mutate_assignment k f).
Proof.
  intros Hf self C. unfold mutate_assignment.
  destruct (dict_get k (assignments self)) as [a |] eqn:G; [| exact C].
  cbn [snd]. destruct (Hf a) as (E1 & E2 & E3 & _).
  destruct (proj2 C k a G) as (E & R & Q).
  apply consistent_assignment; [exact C | congruence | |].
  - rewrite E3. exact R.
  - rewrite E2. exact Q.
Qed.

Ltac keep_consistent :=
  repeat first
    [ apply preserves_ret
    | apply preserves_lift
    | apply preserves_get_self
    | apply preserves_consistent_update
    | apply preserves_consistent_history
    | apply preserves_consistent_mutate; plan_kept
    | apply preserves_bind; [| intros ?]
    | match goal with
      | |- preserves _ (if ?c then _ else _) => destruct c
      | |- preserves _ (match ?x with _ => _ end) => destruct x
      end ].

Lemma advance_consistent (now : datetime) (assignment_id : string) :
  preserves consistent (update_assignment_progress now assignment_id).
Proof.
  unfold update_assignment_progress, start_dispatch, move_along_route,
    complete_after_dwell.
  keep_consistent.
Qed.

Lemma cancel_consistent (assignment_id : string) :
  preserves consistent (cancel_assignment assignment_id).
Proof. unfold cancel_assignment. keep_consistent. Qed.

Section CallFacts.
Variable distance_to : Location -> Location -> Res float.

Lemma assign_consistent (self : DispatchFulfillmentService) (uuid : string)
    (now1 now2 : datetime) (request_id : string) (resource_id : option string) :
  consistent self ->
  consistent
    (snd (assign_resource distance_to uuid now1 now2 request_id resource_id self)).
Proof.
  intros C.
  destruct (assign_resource_cases distance_to self uuid now1 now2 request_id
              resource_id)
    as [[E _] | (request & rid & resource & distance & travel & route & Hreq & _ & Hres
                 & _ & _ & _ & _ & E)];
    rewrite E; [exact C |].
  cbn [snd].
  pose proof (@preserves_consistent_update rid ResourceStatus.DISPATCHED None
                self C) as C1.
  unfold discovery_update_resource_status, update_resource_status in C1.
  rewrite Hres in C1. cbn [snd] in C1.
  apply (@consistent_assignment _ uuid _ C1); cbn.
  - reflexivity.
  - rewrite dict_get_set_same. eauto.
  - eauto.
Qed.

Lemma assign_evolves (self : DispatchFulfillmentService) (uuid : string)
    (now1 now2 : datetime) (request_id : string) (resource_id : option string) :
  dict_get uuid (assignments self) = None ->
  evolves self
    (snd (assign_resource distance_to uuid now1 now2 request_id resource_id self)).
Proof.
  intros F.
  destruct (assign_resource_cases distance_to self uuid now1 now2 request_id
              resource_id)
    as [[E _] | (request & rid & resource & distance & travel & route & Hreq & _ & Hres
                 & _ & _ & _ & _ & E)];
    rewrite E; [apply evolves_refl |].
  cbn [snd]. unfold evolves. cbn. repeat split; auto using extends_refl.
  - apply registry_set_keeps.
  - intros k a G. exists a. split; [| apply same_plan_refl].
    rewrite dict_set_other; [exact G |]. intros ->. congruence.
Qed.

Lemma call_consistent (c : Call) (self : DispatchFulfillmentService) :
  consistent self -> consistent (run_call distance_to c self).
Proof.
  intros C.
  destruct c as [resource | rid st l
                 | uuid now requester location rtype priority requirements
                   description deadline
                 | [uuid now1 now2 request_id resource_id
                    | now assignment_id | assignment_id]];
    cbn [run_call run_operation].
  - destruct C as [K H]. split; [apply keyed_set; exact K |].
    cbn. intros k a G. destruct (H k a G) as (E & (r & Hr) & Q).
    split; [exact E |]. split; [| exact Q].
    exact (registry_set_keeps _ _ resource _ Hr).
  - pose proof (@preserves_consistent_update rid st l self C) as C'.
    unfold discovery_update_resource_status in C'. unfold on_registry.
    destruct (update_resource_status _ _ _ _). exact C'.
  - destruct C as [K H]. split; [exact K |].
    cbn. intros k a G. destruct (H k a G) as (E & R & (q & Hq)).
    split; [exact E |]. split; [exact R |].
    rewrite dict_get_set. destruct (String.eqb _ uuid); eauto.
  - apply assign_consistent. exact C.
  - apply advance_consistent. exact C.
  - apply cancel_consistent. exact C.
Qed.

Lemma call_evolves (c : Call) (self : DispatchFulfillmentService) :
  fresh_call c self -> evolves self (run_call distance_to c self).
Proof.
  intros F.
  destruct c as [resource | rid st l
                 | uuid now requester location rtype priority requirements
                   description deadline
                 | [uuid now1 now2 request_id resource_id
                    | now assignment_id | assignment_id]];
    cbn [run_call run_operation fresh_call fresh] in *.
  - apply evolves_registry. apply registry_set_keeps.
  - apply evolves_registry. apply update_status_keeps.
  - unfold evolves. cbn. repeat split; eauto using extends_refl.
    + intros k q G. rewrite dict_set_other; [exact G |]. intros ->. congruence.
    + intros k a G. exists a. split; [exact G | apply same_plan_refl].
  - apply assign_evolves. exact F.
  - apply advance_evolves.
  - apply cancel_evolves.
Qed.

Lemma reach_consistent (self self' : DispatchFulfillmentService)
    (cs : list Call) :
  reach distance_to self cs self' -> consistent self -> consistent self'.
Proof.
  induction 1 as [self | self self' c cs F R IH]; intros C; [exact C |].
  apply IH. apply call_consistent. exact C.
Qed.

End CallFacts.

Section Raises.
Variable I : DispatchFulfillmentService -> Prop.
Variable E : PyExn -> Prop.

Lemma raises_ret {A : Type} (a : A) : raises_within I E (ret a).
Proof. intros self H. split; [exact H | discriminate]. Qed.

Lemma raises_lift {A : Type} (r : Res A) :
  (forall e, r = Raise e -> E e) -> raises_within I E (lift r).
Proof. intros Hr self H. split; [exact H | exact Hr]. Qed.

Lemma raises_bind {A B : Type} (m : M A) (f : A -> M B) :
  raises_within I E m -> (forall a, raises_within I E (f a)) ->
  raises_within I E (bind m f).
Proof.
  intros Hm Hf self H. unfold bind. destruct (Hm self H) as [H1 H2].
  destruct (m self) as [[a | e] self1]; cbn [fst snd] in *.
  - apply Hf. exact H1.
  - split; [exact H1 |]. intros e' [= <-]. apply H2. reflexivity.
Qed.

Lemma raises_get_bind {B : Type} (f : DispatchFulfillmentService -> M B) :
  (forall self, I self -> raises_within I E (f self)) ->
  raises_within I E (bind get_self f).
Proof. intros Hf self H. unfold bind, get_self. apply (Hf self H self H). Qed.
End Raises.

Section RaisesReferenced.
Variable a : DispatchAssignment.t.
Variable E : PyExn -> Prop.

Lemma raises_mutate (k : string)
    (f : DispatchAssignment.t -> DispatchAssignment.t) :
  raises_within (referenced a) E (mutate_assignment k f).
Proof.
  intros self H. unfold mutate_assignment.
  destruct (dict_get k (assignments self)); (split; [exact H | discriminate]).
Qed.

Lemma raises_append_history (h : Fulfillment) :
  raises_within (referenced a) E (append_history h).
Proof. intros self H. split; [exact H | discriminate]. Qed.

Lemma raises_discovery_update (rid : string) (st : ResourceStatus.t)
    (l : option Location) :
  raises_within (referenced a) E (discovery_update_resource_status rid st l).
Proof.
  intros self [(r & R) Q]. unfold discovery_update_resource_status.
  pose proof (@update_status_keeps (discovery_service self) rid st l _ _ R) as P.
  destruct (update_resource_status _ _ _ _) as [b ds]. cbn [fst snd] in *.
  split; [split; [exact P | exact Q] | discriminate].
Qed.
End RaisesReferenced.

Lemma int_raises (x : float) (e : PyExn) :
  Py.int x = Raise e -> en_route_error e.
Proof.
  unfold Py.int, en_route_error.
  destruct (is_nan x); [intros [= <-]; auto |].
  destruct (is_infinity x); [intros [= <-]; auto | discriminate].
Qed.

Lemma getitem_raises {A : Type} (l : list A) (i : Z) (e : PyExn) :
  Py.getitem l i = Raise e -> en_route_error e.
Proof.
  unfold Py.getitem, en_route_error.
  destruct (Z.ltb _ 0); [intros [= <-]; auto |].
  destruct (nth_error _ _); [discriminate | intros [= <-]; auto].
Qed.

Lemma truediv_raises (x y : float) (e : PyExn) :
  Py.truediv x y = Raise e -> en_route_error e.
Proof.
  unfold Py.truediv, en_route_error.
  destruct (y =? 0)%float; [intros [= <-]; auto | discriminate].
Qed.

Ltac no_raise :=
  repeat first
    [ apply raises_ret
    | apply raises_mutate
    | apply raises_append_history
    | apply raises_discovery_update
    | match goal with
      | |- raises_within _ _ (bind get_self _) =>
          apply raises_get_bind; intros ? ?
      | |- raises_within _ _ (bind _ _) => apply raises_bind; [| intros ?]
      | |- raises_within _ _ (if ?c then _ else _) => destruct c
      end ].

Lemma start_dispatch_raises (now : datetime) (assignment_id : string)
    (a : DispatchAssignment.t) (resource : Resource.t) :
  raises_within (referenced a) (fun _ => False)
    (start_dispatch now assignment_id a resource).
Proof. unfold start_dispatch. no_raise. Qed.

Lemma complete_after_dwell_raises (now : datetime) (assignment_id : string)
    (a : DispatchAssignment.t) (resource : Resource.t) :
  raises_within (referenced a) (fun _ => False)
    (complete_after_dwell now assignment_id a resource).
Proof.
  unfold complete_after_dwell.
  destruct (DispatchAssignment.actual_arrival a); no_raise.
  apply raises_lift. unfold dict_getitem.
  match goal with H : referenced a _ |- _ => destruct H as [_ (q & ->)] end.
  discriminate.
Qed.

Lemma move_along_route_raises (now : datetime) (elapsed : float)
    (assignment_id : string) (a : DispatchAssignment.t) (resource : Resource.t) :
  raises_within (referenced a) en_route_error
    (move_along_route now elapsed assignment_id a resource).
Proof.
  unfold move_along_route.
  destruct (DispatchAssignment.estimated_arrival a); no_raise;
    apply raises_lift;
    first [apply truediv_raises | apply getitem_raises | apply int_raises].
Qed.

(** X13. In a consistent state a poll never raises [KeyError]:
    [update_assignment_progress] raises only for an assignment in state
    DISPATCHED, and then one of [ZeroDivisionError], [ValueError],
    [OverflowError] and [IndexError]. *)
Theorem advance_raises_only_en_route :
  forall (self : DispatchFulfillmentService) (assignment_id : string)
         (a : DispatchAssignment.t),
    consistent self ->
    dict_get assignment_id (assignments self) = Some a ->
    forall (now : datetime) (e : PyExn),
      fst (update_assignment_progress now assignment_id self) = Raise e ->
      DispatchAssignment.status a = DispatchStatus.DISPATCHED
      /\ en_route_error e.
Proof.
  intros self assignment_id a C G now e.
  destruct (proj2 C _ _ G) as (_ & (r & R) & Q).
  assert (Ref : referenced a self) by (split; eauto).
  unfold update_assignment_progress.
  unfold bind at 1. unfold get_self at 1. rewrite G.
  unfold bind at 1. unfold lift at 1. unfold dict_getitem. rewrite R.
  set (E := fun e => DispatchAssignment.status a = DispatchStatus.DISPATCHED
                     /\ en_route_error e).
  enough (H : raises_within (referenced a) E
            (bind
               match DispatchAssignment.status a with
               | DispatchStatus.ASSIGNED => start_dispatch now assignment_id a r
               | DispatchStatus.DISPATCHED =>
                   move_along_route now
                     (Timedelta.total_seconds
                        (now - DispatchAssignment.assigned_at a))
                     assignment_id a r
               | DispatchStatus.IN_PROGRESS =>
                   complete_after_dwell now assignment_id a r
               | _ => ret tt
               end
               (fun _ => bind get_self
                           (fun self' =>
                              ret (dict_get assignment_id (assignments self'))))))
    by exact (proj2 (H self Ref) e).
  apply raises_bind; [| intros _; no_raise].
  subst E. clear.
  assert (W : forall (m : M unit),
             raises_within (referenced a) (fun _ => False) m ->
             forall P : PyExn -> Prop, raises_within (referenced a) P m).
  { intros m H P self I. destruct (H self I) as [H1 H2].
    split; [exact H1 |]. intros e He. destruct (H2 e He). }
  destruct (DispatchAssignment.status a) eqn:S; try apply raises_ret.
  - apply W. apply start_dispatch_raises.
  - intros self I. destruct (@move_along_route_raises now
        (Timedelta.total_seconds (now - DispatchAssignment.assigned_at a))
        assignment_id a r self I) as [H1 H2].
    split; [exact H1 |]. intros e He. split; [reflexivity | exact (H2 e He)].
  - apply W. apply complete_after_dwell_raises.
Qed.

(** ** The first poll and the last *)

Lemma advance_found (self : DispatchFulfillmentService) (now : datetime)
    (assignment_id : string) (a : DispatchAssignment.t) (resource : Resource.t) :
  dict_get assignment_id (assignments self) = Some a ->
  dict_get (DispatchAssignment.resource_id a)
           (resources (discovery_service self)) = Some resource ->
  update_assignment_progress now assignment_id self
  = bind
      match DispatchAssignment.status a with
      | DispatchStatus.ASSIGNED => start_dispatch now assignment_id a resource
      | DispatchStatus.DISPATCHED =>
          move_along_route now
            (Timedelta.total_seconds (now - DispatchAssignment.assigned_at a))
            assignment_id a resource
      | DispatchStatus.IN_PROGRESS =>
          complete_after_dwell now assignment_id a resource
      | _ => ret tt
      end
      (fun _ => bind get_self
         (fun self' => ret (dict_get assignment_id (assignments self')))) self.
Proof.
  intros G R. unfold update_assignment_progress.
  unfold bind at 1. unfold get_self at 1. rewrite G.
  unfold bind at 1. unfold lift at 1. unfold dict_getitem. rewrite R.
  reflexivity.
Qed.

Ltac run_fields :=
  cbn [discovery_service active_requests assignments fulfillment_history
       resources].

Lemma advance_assigned_run (self : DispatchFulfillmentService) (now : datetime)
    (assignment_id : string) (a : DispatchAssignment.t) (resource : Resource.t) :
  dict_get assignment_id (assignments self) = Some a ->
  DispatchAssignment.status a = DispatchStatus.ASSIGNED ->
  dict_get (DispatchAssignment.resource_id a)
           (resources (discovery_service self)) = Some resource ->
  update_assignment_progress now assignment_id self
  = (Ok (Some
           (DispatchAssignment.append_update
              (mkProgressUpdate now "dispatched"
                 (Resource.name resource ++ " has been dispatched") None)
              (DispatchAssignment.set_status DispatchStatus.DISPATCHED a))),
     mkFulfillmentService
       (mkDiscovery
          (dict_set (DispatchAssignment.resource_id a)
             (Resource.set_status ResourceStatus.EN_ROUTE resource)
             (resources (discovery_service self))))
       (active_requests self)
       (dict_set assignment_id
          (DispatchAssignment.append_update
             (mkProgressUpdate now "dispatched"
                (Resource.name resource ++ " has been dispatched") None)
             (DispatchAssignment.set_status DispatchStatus.DISPATCHED a))
          (assignments self))
       (fulfillment_history self)).
Proof.
  intros G S R. rewrite (advance_found _ _ _ G R), S.
  unfold start_dispatch, bind, get_self, ret.
  rewrite (run_mutate_assignment _ _ _ G).
  unfold discovery_update_resource_status, update_resource_status.
  run_fields. rewrite R.
  unfold mutate_assignment. run_fields.
  rewrite dict_get_set_same, dict_set_set. run_fields.
  rewrite dict_get_set_same. reflexivity.
Qed.

Lemma advance_arrives_run (self : DispatchFulfillmentService) (now : datetime)
    (assignment_id : string) (a : DispatchAssignment.t) (resource : Resource.t)
    (estimated_arrival : datetime) (destination : Location) :
  dict_get assignment_id (assignments self) = Some a ->
  DispatchAssignment.status a = DispatchStatus.DISPATCHED ->
  DispatchAssignment.estimated_arrival a = Some estimated_arrival ->
  dict_get (DispatchAssignment.resource_id a)
           (resources (discovery_service self)) = Some resource ->
  (Timedelta.total_seconds
     (estimated_arrival - DispatchAssignment.assigned_at a)%Z =? 0)%float
  = false ->
  (1.0 <=? Py.min 1.0
             (Timedelta.total_seconds
                (now - DispatchAssignment.assigned_at a)%Z
              / Timedelta.total_seconds
                  (estimated_arrival - DispatchAssignment.assigned_at a)%Z))%float
  = true ->
  Py.getitem (DispatchAssignment.route a) (-1) = Ok destination ->
  update_assignment_progress now assignment_id self
  = (Ok (Some
           (DispatchAssignment.append_update
              (mkProgressUpdate now "arrived"
                 (Resource.name resource ++ " has arrived at destination") None)
              (DispatchAssignment.set_current_location (Some destination)
                 (DispatchAssignment.set_actual_arrival (Some now)
                    (DispatchAssignment.set_status DispatchStatus.IN_PROGRESS
                       a))))),
     mkFulfillmentService
       (mkDiscovery
          (dict_set (DispatchAssignment.resource_id a)
             (Resource.set_location destination
                (Resource.set_status ResourceStatus.ARRIVED resource))
             (resources (discovery_service self))))
       (active_requests self)
       (dict_set assignment_id
          (DispatchAssignment.append_update
             (mkProgressUpdate now "arrived"
                (Resource.name resource ++ " has arrived at destination") None)
             (DispatchAssignment.set_current_location (Some destination)
                (DispatchAssignment.set_actual_arrival (Some now)
                   (DispatchAssignment.set_status DispatchStatus.IN_PROGRESS
                      a))))
          (assignments self))
       (fulfillment_history self)).
Proof.
  intros G S E R Z P D. rewrite (advance_found _ _ _ G R), S.
  unfold move_along_route. rewrite E.
  unfold Py.truediv. rewrite Z.
  unfold bind, lift, get_self, ret. cbn beta iota.
  rewrite P.
  rewrite (run_mutate_assignment _ _ _ G). run_fields.
  unfold mutate_assignment at 1. run_fields.
  rewrite dict_get_set_same, dict_set_set.
  rewrite D.
  unfold mutate_assignment at 1. run_fields.
  rewrite dict_get_set_same, dict_set_set.
  unfold discovery_update_resource_status, update_resource_status. run_fields.
  rewrite R.
  unfold mutate_assignment. run_fields.
  rewrite dict_get_set_same, dict_set_set. run_fields.
  rewrite dict_get_set_same. reflexivity.
Qed.

(** X3. The first poll of an assignment in state ASSIGNED whose resource
    is registered, at whatever instant: the assignment has status
    DISPATCHED afterwards and a "dispatched" event appended, its other
    fields as before (it has not moved and has not arrived), the resource
    has status EN_ROUTE, its other fields as before, and nothing else
    changes. *)
Theorem advance_assigned :
  forall (self : DispatchFulfillmentService) (assignment_id : string)
         (a : DispatchAssignment.t) (resource : Resource.t),
    dict_get assignment_id (assignments self) = Some a ->
    DispatchAssignment.status a = DispatchStatus.ASSIGNED ->
    dict_get (DispatchAssignment.resource_id a)
             (resources (discovery_service self)) = Some resource ->
    forall now : datetime,
      let a' :=
        DispatchAssignment.mk
          (DispatchAssignment.assignment_id a)
          (DispatchAssignment.request_id a)
          (DispatchAssignment.resource_id a)
          DispatchStatus.DISPATCHED
          (DispatchAssignment.assigned_at a)
          (DispatchAssignment.estimated_arrival a)
          (DispatchAssignment.actual_arrival a)
          (DispatchAssignment.completion_time a)
          (DispatchAssignment.route a)
          (DispatchAssignment.current_location a)
          (DispatchAssignment.progress_updates a
           ++ [mkProgressUpdate now "dispatched"
                 (Resource.name resource ++ " has been dispatched") None]) in
      let r' :=
        Resource.mk (Resource.resource_id resource)
          (Resource.resource_type resource) (Resource.name resource)
          (Resource.location resource) (Resource.capabilities resource)
          (Resource.capacity resource) ResourceStatus.EN_ROUTE
          (Resource.operator resource) (Resource.contact_info resource)
          (Resource.metadata resource) in
      update_assignment_progress now assignment_id self
      = (Ok (Some a'),
         mkFulfillmentService
           (mkDiscovery
              (dict_set (DispatchAssignment.resource_id a) r'
                 (resources (discovery_service self))))
           (active_requests self)
           (dict_set assignment_id a' (assignments self))
           (fulfillment_history self))
      /\ DispatchAssignment.status a' = DispatchStatus.DISPATCHED
      /\ Resource.status r' = ResourceStatus.EN_ROUTE
      /\ DispatchAssignment.current_location a'
         = DispatchAssignment.current_location a
      /\ DispatchAssignment.actual_arrival a'
         = DispatchAssignment.actual_arrival a.
Proof.
  intros self assignment_id a resource G S R now a' r'. subst a' r'.
  split; [exact (advance_assigned_run self now assignment_id G S R) |].
  repeat split.
Qed.


Lemma advance_completes_run (self : DispatchFulfillmentService) (now : datetime)
    (assignment_id : string) (a : DispatchAssignment.t) (resource : Resource.t)
    (actual_arrival : datetime) (request : DispatchRequest.t) :
  dict_get assignment_id (assignments self) = Some a ->
  DispatchAssignment.status a = DispatchStatus.IN_PROGRESS ->
  dict_get (DispatchAssignment.resource_id a)
           (resources (discovery_service self)) = Some resource ->
  DispatchAssignment.actual_arrival a = Some actual_arrival ->
  (300 <? Timedelta.total_seconds (now - actual_arrival)%Z)%float = true ->
  dict_get (DispatchAssignment.request_id a) (active_requests self)
  = Some request ->
  update_assignment_progress now assignment_id self
  = (Ok (Some
           (DispatchAssignment.append_update
              (mkProgressUpdate now "completed"
                 (Resource.name resource ++ " has completed the mission") None)
              (DispatchAssignment.set_completion_time (Some now)
                 (DispatchAssignment.set_status DispatchStatus.COMPLETED a)))),
     mkFulfillmentService
       (mkDiscovery
          (dict_set (DispatchAssignment.resource_id a)
             (Resource.set_status ResourceStatus.AVAILABLE resource)
             (resources (discovery_service self))))
       (active_requests self)
       (dict_set assignment_id
          (DispatchAssignment.append_update
             (mkProgressUpdate now "completed"
                (Resource.name resource ++ " has completed the mission") None)
             (DispatchAssignment.set_completion_time (Some now)
                (DispatchAssignment.set_status DispatchStatus.COMPLETED a)))
          (assignments self))
       (fulfillment_history self
        ++ [mkFulfillment
              (DispatchAssignment.append_update
                 (mkProgressUpdate now "completed"
                    (Resource.name resource ++ " has completed the mission")
                    None)
                 (DispatchAssignment.set_completion_time (Some now)
                    (DispatchAssignment.set_status DispatchStatus.COMPLETED a)))
              (Resource.set_status ResourceStatus.COMPLETED resource)
              request now])%list).
Proof.
  intros G S R A D Q.
  rewrite (advance_found _ _ _ G R), S. unfold complete_after_dwell.
  rewrite A, D.
  unfold bind, lift, get_self, ret. cbn beta iota.
  rewrite (run_mutate_assignment _ _ _ G). run_fields.
  unfold mutate_assignment at 1. run_fields.
  rewrite dict_get_set_same, dict_set_set.
  unfold discovery_update_resource_status at 1.
  unfold update_resource_status at 1. run_fields. rewrite R.
  unfold mutate_assignment. run_fields.
  rewrite dict_get_set_same, dict_set_set. run_fields.
  rewrite dict_get_set_same.
  unfold dict_getitem. rewrite Q.
  unfold append_history. run_fields.
  rewrite dict_get_set_same.
  unfold discovery_update_resource_status, update_resource_status.
  run_fields. rewrite dict_get_set_same, dict_set_set. run_fields.
  rewrite dict_get_set_same. reflexivity.
Qed.

(** X4. A poll of an assignment in state IN_PROGRESS whose resource is
    registered. With no [actual_arrival], or at most 300 s after it,
    nothing changes and the assignment is returned as it is. More than
    300 s after it, the request being known, the assignment becomes
    COMPLETED with [completion_time = now] and a "completed" event; one
    entry is appended to the history, holding the completed assignment, the
    resource with status COMPLETED and the request; and the resource is left
    with status AVAILABLE. *)
Theorem advance_in_progress :
  forall (self : DispatchFulfillmentService) (now : datetime)
         (assignment_id : string) (a : DispatchAssignment.t)
         (resource : Resource.t),
    dict_get assignment_id (assignments self) = Some a ->
    DispatchAssignment.status a = DispatchStatus.IN_PROGRESS ->
    dict_get (DispatchAssignment.resource_id a)
             (resources (discovery_service self)) = Some resource ->
    (DispatchAssignment.actual_arrival a = None ->
     update_assignment_progress now assignment_id self = (Ok (Some a), self))
    /\ (forall actual_arrival,
          DispatchAssignment.actual_arrival a = Some actual_arrival ->
          let time_at_destination :=
            Timedelta.total_seconds (now - actual_arrival) in
          ((300 <? time_at_destination)%float = false ->
           update_assignment_progress now assignment_id self
           = (Ok (Some a), self))
          /\ ((300 <? time_at_destination)%float = true ->
              forall request,
                dict_get (DispatchAssignment.request_id a)
                         (active_requests self) = Some request ->
                let a' :=
                  DispatchAssignment.append_update
                    (mkProgressUpdate now "completed"
                       (Resource.name resource ++ " has completed the mission")
                       None)
                    (DispatchAssignment.set_completion_time (Some now)
                       (DispatchAssignment.set_status DispatchStatus.COMPLETED
                          a)) in
                update_assignment_progress now assignment_id self
                = (Ok (Some a'),
                   mkFulfillmentService
                     (mkDiscovery
                        (dict_set (DispatchAssignment.resource_id a)
                           (Resource.set_status ResourceStatus.AVAILABLE
                              resource)
                           (resources (discovery_service self))))
                     (active_requests self)
                     (dict_set assignment_id a' (assignments self))
                     (fulfillment_history self
                      ++ [mkFulfillment a'
                            (Resource.set_status ResourceStatus.COMPLETED
                               resource)
                            request now])%list))).
Proof.
  intros self now assignment_id a resource G S R.
  split; [| intros actual_arrival A; cbv zeta; split].
  - intros A. rewrite (advance_found _ _ _ G R), S.
    unfold complete_after_dwell. rewrite A.
    unfold bind, get_self, ret. cbn. rewrite G. reflexivity.
  - intros D. rewrite (advance_found _ _ _ G R), S.
    unfold complete_after_dwell. rewrite A, D.
    unfold bind, get_self, ret. cbn. rewrite G. reflexivity.
  - intros D request Q.
    exact (@advance_completes_run self now assignment_id a resource
             actual_arrival request G S R A D Q).
Qed.

(** ** Assignments from creation to arrival *)

Lemma getitem_last {A : Type} (l : list A) (x : A) :
  Py.getitem (l ++ [x]) (-1) = Ok x.
Proof.
  unfold Py.getitem. rewrite length_app. simpl List.length.
  replace (-1 <? 0) with true by reflexivity.
  replace (-1 + Z.of_nat (List.length l + 1)) with (Z.of_nat (List.length l))
    by lia.
  destruct (Z.of_nat (List.length l) <? 0) eqn:E;
    [apply Z.ltb_lt in E; lia |].
  rewrite Nat2Z.id, nth_error_app2, Nat.sub_diag by lia. reflexivity.
Qed.

Section AssignedFacts.
Variable distance_to : Location -> Location -> Res float.

Lemma route_last (start end_ : Location) (route : list Location) :
  _generate_route distance_to start end_ = Ok route ->
  Py.getitem route (-1) = Ok end_.
Proof.
  unfold _generate_route.
  destruct (distance_to start end_) as [d | e]; simpl; [| discriminate].
  destruct (Py.int _) as [n | e]; simpl; [| discriminate].
  intros [= <-].
  change (start :: (map (waypoint start end_ (Py.max 2 n))
                        (Py.range 1 (Py.max 2 n)) ++ [end_])%list)
    with (((start :: map (waypoint start end_ (Py.max 2 n))
                         (Py.range 1 (Py.max 2 n))) ++ [end_])%list).
  apply getitem_last.
Qed.

Lemma assign_resource_returned (self self1 : DispatchFulfillmentService)
    (uuid : string) (now1 now2 : datetime) (request_id : string)
    (resource_id : option string) (a : DispatchAssignment.t) :
  assign_resource distance_to uuid now1 now2 request_id resource_id self
  = (Ok (Some a), self1) ->
  exists request resource travel route,
    dict_get request_id (active_requests self) = Some request
    /\ dict_get (DispatchAssignment.resource_id a)
                (resources (discovery_service self)) = Some resource
    /\ Resource.status resource = ResourceStatus.AVAILABLE
    /\ (Py.truthy resource_id = false ->
        exists first rest,
          discover_resources distance_to (discovery_service self) request 50
          = Ok (first :: rest)
          /\ Resource.resource_id first = DispatchAssignment.resource_id a)
    /\ _generate_route distance_to (Resource.location resource)
                       (DispatchRequest.location request) = Ok route
    /\ a = DispatchAssignment.mk uuid request_id
             (DispatchAssignment.resource_id a) DispatchStatus.ASSIGNED now1
             (Some (now2 + travel)) None None route
             (Some (Resource.location resource)) []
    /\ self1
       = mkFulfillmentService
           (mkDiscovery
              (dict_set (DispatchAssignment.resource_id a)
                 (Resource.set_status ResourceStatus.DISPATCHED resource)
                 (resources (discovery_service self))))
           (active_requests self) (dict_set uuid a (assignments self))
           (fulfillment_history self).
Proof.
  intros H.
  destruct (assign_resource_cases distance_to self uuid now1 now2 request_id
              resource_id)
    as [[_ N] | (request & rid & resource & distance & travel & route & Hreq & C & Hres
                 & Hav & _ & _ & Hroute & E)].
  - rewrite H in N. exfalso. eapply N. reflexivity.
  - rewrite H in E. injection E as -> ->. cbn.
    exists request, resource, travel, route.
    repeat (split; [assumption || reflexivity |]).
    split; [| split; [exact Hroute | split; reflexivity]].
    intros T. destruct C as [[T' _] | (_ & first & rest & D & ->)];
      [congruence |].
    exists first, rest. auto.
Qed.
End AssignedFacts.

Section Compositions.
Variable distance_to : Location -> Location -> Res float.

(** X7. Cancelling an assignment right after [assign_resource] created it
    gives back the state before the assignment, but for the record of the
    cancelled assignment: the registry (the resource is AVAILABLE again, at
    its place), the requests and the history are as before. *)
Theorem assign_then_cancel_restores :
  forall (self self1 : DispatchFulfillmentService) (uuid : string)
         (now1 now2 : datetime) (request_id : string)
         (resource_id : option string) (a : DispatchAssignment.t),
    assign_resource distance_to uuid now1 now2 request_id resource_id self
    = (Ok (Some a), self1) ->
    cancel_assignment uuid self1
    = (Ok true,
       mkFulfillmentService (discovery_service self) (active_requests self)
         (dict_set uuid
            (DispatchAssignment.set_status DispatchStatus.CANCELLED a)
            (assignments self))
         (fulfillment_history self)).
Proof.
  intros self self1 uuid now1 now2 request_id resource_id a H.
  destruct (assign_resource_returned _ _ _ _ _ _ _ H)
    as (request & resource & travel & route & _ & Hres & Hav & _ & _ & _ & ->).
  unfold cancel_assignment, bind, get_self, ret. run_fields.
  rewrite dict_get_set_same.
  unfold mutate_assignment. run_fields. rewrite dict_get_set_same, dict_set_set.
  unfold discovery_update_resource_status, update_resource_status. run_fields.
  rewrite dict_get_set_same, dict_set_set.
  replace (Resource.set_status ResourceStatus.AVAILABLE
             (Resource.set_status ResourceStatus.DISPATCHED resource))
    with resource
    by (destruct resource; cbn in *; subst; reflexivity).
  rewrite (dict_set_same _ _ Hres).
  destruct (discovery_service self). reflexivity.
Qed.

(** X8. The resource of an assignment just created is taken: no call of
    [assign_resource] that follows returns an assignment with this
    resource, whatever request and resource it names, and naming this
    resource returns [None] and changes nothing. *)
Theorem assigned_resource_is_taken :
  forall (self self1 : DispatchFulfillmentService) (uuid : string)
         (now1 now2 : datetime) (request_id : string)
         (resource_id : option string) (a : DispatchAssignment.t),
    assign_resource distance_to uuid now1 now2 request_id resource_id self
    = (Ok (Some a), self1) ->
    forall (uuid' : string) (now1' now2' : datetime) (request_id' : string),
      (forall resource_id' a',
         fst (assign_resource distance_to uuid' now1' now2' request_id'
                              resource_id' self1) = Ok (Some a') ->
         DispatchAssignment.resource_id a' <> DispatchAssignment.resource_id a)
      /\ (DispatchAssignment.resource_id a <> ""%string ->
          assign_resource distance_to uuid' now1' now2' request_id'
                          (Some (DispatchAssignment.resource_id a)) self1
          = (Ok None, self1)).
Proof.
  intros self self1 uuid now1 now2 request_id resource_id a H
         uuid' now1' now2' request_id'.
  destruct (assign_resource_returned _ _ _ _ _ _ _ H)
    as (request & resource & travel & route & _ & Hres & Hav & _ & _ & _ & E).
  assert (Taken : forall r,
             dict_get (DispatchAssignment.resource_id a)
                      (resources (discovery_service self1)) = Some r ->
             Resource.status r = ResourceStatus.DISPATCHED).
  { intros r. rewrite E. run_fields. rewrite dict_get_set_same.
    intros [= <-]. reflexivity. }
  clear E. split.
  - intros resource_id' a' H'.
    destruct (assign_resource distance_to uuid' now1' now2' request_id'
                              resource_id' self1) as [res self2] eqn:H2.
    cbn [fst] in H'. subst res.
    destruct (assign_resource_returned _ _ _ _ _ _ _ H2)
      as (_ & resource' & _ & _ & _ & Hres' & Hav' & _).
    intros Eq. rewrite Eq in Hres'. apply Taken in Hres'. congruence.
  - intros Hne.
    unfold assign_resource, bind, get_self, lift, ret.
    destruct (dict_get request_id' (active_requests self1)); [| reflexivity].
    unfold Py.truthy. apply String.eqb_neq in Hne. rewrite Hne.
    cbn beta iota delta [negb].
    destruct (dict_get (DispatchAssignment.resource_id a)
                       (resources (discovery_service self1))) as [r |] eqn:G;
      [| reflexivity].
    rewrite (Taken r eq_refl). reflexivity.
Qed.

(** X12. An assignment as [assign_resource] returns it has an
    [estimated_arrival], and a route from the place of the resource to the
    place of the request. Polled once (it is dispatched), and then at an
    instant with [progress >= 1], its total time not being zero, it is
    IN_PROGRESS at the place of the request, with [actual_arrival = now],
    and its resource is ARRIVED at the place of the request. *)
Theorem assigned_resource_arrives :
  forall (self self1 : DispatchFulfillmentService) (uuid : string)
         (now1 now2 : datetime) (request_id : string)
         (resource_id : option string) (a : DispatchAssignment.t),
    assign_resource distance_to uuid now1 now2 request_id resource_id self
    = (Ok (Some a), self1) ->
    exists request estimated_arrival start,
      dict_get request_id (active_requests self) = Some request
      /\ DispatchAssignment.estimated_arrival a = Some estimated_arrival
      /\ DispatchAssignment.current_location a = Some start
      /\ Py.getitem (DispatchAssignment.route a) 0 = Ok start
      /\ Py.getitem (DispatchAssignment.route a) (-1)
         = Ok (DispatchRequest.location request)
      /\ forall first_poll now : datetime,
           let self2 := snd (update_assignment_progress first_poll uuid self1) in
           let total := Timedelta.total_seconds (estimated_arrival - now1) in
           let elapsed := Timedelta.total_seconds (now - now1) in
           (total =? 0)%float = false ->
           (1.0 <=? Py.min 1.0 (elapsed / total))%float = true ->
           exists a3 self3 r3,
             update_assignment_progress now uuid self2 = (Ok (Some a3), self3)
             /\ DispatchAssignment.status a3 = DispatchStatus.IN_PROGRESS
             /\ DispatchAssignment.actual_arrival a3 = Some now
             /\ DispatchAssignment.current_location a3
                = Some (DispatchRequest.location request)
             /\ dict_get (DispatchAssignment.resource_id a)
                         (resources (discovery_service self3)) = Some r3
             /\ Resource.status r3 = ResourceStatus.ARRIVED
             /\ Resource.location r3 = DispatchRequest.location request.
Proof.
  intros self self1 uuid now1 now2 request_id resource_id a H.
  destruct (assign_resource_returned _ _ _ _ _ _ _ H)
    as (request & resource & travel & route & Hreq & Hres & Hav & _ & Hroute
        & Ea & E1).
  assert (S1 : DispatchAssignment.status a = DispatchStatus.ASSIGNED)
    by (rewrite Ea; reflexivity).
  assert (T1 : DispatchAssignment.assigned_at a = now1)
    by (rewrite Ea; reflexivity).
  assert (A1 : DispatchAssignment.estimated_arrival a = Some (now2 + travel))
    by (rewrite Ea; reflexivity).
  assert (L1 : DispatchAssignment.current_location a
               = Some (Resource.location resource))
    by (rewrite Ea; reflexivity).
  assert (P1 : DispatchAssignment.route a = route)
    by (rewrite Ea; reflexivity).
  clear Ea.
  exists request, (now2 + travel), (Resource.location resource).
  split; [exact Hreq |]. split; [exact A1 |]. split; [exact L1 |].
  rewrite P1.
  split.
  { unfold _generate_route in Hroute.
    destruct (distance_to _ _); simpl in Hroute; [| discriminate].
    destruct (Py.int _); simpl in Hroute; [| discriminate].
    injection Hroute as <-. reflexivity. }
  split; [exact (route_last _ _ _ Hroute) |].
  intros first_poll now self2 total elapsed Z P.
  assert (G1 : dict_get uuid (assignments self1) = Some a)
    by (rewrite E1; apply dict_get_set_same).
  assert (R1 : dict_get (DispatchAssignment.resource_id a)
                        (resources (discovery_service self1))
               = Some (Resource.set_status ResourceStatus.DISPATCHED resource))
    by (rewrite E1; apply dict_get_set_same).
  subst self2. rewrite (advance_assigned_run _ first_poll _ G1 S1 R1).
  cbn [snd].
  match goal with
  | |- context [update_assignment_progress now uuid ?s] => set (self2 := s)
  end.
  set (a2 := DispatchAssignment.append_update
               (mkProgressUpdate first_poll "dispatched"
                  (Resource.name
                     (Resource.set_status ResourceStatus.DISPATCHED resource)
                   ++ " has been dispatched") None)
               (DispatchAssignment.set_status DispatchStatus.DISPATCHED a))
    in *.
  assert (G2 : dict_get uuid (assignments self2) = Some a2)
    by apply dict_get_set_same.
  assert (R2 : dict_get (DispatchAssignment.resource_id a2)
                        (resources (discovery_service self2))
               = Some (Resource.set_status ResourceStatus.EN_ROUTE
                         (Resource.set_status ResourceStatus.DISPATCHED
                            resource)))
    by apply dict_get_set_same.
  assert (D2 : Py.getitem (DispatchAssignment.route a2) (-1)
               = Ok (DispatchRequest.location request))
    by (cbn; rewrite P1; exact (route_last _ _ _ Hroute)).
  assert (S2 : DispatchAssignment.status a2 = DispatchStatus.DISPATCHED)
    by reflexivity.
  subst total elapsed. rewrite <- T1 in Z, P.
  rewrite (advance_arrives_run _ now _ G2 S2 A1 R2 Z P D2).
  do 3 eexists. split; [reflexivity |].
  run_fields. rewrite dict_get_set_same.
  repeat split; reflexivity.
Qed.
End Compositions.

(** ** Discovery and requirements, further *)

Lemma min_capacity_app (capacity : dict Z) (earlier later : dict ReqValue) :
  min_capacity_ok capacity (earlier ++ later)
  = match min_capacity_ok capacity earlier with
    | Ok true => min_capacity_ok capacity later
    | other => other
    end.
Proof.
  induction earlier as [| [k t] earlier IH]; simpl; [reflexivity |].
  destruct (dict_get k capacity) as [value |]; [| reflexivity].
  destruct (capacity_lt value t) as [[|] | e]; simpl; auto.
Qed.

Lemma capacity_lt_raised (value : Z) (threshold : ReqValue) (e : PyExn) :
  capacity_lt value threshold = Raise e ->
  e = TypeError /\ is_number threshold = false.
Proof.
  destruct threshold; simpl; try discriminate; intros [= <-]; auto.
Qed.

Lemma capacity_lt_not_number (value : Z) (threshold : ReqValue) :
  is_number threshold = false -> capacity_lt value threshold = Raise TypeError.
Proof. destruct threshold; simpl; try discriminate; reflexivity. Qed.

(** The loop of the "min_capacity" rule raises at the first threshold it
    compares that is not a number. *)
Lemma min_capacity_raised (capacity : dict Z) (items : dict ReqValue)
    (e : PyExn) :
  min_capacity_ok capacity items = Raise e
  <-> e = TypeError
      /\ exists earlier k threshold later value,
           items = (earlier ++ (k, threshold) :: later)%list
           /\ min_capacity_ok capacity earlier = Ok true
           /\ dict_get k capacity = Some value
           /\ is_number threshold = false.
Proof.
  split.
  - induction items as [| [k t] items IH]; simpl; [discriminate |].
    destruct (dict_get k capacity) as [value |] eqn:G; [| discriminate].
    destruct (capacity_lt value t) as [[|] | e1] eqn:C; simpl.
    + discriminate.
    + intros H.
      destruct (IH H) as (-> & earlier & k' & t' & later & v' & -> & B & G' & N).
      split; [reflexivity |].
      exists ((k, t) :: earlier), k', t', later, v'.
      split; [reflexivity |]. split; [| auto].
      simpl. rewrite G, C. simpl. exact B.
    + intros [= <-]. destruct (capacity_lt_raised _ _ C) as [-> N].
      split; [reflexivity |]. exists [], k, t, items, value. auto.
  - intros (-> & earlier & k & t & later & value & -> & B & G & N).
    rewrite min_capacity_app, B. simpl. rewrite G.
    rewrite (capacity_lt_not_number value _ N). reflexivity.
Qed.

Lemma meets_requirements_app (r : Resource.t) (before after : dict ReqValue) :
  _meets_requirements r (before ++ after)
  = match _meets_requirements r before with
    | Ok true => _meets_requirements r after
    | other => other
    end.
Proof.
  induction before as [| [k v] before IH]; simpl; [reflexivity |].
  destruct (String.eqb k "capabilities");
    [destruct (negb _); auto |].
  destruct (String.eqb k "min_capacity");
    [destruct v; try reflexivity;
     destruct (min_capacity_ok _ _) as [[|] | e]; simpl; auto |].
  destruct (String.eqb k "operator");
    [destruct (operator_differs _ _) |]; auto.
Qed.

Lemma meets_requirements_one (r : Resource.t) (k : string) (v : ReqValue)
    (e : PyExn) :
  _meets_requirements r [(k, v)] = Raise e ->
  k = "min_capacity"%string /\ raising_entry r v e.
Proof.
  simpl.
  destruct (String.eqb k "capabilities");
    [destruct (negb _); discriminate |].
  destruct (String.eqb k "min_capacity") eqn:K.
  - apply String.eqb_eq in K. split; [exact K |].
    destruct v;
      try (left; injection H as <-; split; [reflexivity | discriminate]).
    right. destruct (min_capacity_ok _ d) as [[|] | e1] eqn:M; simpl in H;
      try discriminate.
    injection H as <-.
    destruct (proj1 (min_capacity_raised _ _ _) M) as [-> _].
    split; [reflexivity |]. exists d. auto.
  - destruct (String.eqb k "operator");
      [destruct (operator_differs _ _) |]; discriminate.
Qed.

Lemma meets_requirements_raised (r : Resource.t) (requirements : dict ReqValue)
    (e : PyExn) :
  _meets_requirements r requirements = Raise e
  <-> exists before v after,
        requirements = (before ++ ("min_capacity"%string, v) :: after)%list
        /\ _meets_requirements r before = Ok true
        /\ raising_entry r v e.
Proof.
  split.
  - induction requirements as [| [k v] rest IH]; [discriminate |].
    change ((k, v) :: rest) with ([(k, v)] ++ rest)%list.
    rewrite meets_requirements_app.
    destruct (_meets_requirements r [(k, v)]) as [[|] | e1] eqn:One.
    + intros H. destruct (IH H) as (before & v' & after & -> & B & N).
      exists ((k, v) :: before), v', after. split; [reflexivity |].
      split; [| exact N].
      change ((k, v) :: before) with ([(k, v)] ++ before)%list.
      rewrite meets_requirements_app, One. exact B.
    + discriminate.
    + intros [= <-]. destruct (meets_requirements_one _ _ _ One) as (-> & N).
      exists [], v, rest. auto.
  - intros (before & v & after & -> & B & N).
    rewrite meets_requirements_app, B. simpl.
    destruct N as [(-> & N) | (-> & items & -> & M)].
    + destruct v; try reflexivity. exfalso. eapply N. reflexivity.
    + rewrite M. reflexivity.
Qed.

(** What [_meets_requirements] raises it raises on requirements that are
    not well shaped. *)
Lemma raising_entry_shape (r : Resource.t) (requirements : dict ReqValue)
    (e : PyExn) :
  _meets_requirements r requirements = Raise e ->
  (e = AttributeError \/ e = TypeError) /\ ~ well_shaped requirements.
Proof.
  intros H. apply meets_requirements_raised in H.
  destruct H as (before & v & after & -> & _ & N).
  assert (Hin : In ("min_capacity"%string, v)
                   (before ++ ("min_capacity"%string, v) :: after))
    by (apply in_or_app; right; left; reflexivity).
  destruct N as [(-> & N) | (-> & items & -> & M)].
  - split; [left; reflexivity |]. intros W.
    destruct (W v Hin) as (d & Hd & _). exact (N d Hd).
  - split; [right; reflexivity |]. intros W.
    destruct (W _ Hin) as (d & [= <-] & Nd).
    apply min_capacity_raised in M.
    destruct M as (_ & earlier & k & t & later & value & -> & _ & _ & Nt).
    assert (Ht : numeric t)
      by (apply (Nd k); apply in_or_app; right; left; reflexivity).
    destruct t; simpl in Ht, Nt; try contradiction; discriminate.
Qed.

Section DiscoveryFurther.
Variable distance_to : Location -> Location -> Res float.

(** The loop of [discover_resources] raises what [distance_to] or
    [_meets_requirements] raised on a resource. *)
Lemma discover_loop_raised (request : DispatchRequest.t) (max_distance_km : float)
    (values : list Resource.t) (e : PyExn) :
  discover_loop distance_to request max_distance_km values = Raise e ->
  exists r, In r values
            /\ (_meets_requirements r (DispatchRequest.requirements request)
                = Raise e
                \/ distance_to (Resource.location r)
                               (DispatchRequest.location request) = Raise e).
Proof.
  induction values as [| r values IH]; simpl; [discriminate |].
  assert (Later : discover_loop distance_to request max_distance_km values
                  = Raise e ->
                  exists r0, (r = r0 \/ In r0 values)
                             /\ (_meets_requirements r0
                                   (DispatchRequest.requirements request)
                                 = Raise e
                                 \/ distance_to (Resource.location r0)
                                      (DispatchRequest.location request)
                                    = Raise e)).
  { intros H. destruct (IH H) as (r0 & Hin & Hr). eauto. }
  destruct (negb (ResourceType.eqb _ _)); [exact Later |].
  destruct (negb (ResourceStatus.eqb _ _)); [exact Later |].
  destruct (distance_to (Resource.location r) _) as [d | e0] eqn:D; simpl;
    [| intros [= <-]; eauto].
  destruct (_ <? _)%float; [exact Later |].
  destruct (_meets_requirements r _) as [meets | e1] eqn:E; simpl.
  - destruct (discover_loop _ _ _ values); simpl; [discriminate |].
    intros H. apply Later. exact H.
  - intros [= <-]. eauto.
Qed.

(** What [discover_resources] raises was raised by the check of the
    requirements, which are not well shaped then, or by [distance_to]. *)
Lemma discover_resources_raised (self : BeckNDiscoveryService)
    (request : DispatchRequest.t) (max_distance_km : float) (e : PyExn) :
  discover_resources distance_to self request max_distance_km = Raise e ->
  ((e = AttributeError \/ e = TypeError)
   /\ ~ well_shaped (DispatchRequest.requirements request))
  \/ exists r,
       In r (dict_values (resources self))
       /\ distance_to (Resource.location r) (DispatchRequest.location request)
          = Raise e.
Proof.
  intros H. rewrite discover_resources_eq in H.
  destruct (discover_loop _ _ _ _) as [found | e1] eqn:L; simpl in H;
    [discriminate |].
  injection H as ->.
  destruct (discover_loop_raised _ _ _ L) as (r & Hin & [Hr | Hr]).
  - left. apply (raising_entry_shape _ _ Hr).
  - right. exists r. auto.
Qed.

(** X11. [_meets_requirements] raises nothing but [AttributeError] and
    [TypeError]. It raises [AttributeError] exactly when the requirements
    hold a "min_capacity" entry that is not an object and all entries before
    it are met (an entry before it that is not met makes the answer [False]
    instead). It raises [TypeError] exactly when they hold a "min_capacity"
    entry that is an object, all entries before it being met, with a
    threshold that is not a number (a string, [None], a list, an object),
    the thresholds before it being met and the resource having the capacity
    this threshold names. So what [discover_resources] raises is either an
    [AttributeError] or a [TypeError], for requirements that are not well
    shaped, or what [distance_to] raised on a registered resource. *)
Theorem requirements_raise_by_shape :
  forall (resource : Resource.t) (requirements : dict ReqValue),
    (forall e, _meets_requirements resource requirements = Raise e ->
               e = AttributeError \/ e = TypeError)
    /\ (_meets_requirements resource requirements = Raise AttributeError
        <-> exists before v after,
              requirements
              = (before ++ ("min_capacity"%string, v) :: after)%list
              /\ (forall d, v <> VDict d)
              /\ _meets_requirements resource before = Ok true)
    /\ (_meets_requirements resource requirements = Raise TypeError
        <-> exists before items after earlier k threshold later value,
              requirements
              = (before ++ ("min_capacity"%string, VDict items) :: after)%list
              /\ _meets_requirements resource before = Ok true
              /\ items = (earlier ++ (k, threshold) :: later)%list
              /\ min_capacity_ok (Resource.capacity resource) earlier = Ok true
              /\ dict_get k (Resource.capacity resource) = Some value
              /\ is_number threshold = false)
    /\ (forall (self : BeckNDiscoveryService) (request : DispatchRequest.t)
               (max_distance_km : float) (e : PyExn),
          DispatchRequest.requirements request = requirements ->
          discover_resources distance_to self request max_distance_km
          = Raise e ->
          ((e = AttributeError \/ e = TypeError)
           /\ ~ well_shaped requirements)
          \/ exists r,
               In r (dict_values (resources self))
               /\ distance_to (Resource.location r)
                              (DispatchRequest.location request) = Raise e).
Proof.
  intros resource requirements. split; [| split; [| split]].
  - intros e H. apply (raising_entry_shape _ _ H).
  - rewrite meets_requirements_raised. split.
    + intros (before & v & after & E & B & [(_ & N) | (D & _)]);
        [| discriminate D].
      exists before, v, after. auto.
    + intros (before & v & after & E & N & B).
      exists before, v, after. split; [exact E |]. split; [exact B |].
      left. auto.
  - rewrite meets_requirements_raised. split.
    + intros (before & v & after & E & B & [(D & _) | (_ & items & -> & M)]);
        [discriminate D |].
      apply min_capacity_raised in M.
      destruct M as (_ & earlier & k & t & later & value & Ei & Bi & G & N).
      exists before, items, after, earlier, k, t, later, value. auto 7.
    + intros (before & items & after & earlier & k & t & later & value
              & E & B & Ei & Bi & G & N).
      exists before, (VDict items), after. split; [exact E |].
      split; [exact B |]. right. split; [reflexivity |].
      exists items. split; [reflexivity |].
      apply min_capacity_raised. split; [reflexivity |].
      exists earlier, k, t, later, value. auto.
  - intros self request max_distance_km e <- H.
    apply (discover_resources_raised _ _ _ H).
Qed.

Lemma leb_ltb_trans (x y z : float) :
  (x <=? y)%float = true -> (y <? z)%float = true -> (x <? z)%float = true.
Proof.
  rewrite FloatOrder.leb_true_iff, !FloatOrder.ltb_true_iff.
  intros (Nx & Ny & [E | L]) (_ & Nz & L'); repeat split; auto.
  - rewrite E. exact L'.
  - eapply FloatOrder.lex_lt_trans; eassumption.
Qed.

(** X10. A wider radius loses no resource: the resources
    [discover_resources] returns within a radius are among those it returns
    within any radius that is not smaller. *)
Theorem wider_radius_finds_more :
  forall (self : BeckNDiscoveryService) (request : DispatchRequest.t)
         (radius wider : float) (found found' : list Resource.t),
    (radius * 1000 <=? wider * 1000)%float = true ->
    discover_resources distance_to self request radius = Ok found ->
    discover_resources distance_to self request wider = Ok found' ->
    forall r, In r found -> In r found'.
Proof.
  intros self request radius wider found found' Hle H H' r.
  rewrite discover_resources_eq in H, H'.
  destruct (discover_loop _ _ radius _) as [c | e] eqn:L; simpl in H;
    [| discriminate].
  destruct (discover_loop _ _ wider _) as [c' | e'] eqn:L'; simpl in H';
    [| discriminate].
  injection H as <-. injection H' as <-.
  apply discover_loop_ok in L, L'. subst c c'.
  rewrite !list_sort_In, !filter_In. intros [Hin P]. split; [exact Hin |].
  unfold passes_filters in *.
  apply andb_true_iff in P. destruct P as [P Hm].
  apply andb_true_iff in P. destruct P as [P Hd].
  rewrite P, Hm, andb_true_r. simpl.
  destruct (distance_to _ _) as [d | e]; [| discriminate].
  apply negb_true_iff in Hd. apply negb_true_iff.
  destruct (_ <? _)%float eqn:Lt in |- *; [| reflexivity].
  rewrite (leb_ltb_trans Hle Lt) in Hd. discriminate.
Qed.

Lemma discover_sorted (self : BeckNDiscoveryService) (request : DispatchRequest.t)
    (max_distance_km : float) (found : list Resource.t) :
  (forall r, In r (dict_values (resources self)) ->
             is_nan (distance_of distance_to request r) = false) ->
  discover_resources distance_to self request max_distance_km = Ok found ->
  StronglySorted (by_distance distance_to request) found.
Proof.
  intros Nd H. rewrite discover_resources_eq in H.
  destruct (discover_loop _ _ _ _) as [c | e] eqn:L; simpl in H;
    [| discriminate].
  injection H as <-. apply discover_loop_ok in L. subst c.
  refine (@list_sort_sorted _ _ tuple_lt (key_of distance_to request)
            (fun a b : float * Z => (fst a <=? fst b)%float = true)
            (fun k : float * Z => FloatRank.number (fst k)) _ _ _ _ _).
  - intros [d1 p1] [d2 p2]. unfold tuple_lt. simpl.
    destruct (d1 =? d2)%float eqn:E; simpl.
    + intros _. apply FloatOrder.leb_true_iff.
      apply FloatOrder.eqb_true_iff in E. tauto.
    + apply FloatOrder.ltb_leb.
  - intros [d1 p1] [d2 p2] G1 G2. unfold tuple_lt. simpl. simpl in G1, G2.
    destruct (d2 =? d1)%float eqn:E; simpl.
    + intros _. apply FloatOrder.leb_true_iff.
      apply FloatOrder.eqb_true_iff in E.
      destruct E as (? & ? & E). rewrite E. tauto.
    + apply FloatOrder.not_ltb_leb; assumption.
  - intros a b c. apply FloatOrder.leb_trans.
  - apply Forall_forall. intros r Hr. apply filter_In in Hr.
    simpl. apply FloatOrder.is_nan_number. apply Nd. apply Hr.
Qed.

(** X9. With no resource named, [assign_resource] takes a nearest one: on
    a keyed registry, for well-shaped requirements and distances that are
    numbers, the resource of the assignment returned is eligible for the
    request within 50 km, and no eligible resource of the registry is
    nearer to the request. *)
Theorem unnamed_resource_is_nearest :
  forall (self self1 : DispatchFulfillmentService) (uuid : string)
         (now1 now2 : datetime) (request_id : string)
         (resource_id : option string) (request : DispatchRequest.t)
         (a : DispatchAssignment.t),
    Py.truthy resource_id = false ->
    dict_get request_id (active_requests self) = Some request ->
    keyed (resources (discovery_service self)) ->
    well_shaped (DispatchRequest.requirements request) ->
    (forall r, In r (dict_values (resources (discovery_service self))) ->
               is_nan (distance_of distance_to request r) = false) ->
    assign_resource distance_to uuid now1 now2 request_id resource_id self
    = (Ok (Some a), self1) ->
    exists resource,
      dict_get (DispatchAssignment.resource_id a)
               (resources (discovery_service self)) = Some resource
      /\ eligible distance_to request 50 resource
      /\ forall r,
           In r (dict_values (resources (discovery_service self))) ->
           eligible distance_to request 50 r ->
           by_distance distance_to request resource r.
Proof.
  intros self self1 uuid now1 now2 request_id resource_id request a
         T Hreq K W Nd H.
  destruct (assign_resource_returned _ _ _ _ _ _ _ H)
    as (request' & resource & _ & _ & Hreq' & Hres & _ & C & _).
  assert (request' = request) by congruence. subst request'.
  destruct (C T) as (first & rest & D & Eid).
  assert (Hin : In first (first :: rest)) by (left; reflexivity).
  pose proof (@discovered_registered distance_to _ _ _ _ _ K D Hin) as Hfirst.
  rewrite Eid, Hres in Hfirst. injection Hfirst as ->.
  exists first. split; [exact Hres |].
  assert (Nb : is_nan (50 * 1000)%float = false) by reflexivity.
  assert (Found : forall r, In r (first :: rest) <->
                    In r (dict_values (resources (discovery_service self)))
                    /\ eligible distance_to request 50 r).
  { intros r. pose proof D as D'. rewrite discover_resources_eq in D'.
    destruct (discover_loop _ _ _ _) as [c | e] eqn:L; simpl in D';
      [| discriminate].
    injection D' as D'. rewrite <- D'. apply discover_loop_ok in L. subst c.
    rewrite list_sort_In, filter_In.
    split; intros [Hr P]; (split; [exact Hr |]);
      apply (@passes_filters_eligible distance_to request 50 r W Nb
               (fun _ => Nd r Hr));
      exact P. }
  split; [apply Found; exact Hin |].
  intros r Hr Er.
  assert (Hr' : In r (first :: rest)) by (apply Found; auto).
  pose proof (@discover_sorted _ _ _ _ Nd D) as S.
  inversion S as [| x l S' F]; subst.
  destruct Hr' as [<- | Hr'].
  - unfold by_distance. apply FloatOrder.leb_true_iff.
    pose proof (proj1 (FloatOrder.is_nan_number _) (Nd _ Hr)) as N. auto.
  - rewrite Forall_forall in F. apply F. exact Hr'.
Qed.
End DiscoveryFurther.

(** ** Sequences of calls *)

Section ReachFacts.
Variable distance_to : Location -> Location -> Res float.

(** X5. Every call keeps the references between the dictionaries: in a
    state reached by any sequence of calls on the two services from a
    consistent one, the registry is keyed, and every assignment is stored
    under its id with its resource registered and its request known. So
    [get_assignment_status] never raises there: it returns [None] for an
    unknown id, and the assignment with its resource and its request for
    a known one, and changes nothing. *)
Theorem calls_keep_references :
  forall (self self' : DispatchFulfillmentService) (cs : list Call),
    consistent self ->
    reach distance_to self cs self' ->
    consistent self'
    /\ forall (now : datetime) (assignment_id : string),
         match dict_get assignment_id (assignments self') with
         | None =>
             get_assignment_status now assignment_id self' = (Ok None, self')
         | Some a =>
             exists resource request,
               dict_get (DispatchAssignment.resource_id a)
                        (resources (discovery_service self')) = Some resource
               /\ dict_get (DispatchAssignment.request_id a)
                           (active_requests self') = Some request
               /\ get_assignment_status now assignment_id self'
                  = (Ok (Some (mkAssignmentStatus a resource request now)),
                     self')
         end.
Proof.
  intros self self' cs C R.
  pose proof (reach_consistent R C) as C'. split; [exact C' |].
  intros now assignment_id. unfold get_assignment_status, bind, get_self, lift, ret.
  destruct (dict_get assignment_id (assignments self')) as [a |] eqn:G;
    [| reflexivity].
  destruct (proj2 C' _ _ G) as (_ & (r & Hr) & (q & Hq)).
  exists r, q. split; [exact Hr |]. split; [exact Hq |].
  unfold dict_getitem. rewrite Hr, Hq. reflexivity.
Qed.

(** X6. No call removes or rewrites what is there. Across every sequence
    of calls on the two services: a request stays as it was created, a
    registered resource id stays registered, an assignment stays, with the
    same id, request, resource, [assigned_at], [estimated_arrival] and
    route, its events only appended to, and the history is only appended
    to. *)
Theorem calls_never_rewrite :
  forall (self self' : DispatchFulfillmentService) (cs : list Call),
    reach distance_to self cs self' -> evolves self self'.
Proof.
  induction 1 as [self | self self' c cs F R IH]; [apply evolves_refl |].
  eapply evolves_trans; [apply call_evolves; exact F | exact IH].
Qed.

Lemma run_calls_reach (cs : list Call) (self : DispatchFulfillmentService) :
  all_fresh_calls distance_to cs self ->
  reach distance_to self cs (run_calls distance_to cs self).
Proof.
  revert self. induction cs as [| c cs IH]; simpl; intros self F.
  - apply reach_nil.
  - destruct F as [F1 F2]. apply reach_cons; [exact F1 | apply IH; exact F2].
Qed.
End ReachFacts.

(** ** What a poll and a cancellation touch *)

Lemma touches_refl (k rid : string) (self : DispatchFulfillmentService) :
  touches k rid self self.
Proof. unfold touches. repeat split; auto using extends_refl. Qed.

Lemma touches_trans (k rid : string) (s1 s2 s3 : DispatchFulfillmentService) :
  touches k rid s1 s2 -> touches k rid s2 s3 -> touches k rid s1 s3.
Proof.
  intros (A1 & A2 & A3 & A4 & A5 & A6) (B1 & B2 & B3 & B4 & B5 & B6).
  unfold touches. repeat split; try congruence.
  - intros k' H. rewrite B3, A3; auto.
  - intros k' H. rewrite B5, A5; auto.
  - eapply extends_trans; eassumption.
Qed.

Lemma dict_set_keys_known {V : Type} (k : string) (v v' : V) (d : dict V) :
  dict_get k d = Some v -> map fst (dict_set k v' d) = map fst d.
Proof. intros G. rewrite dict_set_keys. unfold dict_mem. rewrite G. reflexivity. Qed.

Lemma touches_mutate (k rid : string)
    (f : DispatchAssignment.t -> DispatchAssignment.t) :
  steps (touches k rid) (mutate_assignment k f).
Proof.
  intros self. unfold mutate_assignment.
  destruct (dict_get k (assignments self)) as [a |] eqn:G;
    [| apply touches_refl].
  unfold touches. cbn. repeat split; auto using extends_refl.
  - eapply dict_set_keys_known. exact G.
  - intros k' H. apply dict_set_other. exact H.
Qed.

Lemma touches_discovery_update (k rid : string) (st : ResourceStatus.t)
    (l : option Location) :
  steps (touches k rid) (discovery_update_resource_status rid st l).
Proof.
  intros self. unfold discovery_update_resource_status, update_resource_status.
  destruct (dict_get rid (resources (discovery_service self))) as [r |] eqn:G;
    unfold touches; cbn; repeat split; auto using extends_refl.
  - eapply dict_set_keys_known. exact G.
  - intros k' H. apply dict_set_other. exact H.
Qed.

Lemma touches_append_history (k rid : string) (h : Fulfillment) :
  steps (touches k rid) (append_history h).
Proof.
  intros self. unfold touches. cbn. repeat split; auto.
  exists [h]. reflexivity.
Qed.

Ltac touch_through :=
  repeat first
    [ apply steps_ret; apply touches_refl
    | apply steps_lift; apply touches_refl
    | apply steps_get_self; apply touches_refl
    | apply touches_discovery_update
    | apply touches_append_history
    | apply touches_mutate
    | apply steps_bind; [apply touches_trans | | intros ?]
    | match goal with
      | |- steps _ (if ?c then _ else _) => destruct c
      | |- steps _ (match ?x with _ => _ end) => destruct x
      end ].

(** X14. A poll and a cancellation touch one assignment and one resource.
    For an unknown id both change nothing ([update_assignment_progress]
    returns [None], [cancel_assignment] returns [False]). For a known one,
    the requests, every other assignment and every resource but the one of
    the assignment are as before, no key is added, removed or moved in the
    dictionaries, and the history is only appended to (by a cancellation,
    not at all). *)
Theorem poll_and_cancel_touch_one :
  forall (self : DispatchFulfillmentService) (assignment_id : string),
    match dict_get assignment_id (assignments self) with
    | None =>
        (forall now,
           update_assignment_progress now assignment_id self = (Ok None, self))
        /\ cancel_assignment assignment_id self = (Ok false, self)
    | Some a =>
        (forall now,
           touches assignment_id (DispatchAssignment.resource_id a) self
             (snd (update_assignment_progress now assignment_id self)))
        /\ touches assignment_id (DispatchAssignment.resource_id a) self
             (snd (cancel_assignment assignment_id self))
        /\ fulfillment_history (snd (cancel_assignment assignment_id self))
           = fulfillment_history self
    end.
Proof.
  intros self assignment_id.
  destruct (dict_get assignment_id (assignments self)) as [a |] eqn:G.
  - split; [intros now | split].
    + unfold update_assignment_progress.
      unfold bind at 1. unfold get_self at 1. rewrite G.
      enough (H : steps (touches assignment_id (DispatchAssignment.resource_id a))
                (bind
                   (lift (dict_getitem (DispatchAssignment.resource_id a)
                            (resources (discovery_service self))))
                   (fun resource =>
                      bind
                        match DispatchAssignment.status a with
                        | DispatchStatus.ASSIGNED =>
                            start_dispatch now assignment_id a resource
                        | DispatchStatus.DISPATCHED =>
                            move_along_route now
                              (Timedelta.total_seconds
                                 (now - DispatchAssignment.assigned_at a))
                              assignment_id a resource
                        | DispatchStatus.IN_PROGRESS =>
                            complete_after_dwell now assignment_id a resource
                        | _ => ret tt
                        end
                        (fun _ => bind get_self
                           (fun self' =>
                              ret (dict_get assignment_id (assignments self')))))))
        by exact (H self).
      unfold start_dispatch, move_along_route, complete_after_dwell.
      touch_through.
    + unfold cancel_assignment.
      unfold bind at 1. unfold get_self at 1. rewrite G.
      enough (H : steps (touches assignment_id (DispatchAssignment.resource_id a))
                (bind
                   (mutate_assignment assignment_id
                      (DispatchAssignment.set_status DispatchStatus.CANCELLED))
                   (fun _ =>
                      bind
                        (discovery_update_resource_status
                           (DispatchAssignment.resource_id a)
                           ResourceStatus.AVAILABLE None)
                        (fun _ => ret true))))
        by exact (H self).
      touch_through.
    + unfold cancel_assignment, bind, get_self, ret. rewrite G.
      rewrite (run_mutate_assignment _ _ _ G).
      unfold discovery_update_resource_status, update_resource_status.
      run_fields.
      destruct (dict_get (DispatchAssignment.resource_id a)
                         (resources (discovery_service self))); reflexivity.
  - split; [intros now; apply advance_unknown | apply cancel_unknown]; exact G.
Qed.

Section RegistryAndDiscovery.
Variable distance_to : Location -> Location -> Res float.

(** X15. Discovery reads the registry as the calls on it leave it. Right
    after [register_resource], the resource is returned by
    [discover_resources] if and only if it passes the filters. After
    [update_resource_status] to a status other than AVAILABLE, on a keyed
    registry, no resource with this id is returned. *)
Theorem registry_changes_reach_discovery :
  forall (self : BeckNDiscoveryService) (request : DispatchRequest.t)
         (max_distance_km : float),
    (forall (resource : Resource.t) (found : list Resource.t),
       discover_resources distance_to (snd (register_resource self resource))
                          request max_distance_km = Ok found ->
       (In resource found
        <-> passes_filters distance_to request max_distance_km resource = true))
    /\ (forall (resource_id : string) (status : ResourceStatus.t)
               (location : option Location) (found : list Resource.t),
          keyed (resources self) ->
          status <> ResourceStatus.AVAILABLE ->
          discover_resources distance_to
            (snd (update_resource_status self resource_id status location))
            request max_distance_km = Ok found ->
          forall r, In r found -> Resource.resource_id r <> resource_id).
Proof.
  intros self request max_distance_km. split.
  - intros resource found H. rewrite discover_resources_eq in H.
    destruct (discover_loop _ _ _ _) as [c | e] eqn:L; simpl in H;
      [| discriminate].
    injection H as <-. apply discover_loop_ok in L. subst c.
    rewrite list_sort_In, filter_In. cbn [snd register_resource resources].
    split; [tauto |]. intros P. split; [| exact P].
    eapply dict_get_value. apply dict_get_set_same.
  - intros resource_id status location found K N H r Hin Eq.
    pose proof (@keyed_update self resource_id status location K) as K'.
    pose proof (@discovered_registered distance_to _ _ _ _ _ K' H Hin) as G.
    pose proof (@discovered_available distance_to _ _ _ _ _ H Hin) as A.
    rewrite Eq in G. revert G. unfold update_resource_status.
    destruct (dict_get resource_id (resources self)) as [r0 |] eqn:G0;
      cbn [snd resources].
    + rewrite dict_get_set_same. intros [= <-].
      apply N. rewrite <- A. destruct location; reflexivity.
    + congruence.
Qed.

Lemma int_raises_value (x : float) (e : PyExn) :
  Py.int x = Raise e -> e = ValueError \/ e = OverflowError.
Proof.
  unfold Py.int.
  destruct (is_nan x); [intros [= <-]; auto |].
  destruct (is_infinity x); [intros [= <-]; auto | discriminate].
Qed.

Lemma of_seconds_raises (x : float) (e : PyExn) :
  Timedelta.of_seconds x = Raise e -> e = ValueError \/ e = OverflowError.
Proof.
  unfold Timedelta.of_seconds.
  destruct (is_nan x); [intros [= <-]; auto |].
  destruct (is_infinity x); [intros [= <-]; auto |].
  cbv zeta. destruct (_ || _)%bool; [intros [= <-]; auto | discriminate].
Qed.

(** X16. When [assign_resource] raises, nothing has changed, the request
    is known, and the exception comes from one of three places. From the
    check of the requirements during discovery: it is an [AttributeError]
    or a [TypeError], no resource is named and the requirements are not
    well shaped. From [distance_to], on a registered resource. Or from the
    distance [distance_to] returned for a registered resource that is
    AVAILABLE: it is the [ValueError] or [OverflowError] of the travel time
    ([timedelta(seconds = distance / speed)]) or of the waypoint count
    ([int(distance / 5000)]). Nothing else raises: the speed is never zero,
    and no key or index is looked up that may be missing. *)
Theorem assign_resource_raises :
  forall (self : DispatchFulfillmentService) (uuid : string)
         (now1 now2 : datetime) (request_id : string)
         (resource_id : option string) (e : PyExn),
    fst (assign_resource distance_to uuid now1 now2 request_id resource_id self)
    = Raise e ->
    snd (assign_resource distance_to uuid now1 now2 request_id resource_id self)
    = self
    /\ exists request,
         dict_get request_id (active_requests self) = Some request
         /\ (((e = AttributeError \/ e = TypeError)
              /\ Py.truthy resource_id = false
              /\ ~ well_shaped (DispatchRequest.requirements request))
             \/ (exists r,
                   In r (dict_values (resources (discovery_service self)))
                   /\ distance_to (Resource.location r)
                                  (DispatchRequest.location request) = Raise e)
             \/ (exists r distance,
                   In r (dict_values (resources (discovery_service self)))
                   /\ Resource.status r = ResourceStatus.AVAILABLE
                   /\ distance_to (Resource.location r)
                                  (DispatchRequest.location request)
                      = Ok distance
                   /\ (e = ValueError \/ e = OverflowError)
                   /\ (Timedelta.of_seconds
                         (distance
                          / _get_resource_speed (Resource.resource_type r))%float
                       = Raise e
                       \/ Py.int (distance / 5000)%float = Raise e))).
Proof.
  intros self uuid now1 now2 request_id resource_id e.
  rewrite assign_resource_eq.
  destruct (dict_get request_id (active_requests self)) as [request |];
    [| discriminate].
  destruct (Py.truthy resource_id);
    [destruct resource_id as [rid |]; [| discriminate]
    | destruct (discover_resources distance_to (discovery_service self)
                                   request 50)
        as [[| first rest] | e0] eqn:D; [discriminate | |]].
  3:{ intros [= <-]. split; [reflexivity |]. exists request.
      split; [reflexivity |].
      destruct (@discover_resources_raised distance_to _ _ _ _ D)
        as [[H W] | H].
      - left. auto.
      - right. left. exact H. }
  all: destruct (dict_get _ (resources (discovery_service self)))
         as [resource |] eqn:R; [| discriminate].
  all: apply dict_get_value in R.
  all: destruct (ResourceStatus.eqb _ _) eqn:A; [| discriminate].
  all: apply status_eqb_eq in A.
  all: destruct (distance_to (Resource.location resource) _)
         as [distance | e1] eqn:Dr;
    [| intros [= <-]; split; [reflexivity |]; exists request;
       split; [reflexivity |]; right; left; exists resource;
       split; [exact R | exact Dr]].
  all: destruct (Timedelta.of_seconds _) as [travel | e2] eqn:T;
    [| intros [= <-]; split; [reflexivity |]; exists request;
       split; [reflexivity |]; right; right; exists resource, distance;
       split; [exact R |]; split; [exact A |]; split; [exact Dr |];
       split; [exact (of_seconds_raises _ T) | left; exact T]].
  all: unfold _generate_route; rewrite Dr; simpl.
  all: destruct (Py.int _) as [n | e3] eqn:N; [discriminate |].
  all: intros [= <-]; split; [reflexivity |]; exists request.
  all: split; [reflexivity |]; right; right; exists resource, distance.
  all: split; [exact R |]; split; [exact A |]; split; [exact Dr |].
  all: split; [exact (int_raises_value _ N) | right; exact N].
Qed.
End RegistryAndDiscovery.

(** ** The history *)

Lemma kept_refl (self : DispatchFulfillmentService) : history_kept self self.
Proof. reflexivity. Qed.

Lemma kept_trans (s1 s2 s3 : DispatchFulfillmentService) :
  history_kept s1 s2 -> history_kept s2 s3 -> history_kept s1 s3.
Proof. unfold history_kept. congruence. Qed.

Lemma kept_mutate (k : string)
    (f : DispatchAssignment.t -> DispatchAssignment.t) :
  steps history_kept (mutate_assignment k f).
Proof.
  intros self. unfold mutate_assignment.
  destruct (dict_get k (assignments self)); reflexivity.
Qed.

Lemma kept_discovery_update (rid : string) (st : ResourceStatus.t)
    (l : option Location) :
  steps history_kept (discovery_update_resource_status rid st l).
Proof.
  intros self. unfold discovery_update_resource_status.
  destruct (update_resource_status _ _ _ _). reflexivity.
Qed.

Lemma start_dispatch_keeps_history (now : datetime) (assignment_id : string)
    (a : DispatchAssignment.t) (resource : Resource.t) :
  steps history_kept (start_dispatch now assignment_id a resource).
Proof.
  unfold start_dispatch.
  repeat first
    [ apply kept_mutate
    | apply kept_discovery_update
    | apply steps_bind; [exact kept_trans | | intros ?] ].
Qed.

Lemma move_along_route_keeps_history (now : datetime) (elapsed : float)
    (assignment_id : string) (a : DispatchAssignment.t) (resource : Resource.t) :
  steps history_kept (move_along_route now elapsed assignment_id a resource).
Proof.
  unfold move_along_route.
  destruct (DispatchAssignment.estimated_arrival a);
    repeat first
      [ apply steps_ret; exact kept_refl
      | apply steps_lift; exact kept_refl
      | apply kept_mutate
      | apply kept_discovery_update
      | apply steps_bind; [exact kept_trans | | intros ?]
      | match goal with
        | |- steps _ (if ?c then _ else _) => destruct c
        end ].
Qed.

(** A poll leaves the history as it is, or completes the assignment. *)
Lemma advance_records (self : DispatchFulfillmentService) (now : datetime)
    (assignment_id : string) :
  consistent self ->
  fulfillment_history (snd (update_assignment_progress now assignment_id self))
  = fulfillment_history self
  \/ exists a resource request,
       dict_get assignment_id (assignments self) = Some a
       /\ DispatchAssignment.status a = DispatchStatus.IN_PROGRESS
       /\ snd (update_assignment_progress now assignment_id self)
          = mkFulfillmentService
              (mkDiscovery
                 (dict_set (DispatchAssignment.resource_id a)
                    (Resource.set_status ResourceStatus.AVAILABLE resource)
                    (resources (discovery_service self))))
              (active_requests self)
              (dict_set assignment_id
                 (DispatchAssignment.append_update
                    (mkProgressUpdate now "completed"
                       (Resource.name resource ++ " has completed the mission")
                       None)
                    (DispatchAssignment.set_completion_time (Some now)
                       (DispatchAssignment.set_status DispatchStatus.COMPLETED
                          a)))
                 (assignments self))
              (fulfillment_history self
               ++ [mkFulfillment
                     (DispatchAssignment.append_update
                        (mkProgressUpdate now "completed"
                           (Resource.name resource
                            ++ " has completed the mission") None)
                        (DispatchAssignment.set_completion_time (Some now)
                           (DispatchAssignment.set_status
                              DispatchStatus.COMPLETED a)))
                     (Resource.set_status ResourceStatus.COMPLETED resource)
                     request now])%list.
Proof.
  intros C.
  destruct (dict_get assignment_id (assignments self)) as [a |] eqn:G;
    [| left; rewrite advance_unknown by exact G; reflexivity].
  destruct (proj2 C _ _ G) as (_ & (resource & R) & (request & Q)).
  assert (Tail : forall m : M unit,
             steps history_kept m ->
             fulfillment_history
               (snd (bind m
                       (fun _ => bind get_self
                          (fun self' =>
                             ret (dict_get assignment_id (assignments self'))))
                       self))
             = fulfillment_history self).
  { intros m H.
    refine (@steps_bind history_kept kept_trans _ _ m _ H _ self).
    intros _ s. reflexivity. }
  destruct (DispatchAssignment.status a) eqn:S;
    try (left; rewrite (advance_found _ _ _ G R), S; apply Tail;
         first [ apply steps_ret; exact kept_refl
               | apply start_dispatch_keeps_history
               | apply move_along_route_keeps_history ]).
  destruct (DispatchAssignment.actual_arrival a) as [arrival |] eqn:A.
  - destruct (300 <? Timedelta.total_seconds (now - arrival)%Z)%float eqn:D.
    + right. exists a, resource, request. split; [reflexivity |].
      split; [exact S |].
      rewrite (@advance_completes_run self now assignment_id a resource arrival
                 request G S R A D Q).
      reflexivity.
    + left. rewrite (advance_found _ _ _ G R), S. apply Tail.
      unfold complete_after_dwell. rewrite A, D.
      apply steps_ret. exact kept_refl.
  - left. rewrite (advance_found _ _ _ G R), S. apply Tail.
    unfold complete_after_dwell. rewrite A.
    apply steps_ret. exact kept_refl.
Qed.

Lemma cancel_keeps_history (assignment_id : string) :
  steps history_kept (cancel_assignment assignment_id).
Proof.
  unfold cancel_assignment.
  apply steps_bind; [exact kept_trans | apply steps_get_self; exact kept_refl |].
  intros self. destruct (dict_get assignment_id (assignments self));
    repeat first
      [ apply steps_ret; exact kept_refl
      | apply kept_mutate
      | apply kept_discovery_update
      | apply steps_bind; [exact kept_trans | | intros ?] ].
Qed.

Lemma recorded_same (self self' : DispatchFulfillmentService) :
  fulfillment_history self' = fulfillment_history self ->
  (forall k a,
     dict_get k (assignments self) = Some a ->
     DispatchAssignment.status a = DispatchStatus.COMPLETED
     \/ DispatchAssignment.status a = DispatchStatus.CANCELLED ->
     exists a',
       dict_get k (assignments self') = Some a'
       /\ (DispatchAssignment.status a' = DispatchStatus.COMPLETED
           \/ DispatchAssignment.status a' = DispatchStatus.CANCELLED)) ->
  recorded self -> recorded self'.
Proof.
  intros E H [N P]. unfold recorded. rewrite E. split; [exact N |].
  intros h Hin. destruct (P h Hin) as (S & T & a & G & F).
  split; [exact S |]. split; [exact T |]. exact (H _ _ G F).
Qed.

Section HistoryFacts.
Variable distance_to : Location -> Location -> Res float.

Lemma call_recorded (c : Call) (self : DispatchFulfillmentService) :
  consistent self -> fresh_call c self -> recorded self ->
  recorded (run_call distance_to c self).
Proof.
  intros C F Rec.
  destruct c as [resource | rid st l
                 | uuid now requester location rtype priority requirements
                   description deadline
                 | [uuid now1 now2 request_id resource_id
                    | now assignment_id | assignment_id]];
    cbn [run_call run_operation fresh_call fresh] in *.
  - exact Rec.
  - exact Rec.
  - exact Rec.
  - destruct (assign_resource_cases distance_to self uuid now1 now2 request_id
                resource_id)
      as [[E _] | (request & rid & resource & distance & travel & route & _ & _ & _
                   & _ & _ & _ & _ & E)];
      rewrite E; [exact Rec |].
    cbn [snd]. apply (@recorded_same self); [reflexivity | | exact Rec].
    cbn [assignments]. intros k a G S. exists a. split; [| exact S].
    rewrite dict_set_other; [exact G |]. intros ->. congruence.
  - destruct (@advance_records self now assignment_id C)
      as [E | (a & resource & request & G & S & E)].
    + apply (@recorded_same self); [exact E | | exact Rec].
      intros k a0 G0 S0.
      destruct (dict_get assignment_id (assignments self)) as [a |] eqn:G.
      * destruct (advance_within now assignment_id self G) as [H1 (a' & G' & H2)].
        destruct (String.eqb k assignment_id) eqn:Ek.
        -- apply String.eqb_eq in Ek. subst k.
           assert (a0 = a) by congruence. subst a0.
           exists a'. split; [exact G' |].
           destruct S0 as [S0 | S0]; rewrite S0 in H2; simpl in H2;
             destruct H2 as [-> | ->]; auto.
        -- exists a0. split; [| exact S0].
           rewrite H1; [exact G0 |]. apply String.eqb_neq. exact Ek.
      * rewrite advance_unknown by exact G. eauto.
    + rewrite E. destruct Rec as [N P].
      assert (New : forall h, In h (fulfillment_history self) ->
                DispatchAssignment.assignment_id (f_assignment h)
                <> assignment_id).
      { intros h Hin Eq. destruct (P h Hin) as (_ & _ & a0 & G0 & S0).
        rewrite Eq, G in G0. injection G0 as <-.
        rewrite S in S0. destruct S0; discriminate. }
      destruct (proj2 C _ _ G) as (Eid & _).
      unfold recorded. cbn [fulfillment_history assignments]. split.
      * rewrite map_app. cbn [map f_assignment DispatchAssignment.assignment_id
                              DispatchAssignment.append_update
                              DispatchAssignment.set_completion_time
                              DispatchAssignment.set_status].
        rewrite Eid.
        apply NoDup_rev in N. rewrite <- (rev_involutive (_ ++ _)).
        apply NoDup_rev. rewrite rev_app_distr. simpl.
        constructor; [| exact N].
        rewrite <- in_rev. intros Hin. apply in_map_iff in Hin.
        destruct Hin as (h & Eh & Hin). exact (New h Hin Eh).
      * intros h Hin. apply in_app_or in Hin. destruct Hin as [Hin | [<- | []]].
        -- destruct (P h Hin) as (S1 & T1 & a0 & G0 & S0).
           split; [exact S1 |]. split; [exact T1 |]. exists a0.
           split; [| exact S0].
           rewrite dict_set_other; [exact G0 | apply New; exact Hin].
        -- cbn. split; [reflexivity |]. split; [reflexivity |].
           rewrite Eid, dict_get_set_same. eexists. split; [reflexivity |].
           left. reflexivity.
  - apply (@recorded_same self); [apply cancel_keeps_history | | exact Rec].
    intros k a0 G0 S0.
    destruct (dict_get assignment_id (assignments self)) as [a |] eqn:G.
    + rewrite (cancel_assignments _ _ G), dict_get_set.
      destruct (String.eqb k assignment_id); eauto.
    + rewrite cancel_unknown by exact G. eauto.
Qed.

(** X17. The history records completions, each once. From a consistent
    state, across every sequence of calls on the two services: the entries
    of the history are of assignments with different ids, each entry holds
    an assignment that is COMPLETED with the instant of the entry as its
    [completion_time], and the service holds the assignment of this id as
    COMPLETED, or CANCELLED since. *)
Theorem history_records_completions :
  forall (self self' : DispatchFulfillmentService) (cs : list Call),
    consistent self ->
    recorded self ->
    reach distance_to self cs self' ->
    recorded self'.
Proof.
  intros self self' cs C Rec R. revert C Rec.
  induction R as [self | self self' c cs F R IH]; intros C Rec; [exact Rec |].
  apply IH; [apply call_consistent; exact C | apply call_recorded; assumption].
Qed.
End HistoryFacts.

(** ** Discovery, the priority and duplicates *)

Lemma list_sort_ext {A K K' : Type} (lt : K -> K -> bool) (lt' : K' -> K' -> bool)
    (key : A -> K) (key' : A -> K') (l : list A) :
  (forall a b, lt (key a) (key b) = lt' (key' a) (key' b)) ->
  list_sort lt key l = list_sort lt' key' l.
Proof.
  intros H. unfold list_sort. induction l as [| x l IH]; simpl; [reflexivity |].
  rewrite IH. generalize (fold_right (sort_insert lt' key') [] l). intros s.
  induction s as [| y s IHs]; simpl; [reflexivity |].
  rewrite H, IHs. reflexivity.
Qed.

Lemma keyed_ids (d : dict Resource.t) :
  keyed d -> NoDup (map Resource.resource_id (dict_values d)).
Proof.
  intros [N K]. unfold dict_values. rewrite map_map.
  replace (map (fun x => Resource.resource_id (snd x)) d) with (map fst d);
    [exact N |].
  apply map_ext_in. intros [k r] Hin. simpl. symmetry. apply K. exact Hin.
Qed.

Lemma filtered_ids (keep : Resource.t -> bool) (values : list Resource.t) :
  NoDup (map Resource.resource_id values) ->
  NoDup (map Resource.resource_id (filter keep values)).
Proof.
  intros N. induction values as [| r values IH]; simpl; [constructor |].
  simpl in N. apply NoDup_cons_iff in N. destruct N as [Fresh N].
  destruct (keep r); simpl; [| exact (IH N)].
  apply NoDup_cons_iff. split; [| exact (IH N)].
  rewrite in_map_iff. intros (r' & E & Hin).
  apply filter_In in Hin. apply Fresh. rewrite in_map_iff.
  exists r'. tauto.
Qed.

Section DiscoveryShape.
Variable distance_to : Location -> Location -> Res float.

(** X18. The priority of a request has no part in discovery: the sort key
    [(distance, -request.priority)] has the same second component for
    every resource, so [discover_resources] returns the same resources in
    the same order whatever the priority. *)
Theorem discover_ignores_priority :
  forall (self : BeckNDiscoveryService) (request : DispatchRequest.t)
         (max_distance_km : float) (priority : Z),
    discover_resources distance_to self
      (DispatchRequest.mk (DispatchRequest.request_id request)
         (DispatchRequest.requester_id request)
         (DispatchRequest.location request)
         (DispatchRequest.resource_type request) priority
         (DispatchRequest.requirements request)
         (DispatchRequest.description request)
         (DispatchRequest.created_at request)
         (DispatchRequest.deadline request))
      max_distance_km
    = discover_resources distance_to self request max_distance_km.
Proof.
  intros self request max_distance_km priority.
  set (request' := DispatchRequest.mk _ _ _ _ priority _ _ _ _).
  rewrite !discover_resources_eq.
  assert (L : forall values,
             discover_loop distance_to request' max_distance_km values
             = discover_loop distance_to request max_distance_km values).
  { induction values as [| r values IH]; simpl; [reflexivity |].
    rewrite IH. reflexivity. }
  rewrite L.
  destruct (discover_loop _ _ _ _) as [found | e]; simpl; [| reflexivity].
  f_equal. apply list_sort_ext. intros a b.
  rewrite !tuple_lt_key_of. reflexivity.
Qed.

(** X19. On a keyed registry [discover_resources] returns no resource
    twice: the ids of the results are different from each other, and there
    are no more results than resources in the registry. *)
Theorem discover_has_no_duplicates :
  forall (self : BeckNDiscoveryService) (request : DispatchRequest.t)
         (max_distance_km : float) (found : list Resource.t),
    keyed (resources self) ->
    discover_resources distance_to self request max_distance_km = Ok found ->
    NoDup (map Resource.resource_id found)
    /\ NoDup found
    /\ (List.length found <= List.length (resources self))%nat.
Proof.
  intros self request max_distance_km found K H.
  rewrite discover_resources_eq in H.
  destruct (discover_loop _ _ _ _) as [c | e] eqn:L; simpl in H;
    [| discriminate].
  injection H as <-. apply discover_loop_ok in L. subst c.
  set (kept := filter _ _).
  assert (P : Permutation (list_sort tuple_lt (key_of distance_to request) kept)
                          kept) by apply list_sort_perm.
  assert (N : NoDup (map Resource.resource_id kept))
    by (apply filtered_ids, keyed_ids; exact K).
  assert (N' : NoDup (map Resource.resource_id
                        (list_sort tuple_lt (key_of distance_to request)
                                   kept))).
  { eapply Permutation_NoDup; [| exact N].
    apply Permutation_map. apply Permutation_sym. exact P. }
  split; [exact N' |]. split.
  - eapply NoDup_map_inv. exact N'.
  - rewrite (Permutation_length P). subst kept.
    etransitivity; [apply filter_length_le |].
    unfold dict_values. rewrite length_map. apply Nat.le_refl.
Qed.
End DiscoveryShape.

(** ** Cancelling twice *)

(** X20. Cancelling twice is cancelling once: a second
    [cancel_assignment] of the same id returns what the first returned
    and leaves the state the first left. *)
Theorem cancel_is_idempotent :
  forall (self : DispatchFulfillmentService) (assignment_id : string),
    cancel_assignment assignment_id
      (snd (cancel_assignment assignment_id self))
    = cancel_assignment assignment_id self.
Proof.
  intros self assignment_id.
  destruct (dict_get assignment_id (assignments self)) as [a |] eqn:G.
  - unfold cancel_assignment at 2 3. unfold bind, get_self, ret. rewrite G.
    rewrite (run_mutate_assignment _ _ _ G).
    unfold discovery_update_resource_status, update_resource_status.
    run_fields.
    destruct (dict_get (DispatchAssignment.resource_id a)
                       (resources (discovery_service self))) as [r |] eqn:R;
      cbn [fst snd];
      unfold cancel_assignment, bind, get_self, ret; run_fields;
      rewrite dict_get_set_same;
      unfold mutate_assignment; run_fields;
      rewrite dict_get_set_same, dict_set_set;
      unfold discovery_update_resource_status, update_resource_status;
      run_fields.
    + rewrite dict_get_set_same, dict_set_set. reflexivity.
    + cbn [DispatchAssignment.resource_id DispatchAssignment.set_status].
      rewrite R. reflexivity.
  - rewrite (cancel_unknown _ _ G). cbn [snd].
    apply cancel_unknown. exact G.
Qed.

(** ** What a poll returns *)

Lemma returns_read {A B : Type} (m : M A)
    (read : DispatchFulfillmentService -> B) (self : DispatchFulfillmentService)
    (result : B) :
  fst (bind m (fun _ => bind get_self (fun self' => ret (read self'))) self)
  = Ok result ->
  result
  = read (snd (bind m (fun _ => bind get_self (fun self' => ret (read self')))
                    self)).
Proof.
  unfold bind, get_self, ret. destruct (m self) as [[u | e] s1]; cbn [fst snd].
  - intros [= <-]. reflexivity.
  - discriminate.
Qed.

Lemma advance_returns_stored (self : DispatchFulfillmentService) (now : datetime)
    (assignment_id : string) (result : option DispatchAssignment.t) :
  fst (update_assignment_progress now assignment_id self) = Ok result ->
  result
  = dict_get assignment_id
      (assignments (snd (update_assignment_progress now assignment_id self))).
Proof.
  destruct (dict_get assignment_id (assignments self)) as [a |] eqn:G.
  - destruct (dict_get (DispatchAssignment.resource_id a)
                       (resources (discovery_service self))) as [r |] eqn:R.
    + rewrite (advance_found _ _ _ G R).
      exact (@returns_read _ _ _
               (fun s => dict_get assignment_id (assignments s)) self result).
    + unfold update_assignment_progress, bind, get_self, lift, dict_getitem.
      rewrite G, R. discriminate.
  - rewrite (advance_unknown _ _ _ G). cbn [fst snd]. intros [= <-].
    symmetry. exact G.
Qed.

(** X21. What a poll returns is what the service holds after it: when
    [update_assignment_progress] returns, it returns the assignment stored
    under the id after the call, [None] exactly for an unknown id, and
    never an assignment in state ASSIGNED (the first poll dispatches
    it). *)
Theorem polled_assignment_is_not_assigned :
  forall (self : DispatchFulfillmentService) (now : datetime)
         (assignment_id : string) (result : option DispatchAssignment.t),
    fst (update_assignment_progress now assignment_id self) = Ok result ->
    result
    = dict_get assignment_id
        (assignments (snd (update_assignment_progress now assignment_id self)))
    /\ (result = None <-> dict_get assignment_id (assignments self) = None)
    /\ forall a',
         result = Some a' ->
         DispatchAssignment.status a' <> DispatchStatus.ASSIGNED.
Proof.
  intros self now assignment_id result H.
  pose proof (advance_returns_stored _ _ _ H) as E.
  split; [exact E |].
  destruct (dict_get assignment_id (assignments self)) as [a |] eqn:G.
  - destruct (advance_within now assignment_id self G) as [_ (a1 & G1 & S1)].
    rewrite G1 in E. subst result. split; [split; discriminate |].
    intros a' [= <-] S.
    destruct (DispatchAssignment.status a) eqn:Sa; simpl in S1;
      try (destruct S1 as [S1 | S1]; rewrite S1 in S; discriminate).
    destruct (dict_get (DispatchAssignment.resource_id a)
                       (resources (discovery_service self))) as [r |] eqn:R.
    + rewrite (advance_assigned_run _ now _ G Sa R) in G1. cbn in G1.
      rewrite dict_get_set_same in G1. injection G1 as <-. discriminate S.
    + revert H. unfold update_assignment_progress, bind, get_self, lift,
        dict_getitem. rewrite G, R. discriminate.
  - rewrite (advance_unknown _ _ _ G) in H. cbn in H. injection H as <-.
    split; [tauto | discriminate].
Qed.

(* ================================================================== *)
(** * The services at work *)

Import Demo.
Local Open Scope string_scope.

(** The theorem on discovery, on the demonstration registry. *)
Lemma discover_demo :
  well_shaped (DispatchRequest.requirements request)
  /\ is_nan (50 * 1000)%float = false
  /\ (forall r, In r (dict_values (resources registry)) ->
                candidate request r ->
                is_nan (distance_of equatorial_distance request r) = false)
  /\ exists found,
       discover_resources equatorial_distance registry request 50 = Ok found
       /\ (forall r, In r found <->
                     In r (dict_values (resources registry))
                     /\ eligible equatorial_distance request 50 r)
       /\ (exists keep,
             (forall r, In r (dict_values (resources registry)) ->
                        (keep r = true
                         <-> eligible equatorial_distance request 50 r))
             /\ Permutation found (filter keep (dict_values (resources registry))))
       /\ StronglySorted (by_distance equatorial_distance request) found.
Proof.
  assert (W : well_shaped (DispatchRequest.requirements request)).
  { intros v [H | [H | [H | []]]]; inversion H. eexists. split; [reflexivity |].
    intros k t [[= <- <-] | []]. exact I. }
  assert (Nb : is_nan (50 * 1000)%float = false) by reflexivity.
  assert (Nd : forall r, In r (dict_values (resources registry)) ->
                 candidate request r ->
                 is_nan (distance_of equatorial_distance request r) = false).
  { intros r [<- | [<- | [<- | [<- | [<- | []]]]]] _; reflexivity. }
  exact (conj W (conj Nb (conj Nd
           (proj1 (@discover_returns_eligible_sorted equatorial_distance
                     request 50 registry W Nb) Nd)))).
Defined.

(** Against C1 as stated. The drone whose position is not known is at a
    NaN distance from the request: it is returned within a radius of 0 km,
    though its distance is not at most 0 meters. With a radius that is a
    NaN no resource is too far: the drone D4, more than 100 km away, is
    returned. And with the threshold "5", a string, discovery returns
    nothing: it raises [TypeError]. *)
Lemma discover_beyond_radius :
  discover_resources equatorial_distance lost_registry request_at_base 0
  = Ok [lost]
  /\ (distance_of equatorial_distance request_at_base lost <=? 0 * 1000)%float
     = false
  /\ ~ eligible equatorial_distance request_at_base 0 lost
  /\ discover_resources equatorial_distance registry request nan
     = Ok [d2; d1; d4]
  /\ (100000 <? distance_of equatorial_distance request d4)%float = true
  /\ ~ eligible equatorial_distance request nan d4
  /\ discover_resources equatorial_distance registry quoted 50
     = Raise TypeError.
Proof.
  split; [vm_compute; reflexivity |].
  split; [vm_compute; reflexivity |].
  split; [intros (_ & _ & H & _); vm_compute in H; discriminate H |].
  split; [vm_compute; reflexivity |].
  split; [vm_compute; reflexivity |].
  split; [intros (_ & _ & H & _); vm_compute in H; discriminate H |].
  vm_compute. reflexivity.
Qed.

Example discover_demo_result :
  discover_resources equatorial_distance registry request 50 = Ok [d2; d1].
Proof. vm_compute. reflexivity. Qed.



(** Against C4 as stated: at about 14 km the quotient is 2.8, which rounds
    to 3 and truncates to 2; the route has 3 points, not 4. *)
Lemma route_count_is_truncated :
  exists route,
    _generate_route equatorial_distance origin far_site = Ok route
    /\ Z.of_nat (List.length route) = 3
    /\ spec_waypoint_count (equatorial_meters origin far_site) + 1 = 4.
Proof. eexists. split; [vm_compute; reflexivity |]. split; reflexivity. Qed.



(** C3. The code at two polls of an assignment in state DISPATCHED, against
    [progress = clamp(elapsed / total, 0, 1)]. An assignment whose resource
    is at the place of the request, created with both readings of the
    clock equal, has [estimated_arrival = assigned_at]: its total time is
    zero, the poll raises [ZeroDivisionError] and nothing changes. And at a
    poll at an instant 200 s before [assigned_at], where the clamped
    progress is 0 and points at the first point of the route, the location
    becomes the last point of the route and the event carries -59. *)
Lemma advance_dispatched_differs :
  (exists a,
     dict_get "A0" (assignments dispatched_at_base) = Some a
     /\ DispatchAssignment.status a = DispatchStatus.DISPATCHED
     /\ DispatchAssignment.assigned_at a = 5
     /\ DispatchAssignment.estimated_arrival a = Some 5
     /\ update_assignment_progress 7 "A0" dispatched_at_base
        = (Raise ZeroDivisionError, dispatched_at_base))
  /\ (exists a a',
        dict_get "A1" (assignments dispatched) = Some a
        /\ DispatchAssignment.status a = DispatchStatus.DISPATCHED
        /\ DispatchAssignment.assigned_at a = 0
        /\ DispatchAssignment.estimated_arrival a = Some 333584780
        /\ fst (update_assignment_progress (-200000000) "A1" dispatched)
           = Ok (Some a')
        /\ spec_progress (-200000000) 0 333584780 = 0%float
        /\ Py.getitem (DispatchAssignment.route a) 0 = Ok origin
        /\ DispatchAssignment.current_location a' = Some site
        /\ Some site <> Some origin
        /\ option_map progress_percentage
             (nth_error (DispatchAssignment.progress_updates a') 1)
           = Some (Some (-59))).
Proof.
  split.
  - eexists. split; [reflexivity |]. repeat split.
  - do 2 eexists. split; [reflexivity |].
    split; [reflexivity |]. split; [reflexivity |]. split; [reflexivity |].
    split; [vm_compute; reflexivity |].
    split; [vm_compute; reflexivity |].
    split; [reflexivity |]. split; [reflexivity |].
    split; [discriminate | reflexivity].
Qed.


Lemma run_all_is_run (ops : list Operation) (self : DispatchFulfillmentService) :
  all_fresh ops self -> run equatorial_distance self ops (run_all ops self).
Proof.
  revert self. induction ops as [| op ops IH]; simpl; intros self F.
  - apply run_nil.
  - destruct F as [F1 F2]. apply run_cons; [exact F1 | apply IH; exact F2].
Qed.

(** The theorem on finished assignments, for A1 completed and two more polls. *)
Lemma poll_completed_demo :
  exists a,
    dict_get "A1" (assignments completed) = Some a
    /\ DispatchAssignment.status a = DispatchStatus.COMPLETED
    /\ snd (poll [700000000; 800000000] "A1" completed) = completed
    /\ fst (poll [700000000; 800000000] "A1" completed)
       = [Ok (Some a); Ok (Some a)].
Proof.
  eexists. split; [reflexivity |]. split; [reflexivity |].
  destruct (@advance_terminal_is_noop completed "A1" _ eq_refl
              (or_introl eq_refl) [700000000; 800000000]) as [H1 H2].
  split; [exact H1 | exact (H2 _ eq_refl)].
Defined.

(** Against C5 as stated: A1, completed by [mission], is CANCELLED after a
    cancellation; its status changed after COMPLETED. *)
Lemma completed_then_cancelled :
  run equatorial_distance service0 mission completed
  /\ option_map DispatchAssignment.status
       (dict_get "A1" (assignments completed))
     = Some DispatchStatus.COMPLETED
  /\ option_map DispatchAssignment.status
       (dict_get "A1"
          (assignments
             (run_operation equatorial_distance (Cancel "A1") completed)))
     = Some DispatchStatus.CANCELLED.
Proof.
  split; [| split; vm_compute; reflexivity].
  assert (E : run_all mission service0 = completed) by (vm_compute; reflexivity).
  rewrite <- E. apply run_all_is_run. vm_compute. repeat split.
Qed.

(** The theorem on the lifecycle, from A1 assigned to A1 cancelled. *)
Lemma lifecycle_demo :
  run equatorial_distance assigned polls_then_cancel cancelled
  /\ exists a a',
       dict_get "A1" (assignments assigned) = Some a
       /\ DispatchAssignment.status a = DispatchStatus.ASSIGNED
       /\ dict_get "A1" (assignments cancelled) = Some a'
       /\ DispatchAssignment.status a' = DispatchStatus.CANCELLED
       /\ forward (DispatchAssignment.status a) (DispatchAssignment.status a').
Proof.
  assert (R : run equatorial_distance assigned polls_then_cancel cancelled).
  { assert (E : run_all polls_then_cancel assigned = cancelled)
      by (vm_compute; reflexivity).
    rewrite <- E. apply run_all_is_run. vm_compute. repeat split. }
  split; [exact R |].
  eexists.
  destruct (@lifecycle_moves_forward equatorial_distance assigned cancelled
              polls_then_cancel R "A1" _ eq_refl) as (a' & G' & F & _).
  exists a'. split; [reflexivity |]. split; [reflexivity |].
  split; [exact G' |]. split; [| exact F].
  cbn in G'. injection G' as <-. reflexivity.
Defined.

(** The theorem on cancellation, for A1 once completed: it becomes
    CANCELLED and the drone is AVAILABLE; and for an id that is unknown. *)
Lemma cancel_completed_demo :
  (exists self' a' r',
     cancel_assignment "A1" completed = (Ok true, self')
     /\ dict_get "A1" (assignments self') = Some a'
     /\ DispatchAssignment.status a' = DispatchStatus.CANCELLED
     /\ dict_get "D1" (resources (discovery_service self')) = Some r'
     /\ Resource.status r' = ResourceStatus.AVAILABLE)
  /\ cancel_assignment "A9" completed = (Ok false, completed).
Proof.
  split.
  - destruct (cancel_assignment_spec completed "A1") as [_ H].
    destruct (dict_get "A1" (assignments completed)) as [a |] eqn:G;
      [| discriminate G].
    vm_compute in G. injection G as <-.
    destruct H as (self' & a' & E & G' & S & _ & R & _).
    cbn [DispatchAssignment.resource_id] in R.
    edestruct R as (r' & Gr & Sr & _); [vm_compute; reflexivity |].
    exists self', a', r'. auto.
  - exact (proj2 (cancel_assignment_spec completed "A9")).
Defined.

(** Against C7 as stated. An unknown request, no resource within reach, an
    unknown resource and a resource that is taken are four failures for
    the specification and one result for the code, [None]: nothing in what
    [assign_resource] returns tells one from the other. *)
Lemma assign_failures_look_alike :
  spec_failure equatorial_distance service0 "R9" None = Some RequestNotFound
  /\ spec_failure equatorial_distance dispatched "R1" None
     = Some NoResourcesFound
  /\ spec_failure equatorial_distance service0 "R1" (Some "D9")
     = Some ResourceNotFound
  /\ spec_failure equatorial_distance dispatched "R1" (Some "D1")
     = Some ResourceUnavailable
  /\ assign_resource equatorial_distance "A2" 0 0 "R9" None service0
     = (Ok None, service0)
  /\ assign_resource equatorial_distance "A2" 0 0 "R1" None dispatched
     = (Ok None, dispatched)
  /\ assign_resource equatorial_distance "A2" 0 0 "R1" (Some "D9") service0
     = (Ok None, service0)
  /\ assign_resource equatorial_distance "A2" 0 0 "R1" (Some "D1") dispatched
     = (Ok None, dispatched)
  /\ ~ (exists report : Res (option DispatchAssignment.t) -> AssignFailure,
          report (fst (assign_resource equatorial_distance "A2" 0 0 "R9" None
                                       service0))
          = RequestNotFound
          /\ report (fst (assign_resource equatorial_distance "A2" 0 0 "R1"
                                          (Some "D9") service0))
             = ResourceNotFound).
Proof.
  repeat (split; [vm_compute; reflexivity |]).
  intros (report & H1 & H2).
  assert (E : fst (assign_resource equatorial_distance "A2" 0 0 "R9" None
                                   service0)
              = fst (assign_resource equatorial_distance "A2" 0 0 "R1"
                                     (Some "D9") service0))
    by (vm_compute; reflexivity).
  rewrite E, H2 in H1. discriminate H1.
Qed.

(** The theorem on failures, for the request id R9, which is unknown, and
    for the drone D1 once it is taken; and the empty id read as no id. *)
Lemma assign_failures_demo :
  spec_failure equatorial_distance service0 "R9" None = Some RequestNotFound
  /\ assign_resource equatorial_distance "A2" 0 0 "R9" None service0
     = (Ok None, service0)
  /\ spec_failure equatorial_distance dispatched "R1" (Some "D1")
     = Some ResourceUnavailable
  /\ assign_resource equatorial_distance "A2" 0 0 "R1" (Some "D1") dispatched
     = (Ok None, dispatched).
Proof.
  assert (F1 : spec_failure equatorial_distance service0 "R9" None
               = Some RequestNotFound) by reflexivity.
  assert (F2 : spec_failure equatorial_distance dispatched "R1" (Some "D1")
               = Some ResourceUnavailable) by (vm_compute; reflexivity).
  split; [exact F1 |].
  split; [exact (proj1 (@assign_resource_failures equatorial_distance service0
                          "A2" 0 0 "R9" None) RequestNotFound F1) |].
  split; [exact F2 |].
  exact (proj1 (@assign_resource_failures equatorial_distance dispatched
                  "A2" 0 0 "R1" (Some "D1")) ResourceUnavailable F2).
Defined.

Example empty_id_is_no_id :
  assign_resource equatorial_distance "A1" 0 0 "R1" (Some "") service0
  = assign_resource equatorial_distance "A1" 0 0 "R1" None service0.
Proof. vm_compute. reflexivity. Qed.

(** A requirement under a key that is not looked at. *)
Example unrecognized_key_demo :
  _meets_requirements team [("note", VStr "night flight"); ("crew", VList [])]
  = Ok true.
Proof. reflexivity. Qed.

Example float_of_int_5003 : Py.float_of_int 5003 = 5003%float.
Proof. vm_compute. reflexivity. Qed.

Example int_truncates :
  Py.int 2.8%float = Ok 2 /\ Py.int (-1.2)%float = Ok (-1)
  /\ Py.int nan = Raise ValueError /\ Py.int infinity = Raise OverflowError.
Proof. vm_compute. repeat split. Qed.

Example timedelta_of_travel_time :
  Timedelta.of_seconds (5003 / 15)%float = Ok 333533333
  /\ Timedelta.of_seconds nan = Raise ValueError
  /\ Timedelta.of_seconds infinity = Raise OverflowError.
Proof. vm_compute. repeat split. Qed.

Example total_seconds_of_167s : Timedelta.total_seconds 167000000 = 167%float.
Proof. vm_compute. reflexivity. Qed.

(** The quotient of the integers is rounded once: 2^53 + 1 microseconds
    are not the seconds of 2^53 microseconds, though the two integers round
    to the same float. *)
Example total_seconds_is_exact :
  Timedelta.total_seconds (2 ^ 53 + 1) = 9007199254.740993%float
  /\ Timedelta.total_seconds (2 ^ 53) = 9007199254.740992%float
  /\ Py.float_of_int (2 ^ 53 + 1) = Py.float_of_int (2 ^ 53)
  /\ Timedelta.total_seconds (-200000000) = (-200)%float
  /\ Timedelta.total_seconds 0 = 0%float.
Proof. vm_compute. repeat split. Qed.

(** An [int] and a [float] are compared by their values. *)
Example int_lt_float_is_exact :
  Py.int_lt_float (2 ^ 53 + 1) 9007199254740992%float = false
  /\ Py.int_lt_float (2 ^ 53) 9007199254740994%float = true
  /\ Py.int_lt_float 5 5.5%float = true
  /\ Py.int_lt_float 6 5.5%float = false
  /\ Py.int_lt_float (-1) (-0.5)%float = true
  /\ Py.int_lt_float 5 nan = false
  /\ Py.int_lt_float 5 infinity = true
  /\ Py.int_lt_float 5 neg_infinity = false.
Proof. vm_compute. repeat split. Qed.

(** Thresholds of a "min_capacity" requirement against 10 kg of cargo. *)
Example thresholds_demo :
  _meets_requirements d1 [("min_capacity", VDict [("cargo_kg", VInt 10)])]
  = Ok true
  /\ _meets_requirements d1 [("min_capacity", VDict [("cargo_kg", VFloat 10.5)])]
     = Ok false
  /\ _meets_requirements d1 [("min_capacity", VDict [("cargo_kg", VBool true)])]
     = Ok true
  /\ _meets_requirements d1 [("min_capacity", VDict [("cargo_kg", VStr "5")])]
     = Raise TypeError
  /\ _meets_requirements d1 [("min_capacity", VDict [("cargo_kg", VNone)])]
     = Raise TypeError
  /\ _meets_requirements d1 [("min_capacity", VDict [("seats", VStr "5")])]
     = Ok false
  /\ _meets_requirements d1 [("min_capacity", VList [])]
     = Raise AttributeError
  /\ _meets_requirements d1 [("capabilities", VInt 3)] = Ok false
  /\ _meets_requirements d1 [("capabilities", VStr "search_rescue")] = Ok true.
Proof. vm_compute. repeat split. Qed.

(* ================================================================== *)
(** * The services at work, further *)

Import Scenario.

Ltac keyed_registry :=
  split;
  [ repeat (constructor; [simpl; intuition discriminate |]); constructor
  | intros k r H; simpl in H;
    repeat (destruct H as [H | H]; [injection H as <- <-; reflexivity |]);
    destruct H ].

Ltac consistent_state :=
  split;
  [ keyed_registry
  | intros k a H; simpl in H;
    repeat match type of H with
           | (if ?c then _ else _) = _ =>
               destruct c eqn:?;
               [ injection H as <-; match goal with
                                    | E : String.eqb _ _ = true |- _ =>
                                        apply String.eqb_eq in E; subst
                                    end;
                 split; [reflexivity | split; eexists; reflexivity]
               | ]
           end;
    try discriminate H ].

(** The first poll of A1, 42 microseconds after its assignment: A1 is
    DISPATCHED and the drone D1 is EN_ROUTE. *)
Lemma first_poll_demo :
  dict_get "A1" (assignments assigned) = Some a1_assigned
  /\ DispatchAssignment.status a1_assigned = DispatchStatus.ASSIGNED
  /\ dict_get "D1" (resources (discovery_service assigned))
     = Some (drone "D1" origin ResourceStatus.DISPATCHED)
  /\ update_assignment_progress 42 "A1" assigned
     = (Ok (Some
              (DispatchAssignment.mk "A1" "R1" "D1" DispatchStatus.DISPATCHED 0
                 (Some 333584780) None None
                 [origin; mkLocation 0 0.0225 None; site] (Some origin)
                 [mkProgressUpdate 42 "dispatched"
                    "Emergency Drone D1 has been dispatched" None])),
        mkFulfillmentService
          (mkDiscovery [("D1", drone "D1" origin ResourceStatus.EN_ROUTE)])
          [("R1", request); ("R0", request_at_base)]
          [("A1",
            DispatchAssignment.mk "A1" "R1" "D1" DispatchStatus.DISPATCHED 0
              (Some 333584780) None None
              [origin; mkLocation 0 0.0225 None; site] (Some origin)
              [mkProgressUpdate 42 "dispatched"
                 "Emergency Drone D1 has been dispatched" None])]
          []).
Proof.
  assert (G : dict_get "A1" (assignments assigned) = Some a1_assigned)
    by (vm_compute; reflexivity).
  assert (S : DispatchAssignment.status a1_assigned = DispatchStatus.ASSIGNED)
    by reflexivity.
  assert (R : dict_get (DispatchAssignment.resource_id a1_assigned)
                       (resources (discovery_service assigned))
              = Some (drone "D1" origin ResourceStatus.DISPATCHED))
    by (vm_compute; reflexivity).
  repeat (split; [assumption |]).
  exact (proj1 (@advance_assigned assigned "A1" a1_assigned
                  (drone "D1" origin ResourceStatus.DISPATCHED) G S R 42)).
Defined.

(** A1, arrived at 335 s: a poll at 635 s, 300 s later, changes nothing; a
    poll at 636 s completes the assignment, records it and frees the
    drone. *)
Lemma dwell_demo :
  exists resource,
    dict_get "A1" (assignments arrived) = Some a1_arrived
    /\ DispatchAssignment.status a1_arrived = DispatchStatus.IN_PROGRESS
    /\ dict_get "D1" (resources (discovery_service arrived)) = Some resource
    /\ update_assignment_progress 635000000 "A1" arrived
       = (Ok (Some a1_arrived), arrived)
    /\ option_map DispatchAssignment.status
         (dict_get "A1"
            (assignments (snd (update_assignment_progress 636000000 "A1"
                                                          arrived))))
       = Some DispatchStatus.COMPLETED
    /\ option_map Resource.status
         (dict_get "D1"
            (resources
               (discovery_service
                  (snd (update_assignment_progress 636000000 "A1" arrived)))))
       = Some ResourceStatus.AVAILABLE
    /\ map (fun h => Resource.status (f_resource h))
           (fulfillment_history
              (snd (update_assignment_progress 636000000 "A1" arrived)))
       = [ResourceStatus.COMPLETED].
Proof.
  eexists.
  assert (G : dict_get "A1" (assignments arrived) = Some a1_arrived)
    by (vm_compute; reflexivity).
  assert (S : DispatchAssignment.status a1_arrived = DispatchStatus.IN_PROGRESS)
    by reflexivity.
  split; [exact G |]. split; [exact S |]. split; [vm_compute; reflexivity |].
  split.
  - destruct (@advance_in_progress arrived 635000000 "A1" a1_arrived _ G S
                eq_refl) as [_ H].
    destruct (H 335000000 eq_refl) as [H' _]. exact (H' eq_refl).
  - destruct (@advance_in_progress arrived 636000000 "A1" a1_arrived _ G S
                eq_refl) as [_ H].
    destruct (H 335000000 eq_refl) as [_ H'].
    rewrite (H' eq_refl request eq_refl).
    vm_compute. repeat split.
Defined.

Lemma service0_consistent : consistent service0.
Proof. consistent_state. Qed.

Lemma calls_reach : reach equatorial_distance service0 calls after_calls.
Proof.
  assert (E : run_calls equatorial_distance calls service0 = after_calls)
    by (vm_compute; reflexivity).
  rewrite <- E. apply run_calls_reach. vm_compute. repeat split.
Qed.

(** The references hold after the calls of [calls]. *)
Lemma references_demo :
  consistent service0
  /\ reach equatorial_distance service0 calls after_calls
  /\ consistent after_calls
  /\ forall (now : datetime) (assignment_id : string),
       match dict_get assignment_id (assignments after_calls) with
       | None =>
           get_assignment_status now assignment_id after_calls
           = (Ok None, after_calls)
       | Some a =>
           exists resource request,
             dict_get (DispatchAssignment.resource_id a)
                      (resources (discovery_service after_calls))
             = Some resource
             /\ dict_get (DispatchAssignment.request_id a)
                         (active_requests after_calls) = Some request
             /\ get_assignment_status now assignment_id after_calls
                = (Ok (Some (mkAssignmentStatus a resource request now)),
                   after_calls)
       end.
Proof.
  exact (conj service0_consistent
           (conj calls_reach
              (@calls_keep_references equatorial_distance service0 after_calls
                 calls service0_consistent calls_reach))).
Defined.

(** Nothing of the first state was removed or rewritten by [calls]. *)
Lemma never_rewrite_demo :
  reach equatorial_distance service0 calls after_calls
  /\ evolves service0 after_calls.
Proof.
  exact (conj calls_reach
           (@calls_never_rewrite equatorial_distance service0 after_calls calls
              calls_reach)).
Defined.

Lemma a1_is_assigned :
  assign_resource equatorial_distance "A1" 0 0 "R1" None service0
  = (Ok (Some a1_assigned), assigned).
Proof. vm_compute. reflexivity. Qed.

(** A1 assigned and cancelled at once: the drone D1 is back. *)
Lemma assign_cancel_demo :
  assign_resource equatorial_distance "A1" 0 0 "R1" None service0
  = (Ok (Some a1_assigned), assigned)
  /\ cancel_assignment "A1" assigned
     = (Ok true,
        mkFulfillmentService (discovery_service service0)
          (active_requests service0)
          [("A1",
            DispatchAssignment.mk "A1" "R1" "D1" DispatchStatus.CANCELLED 0
              (Some 333584780) None None
              [origin; mkLocation 0 0.0225 None; site] (Some origin) [])]
          (fulfillment_history service0)).
Proof.
  exact (conj a1_is_assigned
           (@assign_then_cancel_restores equatorial_distance service0 assigned
              "A1" 0 0 "R1" None a1_assigned a1_is_assigned)).
Defined.

(** D1, assigned to A1, is not assigned again for the request R0. *)
Lemma taken_demo :
  assign_resource equatorial_distance "A1" 0 0 "R1" None service0
  = (Ok (Some a1_assigned), assigned)
  /\ (forall resource_id' a',
        fst (assign_resource equatorial_distance "A2" 1 1 "R0" resource_id'
                             assigned) = Ok (Some a') ->
        DispatchAssignment.resource_id a'
        <> DispatchAssignment.resource_id a1_assigned)
  /\ (DispatchAssignment.resource_id a1_assigned <> "" ->
      assign_resource equatorial_distance "A2" 1 1 "R0"
        (Some (DispatchAssignment.resource_id a1_assigned)) assigned
      = (Ok None, assigned)).
Proof.
  exact (conj a1_is_assigned
           (@assigned_resource_is_taken equatorial_distance service0 assigned
              "A1" 0 0 "R1" None a1_assigned a1_is_assigned "A2" 1 1 "R0")).
Defined.

Lemma request_well_shaped : well_shaped (DispatchRequest.requirements request).
Proof.
  intros v [H | [H | [H | []]]]; inversion H. eexists. split; [reflexivity |].
  intros k t [[= <- <-] | []]. exact I.
Qed.

Lemma registry_distances (r : Resource.t) :
  In r (dict_values (resources registry)) ->
  is_nan (distance_of equatorial_distance request r) = false.
Proof. intros [<- | [<- | [<- | [<- | [<- | []]]]]]; reflexivity. Qed.

(** R1 assigned on the whole registry with no resource named: the drone
    D2, about 2.8 km away, is taken, not D1 at 5 km. *)
Lemma nearest_demo :
  Py.truthy None = false
  /\ dict_get "R1" (active_requests service_all) = Some request
  /\ keyed (resources (discovery_service service_all))
  /\ well_shaped (DispatchRequest.requirements request)
  /\ (forall r, In r (dict_values (resources (discovery_service service_all))) ->
                is_nan (distance_of equatorial_distance request r) = false)
  /\ assign_resource equatorial_distance "A1" 0 0 "R1" None service_all
     = (Ok (Some a1_nearest), assigned_nearest)
  /\ DispatchAssignment.resource_id a1_nearest = "D2"
  /\ exists resource,
       dict_get (DispatchAssignment.resource_id a1_nearest)
                (resources (discovery_service service_all)) = Some resource
       /\ eligible equatorial_distance request 50 resource
       /\ forall r,
            In r (dict_values (resources (discovery_service service_all))) ->
            eligible equatorial_distance request 50 r ->
            by_distance equatorial_distance request resource r.
Proof.
  assert (T : Py.truthy None = false) by reflexivity.
  assert (Q : dict_get "R1" (active_requests service_all) = Some request)
    by reflexivity.
  assert (K : keyed (resources (discovery_service service_all)))
    by keyed_registry.
  assert (H : assign_resource equatorial_distance "A1" 0 0 "R1" None service_all
              = (Ok (Some a1_nearest), assigned_nearest))
    by (vm_compute; reflexivity).
  exact (conj T (conj Q (conj K (conj request_well_shaped
           (conj registry_distances (conj H (conj eq_refl
              (@unnamed_resource_is_nearest equatorial_distance service_all
                 assigned_nearest "A1" 0 0 "R1" None request a1_nearest
                 T Q K request_well_shaped registry_distances H)))))))).
Defined.

(** Within 3 km of the request R1 there is the drone D2; within 50 km there
    are D2 and D1. *)
Lemma wider_demo :
  (3 * 1000 <=? 50 * 1000)%float = true
  /\ discover_resources equatorial_distance registry request 3 = Ok [d2]
  /\ discover_resources equatorial_distance registry request 50 = Ok [d2; d1]
  /\ forall r, In r [d2] -> In r [d2; d1].
Proof.
  assert (L : (3 * 1000 <=? 50 * 1000)%float = true) by reflexivity.
  assert (H : discover_resources equatorial_distance registry request 3
              = Ok [d2]) by (vm_compute; reflexivity).
  assert (H' : discover_resources equatorial_distance registry request 50
               = Ok [d2; d1]) by (vm_compute; reflexivity).
  exact (conj L (conj H (conj H'
           (@wider_radius_finds_more equatorial_distance registry request 3 50
              [d2] [d2; d1] L H H')))).
Defined.

(** A1 from its assignment to its arrival. *)
Lemma arrives_demo :
  assign_resource equatorial_distance "A1" 0 0 "R1" None service0
  = (Ok (Some a1_assigned), assigned)
  /\ exists request estimated_arrival start,
       dict_get "R1" (active_requests service0) = Some request
       /\ DispatchAssignment.estimated_arrival a1_assigned
          = Some estimated_arrival
       /\ DispatchAssignment.current_location a1_assigned = Some start
       /\ Py.getitem (DispatchAssignment.route a1_assigned) 0 = Ok start
       /\ Py.getitem (DispatchAssignment.route a1_assigned) (-1)
          = Ok (DispatchRequest.location request)
       /\ forall first_poll now : datetime,
            let self2 :=
              snd (update_assignment_progress first_poll "A1" assigned) in
            let total := Timedelta.total_seconds (estimated_arrival - 0) in
            let elapsed := Timedelta.total_seconds (now - 0) in
            (total =? 0)%float = false ->
            (1.0 <=? Py.min 1.0 (elapsed / total))%float = true ->
            exists a3 self3 r3,
              update_assignment_progress now "A1" self2 = (Ok (Some a3), self3)
              /\ DispatchAssignment.status a3 = DispatchStatus.IN_PROGRESS
              /\ DispatchAssignment.actual_arrival a3 = Some now
              /\ DispatchAssignment.current_location a3
                 = Some (DispatchRequest.location request)
              /\ dict_get (DispatchAssignment.resource_id a1_assigned)
                          (resources (discovery_service self3)) = Some r3
              /\ Resource.status r3 = ResourceStatus.ARRIVED
              /\ Resource.location r3 = DispatchRequest.location request.
Proof.
  exact (conj a1_is_assigned
           (@assigned_resource_arrives equatorial_distance service0 assigned
              "A1" 0 0 "R1" None a1_assigned a1_is_assigned)).
Defined.

Lemma dispatched_at_base_consistent : consistent dispatched_at_base.
Proof. consistent_state. Qed.

(** The poll of A0, whose total time is zero, raises: an assignment in
    state DISPATCHED, and a division by zero. *)
Lemma poll_raises_demo :
  exists a,
    consistent dispatched_at_base
    /\ dict_get "A0" (assignments dispatched_at_base) = Some a
    /\ fst (update_assignment_progress 7 "A0" dispatched_at_base)
       = Raise ZeroDivisionError
    /\ DispatchAssignment.status a = DispatchStatus.DISPATCHED
    /\ en_route_error ZeroDivisionError.
Proof.
  eexists.
  assert (H : fst (update_assignment_progress 7 "A0" dispatched_at_base)
              = Raise ZeroDivisionError) by (vm_compute; reflexivity).
  exact (conj dispatched_at_base_consistent (conj eq_refl (conj H
           (@advance_raises_only_en_route dispatched_at_base "A0" _
              dispatched_at_base_consistent eq_refl 7 ZeroDivisionError H)))).
Defined.

(** A request whose "min_capacity" is the string "10": assigning with no
    resource named raises, and nothing changes. *)
Lemma assign_raises_demo :
  fst (assign_resource equatorial_distance "A1" 0 0 "R3" None service_malformed)
  = Raise AttributeError
  /\ snd (assign_resource equatorial_distance "A1" 0 0 "R3" None
                          service_malformed)
     = service_malformed
  /\ exists request,
       dict_get "R3" (active_requests service_malformed) = Some request
       /\ (((AttributeError = AttributeError \/ AttributeError = TypeError)
            /\ Py.truthy None = false
            /\ ~ well_shaped (DispatchRequest.requirements request))
           \/ (exists r,
                 In r (dict_values
                         (resources (discovery_service service_malformed)))
                 /\ equatorial_distance (Resource.location r)
                                        (DispatchRequest.location request)
                    = Raise AttributeError)
           \/ (exists r distance,
                 In r (dict_values
                         (resources (discovery_service service_malformed)))
                 /\ Resource.status r = ResourceStatus.AVAILABLE
                 /\ equatorial_distance (Resource.location r)
                                        (DispatchRequest.location request)
                    = Ok distance
                 /\ (AttributeError = ValueError
                     \/ AttributeError = OverflowError)
                 /\ (Timedelta.of_seconds
                       (distance
                        / _get_resource_speed (Resource.resource_type r))%float
                     = Raise AttributeError
                     \/ Py.int (distance / 5000)%float
                        = Raise AttributeError))).
Proof.
  assert (H : fst (assign_resource equatorial_distance "A1" 0 0 "R3" None
                                   service_malformed)
              = Raise AttributeError) by (vm_compute; reflexivity).
  exact (conj H (@assign_resource_raises equatorial_distance service_malformed
                   "A1" 0 0 "R3" None AttributeError H)).
Defined.

Lemma service0_recorded : recorded service0.
Proof. split; [constructor | intros h []]. Qed.

(** The history after [calls]: the one completion, of A1. *)
Lemma history_demo :
  consistent service0
  /\ recorded service0
  /\ reach equatorial_distance service0 calls after_calls
  /\ recorded after_calls.
Proof.
  exact (conj service0_consistent
           (conj service0_recorded
              (conj calls_reach
                 (@history_records_completions equatorial_distance service0
                    after_calls calls service0_consistent service0_recorded
                    calls_reach)))).
Defined.

(** The two drones found for R1 are different resources of the five. *)
Lemma no_duplicates_demo :
  keyed (resources registry)
  /\ discover_resources equatorial_distance registry request 50 = Ok [d2; d1]
  /\ NoDup (map Resource.resource_id [d2; d1])
  /\ NoDup [d2; d1]
  /\ (List.length [d2; d1] <= List.length (resources registry))%nat.
Proof.
  assert (K : keyed (resources registry)) by keyed_registry.
  assert (H : discover_resources equatorial_distance registry request 50
              = Ok [d2; d1]) by (vm_compute; reflexivity).
  exact (conj K (conj H
           (@discover_has_no_duplicates equatorial_distance registry request 50
              [d2; d1] K H))).
Defined.

(** What the first poll of A1 returns. *)
Lemma poll_result_demo :
  fst (update_assignment_progress 42 "A1" assigned)
  = Ok (Some
          (DispatchAssignment.append_update
             (mkProgressUpdate 42 "dispatched"
                "Emergency Drone D1 has been dispatched" None)
             (DispatchAssignment.set_status DispatchStatus.DISPATCHED
                a1_assigned)))
  /\ Some
       (DispatchAssignment.append_update
          (mkProgressUpdate 42 "dispatched"
             "Emergency Drone D1 has been dispatched" None)
          (DispatchAssignment.set_status DispatchStatus.DISPATCHED a1_assigned))
     = dict_get "A1"
         (assignments (snd (update_assignment_progress 42 "A1" assigned)))
  /\ (Some
        (DispatchAssignment.append_update
           (mkProgressUpdate 42 "dispatched"
              "Emergency Drone D1 has been dispatched" None)
           (DispatchAssignment.set_status DispatchStatus.DISPATCHED
              a1_assigned)) = None
      <-> dict_get "A1" (assignments assigned) = None)
  /\ forall a',
       Some
         (DispatchAssignment.append_update
            (mkProgressUpdate 42 "dispatched"
               "Emergency Drone D1 has been dispatched" None)
            (DispatchAssignment.set_status DispatchStatus.DISPATCHED
               a1_assigned)) = Some a' ->
       DispatchAssignment.status a' <> DispatchStatus.ASSIGNED.
Proof.
  assert (H : fst (update_assignment_progress 42 "A1" assigned)
              = Ok (Some
                      (DispatchAssignment.append_update
                         (mkProgressUpdate 42 "dispatched"
                            "Emergency Drone D1 has been dispatched" None)
                         (DispatchAssignment.set_status
                            DispatchStatus.DISPATCHED a1_assigned))))
    by (vm_compute; reflexivity).
  exact (conj H (@polled_assignment_is_not_assigned assigned 42 "A1" _ H)).
Defined.

(** Further runs of the code the theorems are about. *)
Example register_demo :
  map fst (resources (snd (register_resource registry
                             (drone "D2" origin ResourceStatus.AVAILABLE))))
  = ["D1"; "TEAM_001"; "D2"; "D3"; "D4"]
  /\ map fst (resources (snd (register_resource registry
                                (drone "D9" origin ResourceStatus.AVAILABLE))))
     = ["D1"; "TEAM_001"; "D2"; "D3"; "D4"; "D9"]
  /\ update_resource_status registry "D9" ResourceStatus.MAINTENANCE None
     = (false, registry).
Proof. vm_compute. repeat split. Qed.

Example malformed_demo :
  _meets_requirements d1 (DispatchRequest.requirements malformed)
  = Raise AttributeError
  /\ _meets_requirements team (DispatchRequest.requirements malformed)
     = Ok false
  /\ discover_resources equatorial_distance registry malformed 50
     = Raise AttributeError.
Proof. vm_compute. repeat split. Qed.

(** After [calls] the drone D1 is AVAILABLE, by the cancellation of A1
    that was completed, while A2 holds it. *)
Example cancel_frees_a_taken_resource :
  option_map Resource.status
    (dict_get "D1" (resources (discovery_service after_calls)))
  = Some ResourceStatus.AVAILABLE
  /\ option_map (fun a => (DispatchAssignment.resource_id a,
                           DispatchAssignment.status a))
       (dict_get "A2" (assignments after_calls))
     = Some ("D1", DispatchStatus.ASSIGNED).
Proof. vm_compute. repeat split. Qed.
